(** * Secret syncer: hub-to-spoke projection of git-auth secrets

    A shallow embedding of [pkg/reconciler/reconciler.go] and of the event
    filter of [pkg/reconciler/controller.go].

    The Go code is glue around client libraries.  The embedding keeps the
    control flow of each function as it is written and threads an explicit
    world [W] through every call into a client, a logger or the work queue:
    - an interface of the Go code (hub and spoke clientsets, the workload
      lister) is a record of methods over the world;
    - package-level functions of the libraries ([clientcmd], [NewForConfig],
      [IsDone], the zap sink, [EnqueueKey]) are fields of the class
      [External], so that every general theorem holds for all of their
      implementations;
    - a nil-pointer dereference is the outcome [Panic].
    Left out: the deadline and cancellation carried by [context.Context],
    the empty [GetOptions]/[CreateOptions], and [Promote]/[Demote], which do
    nothing.  A nil Go map reads as the empty map, a nil slice as the empty
    list.
    The module [Fake] instantiates the world with in-memory object trackers
    in the manner of the fake clientsets used by the test suite. *)

From Stdlib Require Import Strings.Byte Strings.Ascii Strings.String.
From stdpp Require Import gmap strings list fin_maps.

Set Default Proof Using "Type".
Open Scope string_scope.

(* ===================================================================== *)
(** ** Go errors and the apimachinery classification *)
(* ===================================================================== *)

(** An [error] value: an API status error (reason, HTTP code, message), a
    plain [errors.New]/[fmt.Errorf] string, or a [fmt.Errorf] with [%w] which
    keeps the wrapped error reachable for [errors.As]. *)
Inductive error : Type :=
| StatusError (reason : string) (code : Z) (message : string)
| errorString (s : string)
| wrapError (msg : string) (err : error).

(** [err.Error()] *)
Definition Error (err : error) : string :=
  match err with
  | StatusError _ _ message => message
  | errorString s => s
  | wrapError msg _ => msg
  end.

(** [fmt.Errorf(format)] with the verbs already substituted. *)
Definition fmt_Errorf (msg : string) : error := errorString msg.

(** [fmt.Errorf("<prefix>%w", err)]: the text is the prefix followed by the
    text of [err]. *)
Definition fmt_Errorf_w (prefix : string) (err : error) : error :=
  wrapError (prefix +:+ Error err) err.

Definition StatusReasonUnknown : string := "".
Definition StatusReasonNotFound : string := "NotFound".
Definition StatusReasonAlreadyExists : string := "AlreadyExists".
Definition StatusReasonForbidden : string := "Forbidden".

Definition knownReasons : list string :=
  [ "Unauthorized"; "Forbidden"; "NotFound"; "AlreadyExists"; "Conflict";
    "Gone"; "Invalid"; "ServerTimeout"; "Timeout"; "TooManyRequests";
    "BadRequest"; "MethodNotAllowed"; "NotAcceptable";
    "RequestEntityTooLarge"; "UnsupportedMediaType"; "InternalError";
    "Expired"; "ServiceUnavailable" ].

(** [reasonAndCodeForError]: the first API status in the wrap chain. *)
Fixpoint reasonAndCodeForError (err : error) : string * Z :=
  match err with
  | StatusError reason code _ => (reason, code)
  | errorString _ => (StatusReasonUnknown, 0%Z)
  | wrapError _ inner => reasonAndCodeForError inner
  end.

Definition ReasonForError (err : error) : string :=
  fst (reasonAndCodeForError err).

(** [errors.IsNotFound] *)
Definition IsNotFound (err : error) : bool :=
  let '(reason, code) := reasonAndCodeForError err in
  if String.eqb reason StatusReasonNotFound then true
  else if negb (bool_decide (reason ∈ knownReasons)) && Z.eqb code 404 then true
  else false.

(** [errors.IsAlreadyExists] *)
Definition IsAlreadyExists (err : error) : bool :=
  String.eqb (ReasonForError err) StatusReasonAlreadyExists.

(** A Go pair [(value, error)] of which exactly one side is meaningful. *)
Inductive Result (A : Type) : Type :=
| Ok (a : A)
| Err (e : error).
Arguments Ok {A} a.
Arguments Err {A} e.

(* ===================================================================== *)
(** ** Kubernetes objects *)
(* ===================================================================== *)

Module OwnerReference.
Record t : Type := mk {
    APIVersion : string;
    Kind : string;
    Name : string;
    UID : string;
    Controller : option bool;
    BlockOwnerDeletion : option bool
  }.

  (** The zero value, as produced by [make([]metav1.OwnerReference, n)]. *)
Definition zero : t := mk "" "" "" "" None None.

  (** The assignment [ref.UID = uid]. *)
Definition set_UID (uid : string) (ref : t) : t :=
    mk (APIVersion ref) (Kind ref) (Name ref) uid
       (Controller ref) (BlockOwnerDeletion ref).
End OwnerReference.

Module ObjectMeta.
Record t : Type := mk {
    Name : string;
    Namespace : string;
    UID : string;
    ResourceVersion : string;
    Labels : gmap string string;
    Annotations : gmap string string;
    OwnerReferences : list OwnerReference.t
  }.

Definition zero : t := mk "" "" "" "" ∅ ∅ [].
End ObjectMeta.

Module Secret.
Record t : Type := mk {
    ObjectMeta : ObjectMeta.t;
    Immutable : option bool;
    Data : gmap string (list byte);
    StringData : gmap string string;
    Type_ : string
  }.
End Secret.

Module Workload.
Record t : Type := mk {
    ObjectMeta : ObjectMeta.t;
    (** [Spec.Active *bool] *)
    Spec_Active : option bool;
    (** [Status.ClusterName *string] *)
    Status_ClusterName : option string
  }.
End Workload.

Module Condition.
Record t : Type := mk {
    Type_ : string;
    Status : string
  }.
End Condition.

Module PipelineRun.
Record t : Type := mk {
    ObjectMeta : ObjectMeta.t;
    Status_Conditions : list Condition.t
  }.
End PipelineRun.

Module MultiKueueCluster.
Record t : Type := mk {
    ObjectMeta : ObjectMeta.t;
    (** [Spec.KubeConfig.LocationType] and [Spec.KubeConfig.Location] *)
    Spec_KubeConfig_LocationType : string;
    Spec_KubeConfig_Location : string
  }.
End MultiKueueCluster.

(** [metav1.GetControllerOf]: the first owner reference whose [Controller]
    pointer is set and true. *)
Fixpoint GetControllerOfRefs (refs : list OwnerReference.t) : option OwnerReference.t :=
  match refs with
  | [] => None
  | ref :: rest =>
      match OwnerReference.Controller ref with
      | Some true => Some ref
      | _ => GetControllerOfRefs rest
      end
  end.

Definition metav1_GetControllerOf (workload : Workload.t) : option OwnerReference.t :=
  GetControllerOfRefs (ObjectMeta.OwnerReferences (Workload.ObjectMeta workload)).

(** [strings.Split(s, "/")]: never empty. *)
Fixpoint strings_Split_slash (s : string) : list string :=
  match s with
  | EmptyString => [EmptyString]
  | String c rest =>
      let parts := strings_Split_slash rest in
      if Ascii.eqb c "/"%char then EmptyString :: parts
      else match parts with
           | p :: ps => String c p :: ps
           | [] => [String c EmptyString]
           end
  end.

(** [cache.SplitMetaNamespaceKey]; the [%q] quoting of the key inside the
    error text is kept as the bare key (the caller only tests for nil). *)
Definition cache_SplitMetaNamespaceKey (key : string) : string * string * option error :=
  match strings_Split_slash key with
  | [name] => ("", name, None)
  | [namespace; name] => (namespace, name, None)
  | _ => ("", "", Some (fmt_Errorf ("unexpected key format: " +:+ key)))
  end.

(* ===================================================================== *)
(** ** Effects: the world-passing monad *)
(* ===================================================================== *)

(** A Go call either returns or panics (nil-pointer dereference). *)
Inductive Outcome (A : Type) : Type :=
| Done (a : A)
| Panic (msg : string).
Arguments Done {A} a.
Arguments Panic {A} msg.

Definition M (W A : Type) : Type := W -> Outcome A * W.

Definition ret {W A : Type} (a : A) : M W A := fun w => (Done a, w).

Definition bind {W A B : Type} (m : M W A) (k : A -> M W B) : M W B :=
  fun w =>
    match m w with
    | (Done a, w') => k a w'
    | (Panic msg, w') => (Panic msg, w')
    end.

Definition panic {W A : Type} (msg : string) : M W A := fun w => (Panic msg, w).

(** Reading through a Go pointer. *)
Definition deref {W A : Type} (p : option A) : M W A :=
  match p with
  | Some a => ret a
  | None => panic "invalid memory address or nil pointer dereference"
  end.

(** An effect that only changes the world. *)
Definition effect {W : Type} (f : W -> W) : M W unit := fun w => (Done tt, f w).

Declare Scope go_scope.
Delimit Scope go_scope with go.
Notation "x <- m ;; k" := (bind m (fun x => k))
  (at level 100, m at next level, right associativity) : go_scope.
Notation "m ;;; k" := (bind m (fun _ => k))
  (at level 100, right associativity) : go_scope.
Open Scope go_scope.

(* ===================================================================== *)
(** ** Loggers, clients and library functions *)
(* ===================================================================== *)

Inductive Level : Type := DebugLevel | InfoLevel | ErrorLevel.

(** A zap sugared logger: the sink it writes to and the structured fields
    accumulated by [With]. *)
Record SugaredLogger : Type := mkLogger {
  logger_sink : string;
  logger_fields : list (string * string)
}.

Definition With (l : SugaredLogger) (kvs : list (string * string)) : SugaredLogger :=
  mkLogger (logger_sink l) (logger_fields l ++ kvs).

(** [context.Context]: only the logger it carries is read. *)
Record Context : Type := mkContext {
  ctx_logger : SugaredLogger
}.

Definition logging_FromContext (ctx : Context) : SugaredLogger := ctx_logger ctx.

(** [kubernetes.Interface], restricted to [CoreV1().Secrets(ns)]. *)
Record KubeInterface (W : Type) : Type := mkKube {
  Secrets_Get : string -> string -> M W (Result Secret.t);
  Secrets_Create : string -> Secret.t -> M W (Result Secret.t)
}.
Arguments Secrets_Get {W} _ _ _.
Arguments Secrets_Create {W} _ _ _.

(** [tektonversioned2.Interface], restricted to [TektonV1().PipelineRuns(ns)]. *)
Record TektonInterface (W : Type) : Type := mkTekton {
  PipelineRuns_Get : string -> string -> M W (Result PipelineRun.t)
}.
Arguments PipelineRuns_Get {W} _ _ _.

(** [kueueversioned.Interface], restricted to
    [KueueV1beta1().MultiKueueClusters()]. *)
Record KueueInterface (W : Type) : Type := mkKueue {
  MultiKueueClusters_Get : string -> M W (Result MultiKueueCluster.t)
}.
Arguments MultiKueueClusters_Get {W} _ _.

(** [kueuev1beta1lister.WorkloadLister]: [Workloads(ns).Get(name)]. *)
Record WorkloadLister (W : Type) : Type := mkLister {
  Workloads_Get : string -> string -> M W (Result Workload.t)
}.
Arguments Workloads_Get {W} _ _ _.

(** [types.NamespacedName] *)
Record NamespacedName : Type := mkNamespacedName {
  nn_Namespace : string;
  nn_Name : string
}.

(** The library functions the package calls.  [rest_Config] is the opaque
    [*rest.Config]. *)
Class External (W : Type) : Type := {
  rest_Config : Type;
  zap_write : SugaredLogger -> Level -> string -> W -> W;
  clientcmd_RESTConfigFromKubeConfig : list byte -> Result rest_Config;
  clientcmd_BuildConfigFromFlags : string -> string -> M W (Result rest_Config);
  kubernetes_NewForConfig : rest_Config -> Result (KubeInterface W);
  tektonversioned2_NewForConfig : rest_Config -> Result (TektonInterface W);
  PipelineRun_IsDone : PipelineRun.t -> bool;
  controller_Impl : Type;
  controller_EnqueueKey : controller_Impl -> NamespacedName -> W -> W
}.

Section Logging.
Context {W : Type} `{External W}.

Definition Debugf (l : SugaredLogger) (msg : string) : M W unit :=
  effect (zap_write l DebugLevel msg).
Definition Infof (l : SugaredLogger) (msg : string) : M W unit :=
  effect (zap_write l InfoLevel msg).
Definition Errorf (l : SugaredLogger) (msg : string) : M W unit :=
  effect (zap_write l ErrorLevel msg).
End Logging.

(** [type Reconciler struct] *)
Record Reconciler (W : Type) : Type := mkReconciler {
  logger : SugaredLogger;
  hubKubeClient : KubeInterface W;
  workloadLister : WorkloadLister W;
  kueueClient : KueueInterface W;
  kueueNamespace : string
}.
Arguments logger {W} _.
Arguments hubKubeClient {W} _.
Arguments workloadLister {W} _.
Arguments kueueClient {W} _.
Arguments kueueNamespace {W} _.

Definition groupName : string := "pipelinesascode.tekton.dev".
Definition gitAuthSecret : string := groupName +:+ "/git-auth-secret".

(* ===================================================================== *)
(** ** reconciler.go *)
(* ===================================================================== *)

Section Code.
Context {W : Type} `{External W}.

(** [getSpokeClusterConfig] retrieves the REST config for a spoke cluster. *)
Definition getSpokeClusterConfig (r : Reconciler W) (clusterName : string)
  : M W (Result rest_Config) :=
  res <- MultiKueueClusters_Get (kueueClient r) clusterName ;;
  match res with
  | Err err =>
      ret (Err (fmt_Errorf_w
                  ("could not find MultiKueueCluster " +:+ clusterName +:+ ": ") err))
  | Ok mkCluster =>
      let LocationType := MultiKueueCluster.Spec_KubeConfig_LocationType mkCluster in
      let Location := MultiKueueCluster.Spec_KubeConfig_Location mkCluster in
      if String.eqb LocationType "Secret" then
        res <- Secrets_Get (hubKubeClient r) (kueueNamespace r) Location ;;
        match res with
        | Err err =>
            ret (Err (fmt_Errorf_w
                        ("could not get kubeconfig secret " +:+ kueueNamespace r
                           +:+ "/" +:+ Location +:+ ": ") err))
        | Ok kubeconfigSecret =>
            match Secret.Data kubeconfigSecret !! "kubeconfig" with
            | None =>
                ret (Err (fmt_Errorf
                            ("kubeconfig secret " +:+ kueueNamespace r +:+ "/"
                               +:+ Location +:+ " is missing 'kubeconfig' data key")))
            | Some kubeconfigBytes =>
                ret (clientcmd_RESTConfigFromKubeConfig kubeconfigBytes)
            end
        end
      else if String.eqb LocationType "Path" then
        clientcmd_BuildConfigFromFlags "" Location
      else
        ret (Err (fmt_Errorf
                    ("unsupported kubeconfig location type: " +:+ LocationType)))
  end.

(** [validatePLRAndGetSecretName]: the Go triple
    [(string, *v1.PipelineRun, error)]. *)
Definition validatePLRAndGetSecretName (r : Reconciler W)
    (spokeTektonClient : TektonInterface W)
    (plrName plrNamespace clusterName : string)
  : M W (string * option PipelineRun.t * option error) :=
  res <- PipelineRuns_Get spokeTektonClient plrNamespace plrName ;;
  match res with
  | Err err =>
      if IsNotFound err then
        Infof (logger r)
          ("PipelineRun " +:+ plrNamespace +:+ "/" +:+ plrName
             +:+ " is not created yet on spoke cluster " +:+ clusterName
             +:+ ", skipping reconciliation: " +:+ Error err) ;;;
        ret ("", None, None)
      else
        Errorf (logger r)
          ("error getting PipelineRun " +:+ plrNamespace +:+ "/" +:+ plrName
             +:+ " on spoke cluster " +:+ clusterName +:+ ": " +:+ Error err) ;;;
        ret ("", None, Some err)
  | Ok pipelineRun =>
      Infof (logger r)
        ("retrieved PipelineRun " +:+ plrNamespace +:+ "/" +:+ plrName
           +:+ " successfully from spoke cluster " +:+ clusterName) ;;;
      if PipelineRun_IsDone pipelineRun then
        Infof (logger r)
          ("PipelineRun " +:+ plrNamespace +:+ "/" +:+ plrName
             +:+ " is done on spoke cluster " +:+ clusterName
             +:+ ", skipping reconciliation") ;;;
        ret ("", None, None)
      else
        match ObjectMeta.Annotations (PipelineRun.ObjectMeta pipelineRun)
                !! gitAuthSecret with
        | None =>
            Infof (logger r)
              ("git auth secret not found for PipelineRun " +:+ plrNamespace
                 +:+ "/" +:+ plrName +:+ " on spoke cluster " +:+ clusterName) ;;;
            ret ("", None, None)
        | Some secretName =>
            Infof (logger r)
              ("PipelineRun " +:+ plrNamespace +:+ "/" +:+ plrName
                 +:+ " has git auth secret " +:+ secretName) ;;;
            ret (secretName, Some pipelineRun, None)
        end
  end.

(** The [for i, ref := range secret.OwnerReferences] loop of
    [createSecretOnSpokeCluster], from index [i] on: slot [i] of the
    destination receives [ref], then its [UID] is overwritten. *)
Fixpoint copyOwnerReferences (uid : string) (i : nat)
    (refs dst : list OwnerReference.t) : list OwnerReference.t :=
  match refs with
  | [] => dst
  | ref :: rest =>
      let dst := <[i := ref]> dst in
      let dst := alter (OwnerReference.set_UID uid) i dst in
      copyOwnerReferences uid (S i) rest dst
  end.

(** The object assembled by [createSecretOnSpokeCluster] between the hub
    fetch and the spoke create ([newSecret] in the source). *)
Definition newSecret (secret : Secret.t) (pipelineRun : PipelineRun.t) : Secret.t :=
  let src := Secret.ObjectMeta secret in
  let OwnerReferences :=
    if (0 <? length (ObjectMeta.OwnerReferences src))%nat then
      copyOwnerReferences
        (ObjectMeta.UID (PipelineRun.ObjectMeta pipelineRun)) 0
        (ObjectMeta.OwnerReferences src)
        (replicate (length (ObjectMeta.OwnerReferences src)) OwnerReference.zero)
    else [] in
  Secret.mk
    (ObjectMeta.mk (ObjectMeta.Name src) (ObjectMeta.Namespace src) "" ""
       (ObjectMeta.Labels src) (ObjectMeta.Annotations src) OwnerReferences)
    None
    (Secret.Data secret)
    ∅
    (Secret.Type_ secret).

(** [createSecretOnSpokeCluster]; [pipelineRun] is the Go pointer. *)
Definition createSecretOnSpokeCluster (r : Reconciler W)
    (secretName clusterName : string) (spokeKubeClient : KubeInterface W)
    (pipelineRun : option PipelineRun.t) : M W (option error) :=
  plr <- deref pipelineRun ;;
  let plrNamespace := ObjectMeta.Namespace (PipelineRun.ObjectMeta plr) in
  let plrName := ObjectMeta.Name (PipelineRun.ObjectMeta plr) in
  res <- Secrets_Get (hubKubeClient r) plrNamespace secretName ;;
  match res with
  | Err err =>
      Errorf (logger r)
        ("error getting secret " +:+ plrNamespace +:+ "/" +:+ secretName
           +:+ " for PipelineRun " +:+ plrName +:+ ": " +:+ Error err) ;;;
      ret (Some err)
  | Ok secret =>
      Infof (logger r)
        ("retrieved secret " +:+ plrNamespace +:+ "/" +:+ secretName
           +:+ " for PipelineRun " +:+ plrName +:+ " successfully") ;;;
      let newSecret := newSecret secret plr in
      let ns := ObjectMeta.Namespace (Secret.ObjectMeta newSecret) in
      let name := ObjectMeta.Name (Secret.ObjectMeta newSecret) in
      res <- Secrets_Create spokeKubeClient ns newSecret ;;
      match res with
      | Err err =>
          if negb (IsAlreadyExists err) then
            Errorf (logger r)
              ("error creating secret " +:+ ns +:+ "/" +:+ name +:+ ": "
                 +:+ Error err) ;;;
            ret (Some err)
          else
            Infof (logger r)
              ("successfully created secret " +:+ ns +:+ "/" +:+ name
                 +:+ " on spoke cluster " +:+ clusterName) ;;;
            ret None
      | Ok _ =>
          Infof (logger r)
            ("successfully created secret " +:+ ns +:+ "/" +:+ name
               +:+ " on spoke cluster " +:+ clusterName) ;;;
          ret None
      end
  end.

(** [Reconcile] is the main entry point for reconciling Workload
    resources. *)
Definition Reconcile (r : Reconciler W) (ctx : Context) (key : string)
  : M W (option error) :=
  let logger0 := logging_FromContext ctx in
  let '(namespace, name, err) := cache_SplitMetaNamespaceKey key in
  match err with
  | Some _ =>
      Errorf logger0 ("invalid resource key: " +:+ key) ;;;
      ret None
  | None =>
  let logger1 := With logger0 [("namespace", namespace); ("workload", name)] in
  Debugf logger1 ("reconciling workload " +:+ namespace +:+ "/" +:+ name) ;;;
  res <- Workloads_Get (workloadLister r) namespace name ;;
  match res with
  | Err err =>
      if IsNotFound err then
        Debugf logger1
          ("workload " +:+ namespace +:+ "/" +:+ name
             +:+ " no longer exists, may be deleted, skipping reconciliation") ;;;
        ret None
      else
        Errorf logger1
          ("error getting workload " +:+ namespace +:+ "/" +:+ name +:+ ": "
             +:+ Error err) ;;;
        ret (Some err)
  | Ok workload =>
  match Workload.Spec_Active workload with
  | Some false =>
      Infof logger1
        ("workload " +:+ namespace +:+ "/" +:+ name
           +:+ " is not active, skipping reconciliation") ;;;
      ret None
  | _ =>
  match Workload.Status_ClusterName workload with
  | None | Some "" =>
      Infof logger1
        ("workload " +:+ namespace +:+ "/" +:+ name
           +:+ " has no cluster name, skipping reconciliation") ;;;
      ret None
  | Some clusterName =>
  match metav1_GetControllerOf workload with
  | None =>
      Infof logger1
        ("workload " +:+ namespace +:+ "/" +:+ name
           +:+ " has no owner PipelineRun, skipping reconciliation") ;;;
      ret None
  | Some ownerPipelineRunReference =>
  if negb (String.eqb (OwnerReference.Kind ownerPipelineRunReference) "PipelineRun") then
    Infof logger1
      ("workload " +:+ namespace +:+ "/" +:+ name
         +:+ " has owner reference of kind "
         +:+ OwnerReference.Kind ownerPipelineRunReference
         +:+ ", skipping reconciliation") ;;;
    ret None
  else
  (* [workload.Status.ClusterName != nil] holds here *)
  let logger2 := With logger1 [("clusterInfo", clusterName)] in
  let logger3 :=
    With logger2 [("PipelineRun", OwnerReference.Name ownerPipelineRunReference)] in
  let wlNamespace := ObjectMeta.Namespace (Workload.ObjectMeta workload) in
  let wlName := ObjectMeta.Name (Workload.ObjectMeta workload) in
  res <- getSpokeClusterConfig r clusterName ;;
  match res with
  | Err err =>
      Errorf (logger r)
        ("error getting spoke cluster config for workload " +:+ wlNamespace
           +:+ "/" +:+ wlName +:+ ": " +:+ Error err) ;;;
      ret (Some err)
  | Ok spokeClusterConfig =>
  match kubernetes_NewForConfig spokeClusterConfig with
  | Err err =>
      Errorf (logger r) ("error creating spoke kube client: " +:+ Error err) ;;;
      ret (Some err)
  | Ok spokeKubeClient =>
  match tektonversioned2_NewForConfig spokeClusterConfig with
  | Err err =>
      Errorf (logger r)
        ("error creating spoke tekton client for workload " +:+ wlNamespace
           +:+ "/" +:+ wlName +:+ ": " +:+ Error err) ;;;
      ret (Some err)
  | Ok spokeTektonClient =>
  v <- validatePLRAndGetSecretName r spokeTektonClient
         (OwnerReference.Name ownerPipelineRunReference) wlNamespace clusterName ;;
  let '(secretName, pipelineRun, err) := v in
  match err with
  | Some err => ret (Some err)
  | None =>
  if String.eqb secretName "" then ret None
  else
  err <- createSecretOnSpokeCluster r secretName clusterName spokeKubeClient
           pipelineRun ;;
  match err with
  | Some err =>
      plr <- deref pipelineRun ;;
      Errorf logger3
        ("error creating secret "
           +:+ ObjectMeta.Namespace (PipelineRun.ObjectMeta plr) +:+ "/"
           +:+ secretName +:+ " on spoke cluster " +:+ clusterName +:+ ": "
           +:+ Error err) ;;;
      ret (Some err)
  | None =>
      plr <- deref pipelineRun ;;
      Infof logger3
        ("successfully reconciled workload " +:+ wlNamespace +:+ "/" +:+ wlName
           +:+ " owned by PipelineRun "
           +:+ ObjectMeta.Name (PipelineRun.ObjectMeta plr)) ;;;
      ret None
  end end end end end end end end end end.
End Code.

(* ===================================================================== *)
(** ** controller.go *)
(* ===================================================================== *)

(** The dynamic values an informer hands to an event handler. *)
Inductive any : Type :=
| AnyWorkload (workload : Workload.t)
| AnyDeletedFinalStateUnknown (key : string) (obj : any)
| AnyOther.

(** [kmeta.DeletionHandlingAccessor]: the object itself, or the object held
    by a deletion tombstone. *)
Definition kmeta_DeletionHandlingAccessor (obj : any) : Result Workload.t :=
  match obj with
  | AnyWorkload w => Ok w
  | AnyDeletedFinalStateUnknown _ (AnyWorkload w) => Ok w
  | AnyDeletedFinalStateUnknown _ _ =>
      Err (fmt_Errorf "the object that Tombstone contained is not of kmeta.Accessor")
  | AnyOther => Err (fmt_Errorf "couldn't get Accessor from tombstone")
  end.

Definition controllerName : string := "kueue-workload-controller".

Section Controller.
Context {W : Type} `{External W}.

(** The [for _, owner := range object.GetOwnerReferences()] loop of
    [checkOwnerAndEnqueue], which returns at the first match. *)
Fixpoint checkOwners (impl : controller_Impl) (object : Workload.t)
  (owners : list OwnerReference.t) : M W unit :=
  match owners with
  | [] => ret tt
  | owner :: rest =>
      if String.eqb (OwnerReference.Kind owner) "PipelineRun" then
        effect (controller_EnqueueKey impl
                  (mkNamespacedName
                     (ObjectMeta.Namespace (Workload.ObjectMeta object))
                     (ObjectMeta.Name (Workload.ObjectMeta object))))
      else checkOwners impl object rest
  end.

(** [checkOwnerAndEnqueue] only enqueues workloads which have
    OwnerReference kind as PipelineRun. *)
Definition checkOwnerAndEnqueue (impl : controller_Impl) (obj : any) : M W unit :=
  match kmeta_DeletionHandlingAccessor obj with
  | Ok object =>
      checkOwners impl object
        (ObjectMeta.OwnerReferences (Workload.ObjectMeta object))
  | Err _ => ret tt
  end.
End Controller.

(* ===================================================================== *)
(** ** An in-memory world: fake clientsets over object trackers *)
(* ===================================================================== *)

Module Fake.

(** The objects an API server holds, keyed by (namespace, name). *)
Record Cluster : Type := mkCluster {
  secrets : gmap (string * string) Secret.t;
  pipelineRuns : gmap (string * string) PipelineRun.t
}.

(** Which API server a clientset talks to: the hub, or the spoke reached
    at a host. *)
Inductive Target : Type :=
| Hub
| Spoke (host : string).

(** The requests recorded by the fake clientsets. *)
Inductive Action : Type :=
| GetAction (target : Target) (resource : string) (namespace name : string)
| CreateAction (target : Target) (resource : string) (namespace name : string).

Record World : Type := mkWorld {
  (** informer cache of the workload lister *)
  workloads : gmap (string * string) Workload.t;
  (** cluster registrations on the hub *)
  multiKueueClusters : gmap string MultiKueueCluster.t;
  hub : Cluster;
  (** spoke API servers by host *)
  spokes : gmap string Cluster;
  (** local file system, for the [Path] location type *)
  files : gmap string (list byte);
  logs : list (SugaredLogger * Level * string);
  queue : list NamespacedName;
  actions : list Action
}.

Definition record (a : Action) (w : World) : World :=
  mkWorld (workloads w) (multiKueueClusters w) (hub w) (spokes w) (files w)
    (logs w) (queue w) (actions w ++ [a]).

Definition write_log (l : SugaredLogger) (lvl : Level) (msg : string)
    (w : World) : World :=
  mkWorld (workloads w) (multiKueueClusters w) (hub w) (spokes w) (files w)
    (logs w ++ [(l, lvl, msg)]) (queue w) (actions w).

Definition enqueue (impl : string) (k : NamespacedName) (w : World) : World :=
  mkWorld (workloads w) (multiKueueClusters w) (hub w) (spokes w) (files w)
    (logs w) (queue w ++ [k]) (actions w).

Definition cluster_at (t : Target) (w : World) : option Cluster :=
  match t with
  | Hub => Some (hub w)
  | Spoke host => spokes w !! host
  end.

Definition set_cluster (t : Target) (c : Cluster) (w : World) : World :=
  match t with
  | Hub =>
      mkWorld (workloads w) (multiKueueClusters w) c (spokes w) (files w)
        (logs w) (queue w) (actions w)
  | Spoke host =>
      mkWorld (workloads w) (multiKueueClusters w) (hub w)
        (<[host := c]> (spokes w)) (files w) (logs w) (queue w) (actions w)
  end.

Definition quote : string := String "034"%char "".

(** [errors.NewNotFound] and [errors.NewAlreadyExists] *)
Definition NewNotFound (resource name : string) : error :=
  StatusError StatusReasonNotFound 404
    (resource +:+ " " +:+ quote +:+ name +:+ quote +:+ " not found").
Definition NewAlreadyExists (resource name : string) : error :=
  StatusError StatusReasonAlreadyExists 409
    (resource +:+ " " +:+ quote +:+ name +:+ quote +:+ " already exists").

(** An API server that cannot be reached. *)
Definition unreachable (host : string) : error :=
  errorString ("dial tcp: lookup " +:+ host +:+ ": no such host").

Definition target_host (t : Target) : string :=
  match t with Hub => "hub" | Spoke host => host end.

Definition getSecret (t : Target) (namespace name : string)
  : M World (Result Secret.t) :=
  fun w =>
    let w := record (GetAction t "secrets" namespace name) w in
    match cluster_at t w with
    | None => (Done (Err (unreachable (target_host t))), w)
    | Some c =>
        match secrets c !! (namespace, name) with
        | Some s => (Done (Ok s), w)
        | None => (Done (Err (NewNotFound "secrets" name)), w)
        end
    end.

(** The tracker files an object under its own name in the namespace of
    the request; a taken identity is an already-exists failure. *)
Definition createSecret (t : Target) (namespace : string) (s : Secret.t)
  : M World (Result Secret.t) :=
  fun w =>
    let name := ObjectMeta.Name (Secret.ObjectMeta s) in
    let w := record (CreateAction t "secrets" namespace name) w in
    match cluster_at t w with
    | None => (Done (Err (unreachable (target_host t))), w)
    | Some c =>
        match secrets c !! (namespace, name) with
        | Some _ => (Done (Err (NewAlreadyExists "secrets" name)), w)
        | None =>
            (Done (Ok s),
             set_cluster t
               (mkCluster (<[(namespace, name) := s]> (secrets c)) (pipelineRuns c)) w)
        end
    end.

Definition getPipelineRun (t : Target) (namespace name : string)
  : M World (Result PipelineRun.t) :=
  fun w =>
    let w := record (GetAction t "pipelineruns" namespace name) w in
    match cluster_at t w with
    | None => (Done (Err (unreachable (target_host t))), w)
    | Some c =>
        match pipelineRuns c !! (namespace, name) with
        | Some p => (Done (Ok p), w)
        | None => (Done (Err (NewNotFound "pipelineruns.tekton.dev" name)), w)
        end
    end.

Definition getMultiKueueCluster (name : string)
  : M World (Result MultiKueueCluster.t) :=
  fun w =>
    let w := record (GetAction Hub "multikueueclusters" "" name) w in
    match multiKueueClusters w !! name with
    | Some c => (Done (Ok c), w)
    | None => (Done (Err (NewNotFound "multikueueclusters.kueue.x-k8s.io" name)), w)
    end.

(** The lister reads the informer cache; no request is sent. *)
Definition getWorkload (namespace name : string) : M World (Result Workload.t) :=
  fun w =>
    match workloads w !! (namespace, name) with
    | Some wl => (Done (Ok wl), w)
    | None => (Done (Err (NewNotFound "workload" name)), w)
    end.

Definition kube (t : Target) : KubeInterface World :=
  mkKube World (getSecret t) (createSecret t).
Definition tekton (t : Target) : TektonInterface World :=
  mkTekton World (getPipelineRun t).
Definition kueue : KueueInterface World := mkKueue World getMultiKueueCluster.
Definition lister : WorkloadLister World := mkLister World getWorkload.

(** A stand-in for the kubeconfig parser: a descriptor is the line
    [server: <host>]. *)
Definition server_prefix : string := "server: ".

Definition parseKubeConfig (bytes : list byte) : Result string :=
  let s := string_of_list_byte bytes in
  if String.prefix server_prefix s
  then Ok (String.substring (String.length server_prefix)
             (String.length s - String.length server_prefix) s)
  else Err (errorString "couldn't get version/kind; json parse error").

Definition buildConfigFromFlags (masterUrl path : string) : M World (Result string) :=
  fun w =>
    match files w !! path with
    | Some bytes => (Done (parseKubeConfig bytes), w)
    | None =>
        (Done (Err (errorString
                      ("stat " +:+ path +:+ ": no such file or directory"))), w)
    end.

(** Tekton's [IsDone]: the [Succeeded] condition is present and its status
    is not [Unknown]. *)
Definition isDone (pr : PipelineRun.t) : bool :=
  match List.find (fun c => String.eqb (Condition.Type_ c) "Succeeded")
          (PipelineRun.Status_Conditions pr) with
  | None => false
  | Some c => negb (String.eqb (Condition.Status c) "Unknown")
  end.

#[global] Instance external : External World := {
  rest_Config := string;
  zap_write := write_log;
  clientcmd_RESTConfigFromKubeConfig := parseKubeConfig;
  clientcmd_BuildConfigFromFlags := buildConfigFromFlags;
  kubernetes_NewForConfig := fun host => Ok (kube (Spoke host));
  tektonversioned2_NewForConfig := fun host => Ok (tekton (Spoke host));
  PipelineRun_IsDone := isDone;
  controller_Impl := string;
  controller_EnqueueKey := enqueue
}.

(** [NewController]'s reconciler over the fake hub. *)
Definition reconciler (kueueNamespace : string) : Reconciler World :=
  mkReconciler World (mkLogger "controller" []) (kube Hub) lister kueue
    kueueNamespace.

Definition ctx : Context := mkContext (mkLogger "context" []).

End Fake.

(* ===================================================================== *)
(** ** Vocabulary of the specification *)
(* ===================================================================== *)

Section Vocabulary.
Context {W : Type} `{External W}.

  (** The logger [Reconcile] uses once the key is parsed. *)
Definition workloadLogger (ctx : Context) (namespace name : string) : SugaredLogger :=
    With (logging_FromContext ctx) [("namespace", namespace); ("workload", name)].

  (** The first two steps [Reconcile] takes on a parsed key: the debug line
      and the lookup in the lister's cache. *)
Definition lookupWorkload (r : Reconciler W) (ctx : Context)
      (namespace name : string) : M W (Result Workload.t) :=
    Debugf (workloadLogger ctx namespace name)
      ("reconciling workload " +:+ namespace +:+ "/" +:+ name) ;;;
    Workloads_Get (workloadLister r) namespace name.

  (** The controlling owner reference is absent or of another kind. *)
Definition owner_out_of_scope (workload : Workload.t) : Prop :=
    metav1_GetControllerOf workload = None
    ∨ ∃ ref, metav1_GetControllerOf workload = Some ref
             ∧ OwnerReference.Kind ref ≠ "PipelineRun".

  (** A workload for which no cross-cluster work is due. *)
Definition gate_closed (workload : Workload.t) : Prop :=
    Workload.Spec_Active workload = Some false
    ∨ Workload.Status_ClusterName workload = None
    ∨ Workload.Status_ClusterName workload = Some ""
    ∨ owner_out_of_scope workload.

  (** A workload that passes every gate: scheduled to [clusterName] and
      controlled by the PipelineRun reference [ref]. *)
Definition gates_open (workload : Workload.t) (clusterName : string)
      (ref : OwnerReference.t) : Prop :=
    Workload.Spec_Active workload ≠ Some false
    ∧ Workload.Status_ClusterName workload = Some clusterName
    ∧ clusterName ≠ ""
    ∧ metav1_GetControllerOf workload = Some ref
    ∧ OwnerReference.Kind ref = "PipelineRun".

  (** Cluster resolution and client construction succeed from world [w],
      leaving world [w']. *)
Definition spoke_clients (r : Reconciler W) (clusterName : string)
      (spokeKubeClient : KubeInterface W) (spokeTektonClient : TektonInterface W)
      (w w' : W) : Prop :=
    ∃ cfg, getSpokeClusterConfig r clusterName w = (Done (Ok cfg), w')
           ∧ kubernetes_NewForConfig cfg = Ok spokeKubeClient
           ∧ tektonversioned2_NewForConfig cfg = Ok spokeTektonClient.

  (** Some owner reference, controlling or not, has kind PipelineRun. *)
Definition has_PipelineRun_owner (workload : Workload.t) : Prop :=
    ∃ ref, ref ∈ ObjectMeta.OwnerReferences (Workload.ObjectMeta workload)
           ∧ OwnerReference.Kind ref = "PipelineRun".

  (** Some owner reference of kind PipelineRun is not the controlling
      reference. *)
Definition has_non_controller_PipelineRun_owner (workload : Workload.t) : Prop :=
    ∃ ref, ref ∈ ObjectMeta.OwnerReferences (Workload.ObjectMeta workload)
           ∧ OwnerReference.Kind ref = "PipelineRun"
           ∧ metav1_GetControllerOf workload ≠ Some ref.

  (** [ref'] is [ref] with nothing but the UID replaced by [uid]. *)
Definition same_but_UID (uid : string) (ref ref' : OwnerReference.t) : Prop :=
    OwnerReference.UID ref' = uid
    ∧ OwnerReference.APIVersion ref' = OwnerReference.APIVersion ref
    ∧ OwnerReference.Kind ref' = OwnerReference.Kind ref
    ∧ OwnerReference.Name ref' = OwnerReference.Name ref
    ∧ OwnerReference.Controller ref' = OwnerReference.Controller ref
    ∧ OwnerReference.BlockOwnerDeletion ref' = OwnerReference.BlockOwnerDeletion ref.
End Vocabulary.

(* ===================================================================== *)
(** ** Scenarios over the fake world *)
(* ===================================================================== *)

Module Scenario.
Import Fake.

Definition bytes (s : string) : list byte := list_byte_of_string s.

Definition host : string := "https://cluster-a:6443".

Definition ownerRef (kind name : string) (controller : option bool) : OwnerReference.t :=
  OwnerReference.mk "tekton.dev/v1" kind name "hub-side-uid" controller (Some true).

Definition workload (name : string) (active : option bool)
    (clusterName : option string) (owners : list OwnerReference.t) : Workload.t :=
  Workload.mk (ObjectMeta.mk name "ns" "" "" ∅ ∅ owners) active clusterName.

Definition pipelineRun (uid : string) (annotations : gmap string string)
    (conditions : list Condition.t) : PipelineRun.t :=
  PipelineRun.mk (ObjectMeta.mk "plr-1" "ns" uid "" ∅ annotations []) conditions.

(** The hub secret [ns/git-creds] with payload [{token: "abc"}]. *)
Definition gitCreds (refs : list OwnerReference.t) : Secret.t :=
  Secret.mk (ObjectMeta.mk "git-creds" "ns" "hub-secret-uid" "7" ∅ ∅ refs) None
    {[ "token" := bytes "abc" ]} ∅ "Opaque".

(** The credential secret [kueue-system/kubeconfig-a]. *)
Definition kubeconfigA (data : gmap string (list byte)) : Secret.t :=
  Secret.mk (ObjectMeta.mk "kubeconfig-a" "kueue-system" "" "" ∅ ∅ []) None
    data ∅ "Opaque".

Definition validData : gmap string (list byte) :=
  {[ "kubeconfig" := bytes "server: https://cluster-a:6443" ]}.

Definition clusterA (locationType : string) : MultiKueueCluster.t :=
  MultiKueueCluster.mk (ObjectMeta.mk "cluster-a" "" "" "" ∅ ∅ [])
    locationType "kubeconfig-a".

(** A hub with one workload, the registration of [cluster-a], its credential
    secret and the source secret; a spoke at [host] with the given
    PipelineRuns and no secret. *)
Definition build (wl : Workload.t) (registration : MultiKueueCluster.t)
    (credential src : Secret.t)
    (plrs : gmap (string * string) PipelineRun.t) : World :=
  mkWorld
    {[ ("ns", ObjectMeta.Name (Workload.ObjectMeta wl)) := wl ]}
    {[ "cluster-a" := registration ]}
    (mkCluster {[ ("ns", "git-creds") := src;
                  ("kueue-system", "kubeconfig-a") := credential ]} ∅)
    {[ host := mkCluster ∅ plrs ]}
    ∅ [] [] [].

Definition wl1 : Workload.t :=
  workload "wl-1" (Some true) (Some "cluster-a")
    [ownerRef "PipelineRun" "plr-1" (Some true)].

(** The end-to-end scenario: [uid] is the UID of [plr-1] on the spoke and
    [refs] are the owner references of the hub secret. *)
Definition world (uid : string) (refs : list OwnerReference.t) : World :=
  build wl1 (clusterA "Secret") (kubeconfigA validData) (gitCreds refs)
    {[ ("ns", "plr-1") :=
         pipelineRun uid {[ gitAuthSecret := "git-creds" ]} [] ]}.

(** The outcome the end-to-end scenario is expected to have: no error, and
    on the spoke a secret [ns/git-creds] with the payload and an owner
    reference stamped with the UID of [plr-1]. *)
Definition synced_with_owner (uid : string) (out : Outcome (option error) * World) : Prop :=
  fst out = Done None
  ∧ ∃ c s ref,
      spokes (snd out) !! host = Some c
      ∧ secrets c !! ("ns", "git-creds") = Some s
      ∧ Secret.Data s = {[ "token" := bytes "abc" ]}
      ∧ ref ∈ ObjectMeta.OwnerReferences (Secret.ObjectMeta s)
      ∧ OwnerReference.UID ref = uid.

(** A workload that is explicitly inactive. *)
Definition inactive : World :=
  build (workload "wl-0" (Some false) (Some "cluster-a")
           [ownerRef "PipelineRun" "plr-1" (Some true)])
    (clusterA "Secret") (kubeconfigA validData) (gitCreds []) ∅.

(** A workload whose controller is a Job and which also lists a PipelineRun
    as a plain owner. *)
Definition wl3 : Workload.t :=
  workload "wl-3" (Some true) (Some "cluster-a")
    [ownerRef "PipelineRun" "plr-1" None; ownerRef "Job" "job-1" (Some true)].

Definition jobControlled : World :=
  build wl3 (clusterA "Secret") (kubeconfigA validData) (gitCreds []) ∅.

(** A workload with two PipelineRun owners: a plain one and the controller. *)
Definition wl2 : Workload.t :=
  workload "wl-2" (Some true) (Some "cluster-a")
    [ownerRef "PipelineRun" "plr-0" None; ownerRef "PipelineRun" "plr-1" (Some true)].

Definition twoOwners : World :=
  build wl2 (clusterA "Secret") (kubeconfigA validData) (gitCreds [])
    {[ ("ns", "plr-1") :=
         pipelineRun "spoke-uid" {[ gitAuthSecret := "git-creds" ]} [] ]}.

(** The spoke does not hold the PipelineRun yet. *)
Definition notCreatedYet : World :=
  build wl1 (clusterA "Secret") (kubeconfigA validData) (gitCreds []) ∅.

(** The PipelineRun has succeeded. *)
Definition finished : World :=
  build wl1 (clusterA "Secret") (kubeconfigA validData) (gitCreds [])
    {[ ("ns", "plr-1") :=
         pipelineRun "spoke-uid" {[ gitAuthSecret := "git-creds" ]}
           [Condition.mk "Succeeded" "True"] ]}.

(** The annotation is present and empty. *)
Definition emptyAnnotation : World :=
  build wl1 (clusterA "Secret") (kubeconfigA validData) (gitCreds [])
    {[ ("ns", "plr-1") := pipelineRun "spoke-uid" {[ gitAuthSecret := "" ]} [] ]}.

(** The credential secret lacks the [kubeconfig] key. *)
Definition wrongKey : World :=
  build wl1 (clusterA "Secret")
    (kubeconfigA {[ "wrong-key" := bytes "some-data" ]}) (gitCreds []) ∅.

(** The registration names an unknown location type. *)
Definition unsupportedType : World :=
  build wl1 (clusterA "UnsupportedType") (kubeconfigA validData) (gitCreds []) ∅.

(** A spoke clientset whose create is refused. *)
Definition forbidden : error :=
  StatusError StatusReasonForbidden 403 "secrets is forbidden".

Definition refusingKube : KubeInterface World :=
  mkKube World (getSecret (Spoke host))
    (fun _ _ w => (Done (Err forbidden), w)).

End Scenario.

(** A run from fake world [w] that returned nil, sent no request and left
    the hub and the spokes as they were. *)
Definition no_cross_cluster_work (w : Fake.World)
    (out : Outcome (option error) * Fake.World) : Prop :=
  fst out = Done None
  ∧ Fake.actions (snd out) = Fake.actions w
  ∧ Fake.hub (snd out) = Fake.hub w
  ∧ Fake.spokes (snd out) = Fake.spokes w.

(* ===================================================================== *)
(** ** controller.go: the hub client at start-up *)
(* ===================================================================== *)

(** What the process reads at start-up: the in-cluster configuration and
    the environment. *)
Class Process (W : Type) `{External W} : Type := {
  rest_InClusterConfig : M W (Result rest_Config);
  os_Getenv : string -> M W string
}.

Section Startup.
Context {W : Type} `{Process W}.

(** [getKubeClientAndConfig]: the Go triple
    [(kubernetes.Interface, *rest.Config, error)]. *)
Definition getKubeClientAndConfig : M W (Result (KubeInterface W * rest_Config)) :=
  res <- rest_InClusterConfig ;;
  res <- match res with
         | Ok cfg => ret (Ok cfg)
         | Err _ =>
             (* Fallback to kubeconfig file for local development *)
             kubeconfig <- os_Getenv "KUBECONFIG" ;;
             kubeconfig <- (if String.eqb kubeconfig "" then
                              home <- os_Getenv "HOME" ;;
                              ret (home +:+ "/.kube/config")
                            else ret kubeconfig) ;;
             clientcmd_BuildConfigFromFlags "" kubeconfig
         end ;;
  match res with
  | Err err => ret (Err err)
  | Ok cfg =>
      match kubernetes_NewForConfig cfg with
      | Err err => ret (Err err)
      | Ok hubKubeClient => ret (Ok (hubKubeClient, cfg))
      end
  end.

(** What [getKubeClientAndConfig] makes of a config, or of the failure to
    get one. *)
Definition hubClientFor (res : Result rest_Config)
  : Result (KubeInterface W * rest_Config) :=
  match res with
  | Err err => Err err
  | Ok cfg =>
      match kubernetes_NewForConfig cfg with
      | Err err => Err err
      | Ok hubKubeClient => Ok (hubKubeClient, cfg)
      end
  end.
End Startup.

(** A start-up environment for the fake world: the answer of the in-cluster
    lookup and the environment variables. *)
Definition fakeProcess (inCluster : Result string) (env : gmap string string)
  : Process Fake.World :=
  {| rest_InClusterConfig := fun w => (Done inCluster, w);
     os_Getenv := fun name w => (Done (default "" (env !! name)), w) |}.

(** Libraries over the fake world whose client constructors reject every
    config. *)
Definition rejectedConfig : error :=
  errorString "host must be a URL or a host:port pair".

Definition brokenConstructors : External Fake.World :=
  {| rest_Config := string;
     zap_write := Fake.write_log;
     clientcmd_RESTConfigFromKubeConfig := Fake.parseKubeConfig;
     clientcmd_BuildConfigFromFlags := Fake.buildConfigFromFlags;
     kubernetes_NewForConfig := fun _ => Err rejectedConfig;
     tektonversioned2_NewForConfig := fun _ => Err rejectedConfig;
     PipelineRun_IsDone := Fake.isDone;
     controller_Impl := string;
     controller_EnqueueKey := Fake.enqueue |}.

(* ===================================================================== *)
(** ** Vocabulary for effects *)
(* ===================================================================== *)

(** [m] returns, without panicking, a value satisfying [Q]. *)
Definition returns {W A : Type} (m : M W A) (Q : A -> Prop) : Prop :=
  ∀ w, ∃ a w', m w = (Done a, w') ∧ Q a.

Definition total {W A : Type} (m : M W A) : Prop := returns m (fun _ => True).

(** Every state [m] can leave is [R]-related to the state it started in. *)
Definition preserves {W A : Type} (R : W -> W -> Prop) (m : M W A) : Prop :=
  ∀ w, R w (snd (m w)).

Section ClientContracts.
Context {W : Type} `{External W}.

(** The calls a reconciliation can make all answer: the cache lookup, the
    registration and secret reads on the hub, the kubeconfig file loader,
    and, on clients built for a spoke, the PipelineRun read and the secret
    create. *)
Definition clients_total (r : Reconciler W) : Prop :=
  (∀ ns name, total (Secrets_Get (hubKubeClient r) ns name))
  ∧ (∀ ns name, total (Workloads_Get (workloadLister r) ns name))
  ∧ (∀ name, total (MultiKueueClusters_Get (kueueClient r) name))
  ∧ (∀ masterUrl path, total (clientcmd_BuildConfigFromFlags masterUrl path))
  ∧ (∀ cfg k ns s,
       kubernetes_NewForConfig cfg = Ok k -> total (Secrets_Create k ns s))
  ∧ (∀ cfg t ns name,
       tektonversioned2_NewForConfig cfg = Ok t -> total (PipelineRuns_Get t ns name)).

(** The same calls, and the logger, all keep [R]. *)
Definition clients_preserve (R : W -> W -> Prop) (r : Reconciler W) : Prop :=
  (∀ l lvl msg w, R w (zap_write l lvl msg w))
  ∧ (∀ ns name, preserves R (Secrets_Get (hubKubeClient r) ns name))
  ∧ (∀ ns name, preserves R (Workloads_Get (workloadLister r) ns name))
  ∧ (∀ name, preserves R (MultiKueueClusters_Get (kueueClient r) name))
  ∧ (∀ masterUrl path, preserves R (clientcmd_BuildConfigFromFlags masterUrl path))
  ∧ (∀ cfg k ns s,
       kubernetes_NewForConfig cfg = Ok k -> preserves R (Secrets_Create k ns s))
  ∧ (∀ cfg t ns name,
       tektonversioned2_NewForConfig cfg = Ok t -> preserves R (PipelineRuns_Get t ns name)).
End ClientContracts.

(** What a run may do to a fake world: the cache, the registrations, the
    hub and the files stay as they are; every spoke keeps its PipelineRuns
    and every secret it held. *)
Definition only_adds_spoke_secrets (w w' : Fake.World) : Prop :=
  Fake.workloads w' = Fake.workloads w
  ∧ Fake.multiKueueClusters w' = Fake.multiKueueClusters w
  ∧ Fake.hub w' = Fake.hub w
  ∧ Fake.files w' = Fake.files w
  ∧ (∀ host, Fake.spokes w !! host = None -> Fake.spokes w' !! host = None)
  ∧ ∀ host c,
      Fake.spokes w !! host = Some c ->
      ∃ c', Fake.spokes w' !! host = Some c'
            ∧ Fake.pipelineRuns c' = Fake.pipelineRuns c
            ∧ Fake.secrets c ⊆ Fake.secrets c'.

(** Two fake worlds hold the same objects; logs, queue and recorded
    requests may differ. *)
Definition same_objects (v v' : Fake.World) : Prop :=
  Fake.workloads v' = Fake.workloads v
  ∧ Fake.multiKueueClusters v' = Fake.multiKueueClusters v
  ∧ Fake.hub v' = Fake.hub v
  ∧ Fake.files v' = Fake.files v
  ∧ Fake.spokes v' = Fake.spokes v.

(** [v] agrees with [u] on cache, registrations, hub and files, has the
    same spokes with the same PipelineRuns, and every secret identity taken
    on a spoke of [u] is taken on that spoke of [v]. *)
Definition covers (u v : Fake.World) : Prop :=
  Fake.workloads v = Fake.workloads u
  ∧ Fake.multiKueueClusters v = Fake.multiKueueClusters u
  ∧ Fake.hub v = Fake.hub u
  ∧ Fake.files v = Fake.files u
  ∧ (∀ host, Fake.spokes u !! host = None -> Fake.spokes v !! host = None)
  ∧ ∀ host c,
      Fake.spokes u !! host = Some c ->
      ∃ c', Fake.spokes v !! host = Some c'
            ∧ Fake.pipelineRuns c' = Fake.pipelineRuns c
            ∧ ∀ k, is_Some (Fake.secrets c !! k) -> is_Some (Fake.secrets c' !! k).

(** Running [m] from [u] and [m'] from a covering [v]: both return, with
    [Q]-related values; [m] only adds secret identities; the final states
    are again covering; and when [v] already covers what [m] leaves, [m']
    leaves the objects of [v] as they are. *)
Definition settles {A B : Type} (Q : A -> B -> Prop)
    (m : M Fake.World A) (m' : M Fake.World B) : Prop :=
  ∀ u v, covers u v ->
    ∃ a u' b v',
      m u = (Done a, u') ∧ m' v = (Done b, v') ∧ Q a b
      ∧ covers u u' ∧ covers u' v'
      ∧ (covers u' v -> same_objects v v').

(** The answers of a create on a free and on a taken identity. *)
Definition accepted_or_taken (a b : Result Secret.t) : Prop :=
  a = b ∨ ∃ s e, a = Ok s ∧ b = Err e ∧ IsAlreadyExists e = true.

(** The number of ["/"] in a key. *)
Fixpoint slashes (key : string) : nat :=
  match key with
  | EmptyString => 0
  | String c rest => (if Ascii.eqb c "/"%char then 1 else 0) + slashes rest
  end.

(** Some owner reference has kind PipelineRun, as a test. *)
Definition any_PipelineRun_owner (owners : list OwnerReference.t) : bool :=
  existsb (fun owner => String.eqb (OwnerReference.Kind owner) "PipelineRun") owners.

(* ===================================================================== *)
(** ** Proof tactics *)
(* ===================================================================== *)

(** Unfold the monad down to world passing, leaving strings untouched. *)
Ltac run :=
  unfold deref, Infof, Errorf, Debugf, bind, ret, effect, panic;
  cbv beta iota zeta.

(** Walk [Reconcile] through the gates and the client construction, up to
    the call of the validator. *)
Ltac past_gates Hkey Hget Hcluster Hctl Hkind Hcfg Hk Ht :=
  unfold lookupWorkload, Debugf, bind, effect in Hget; cbv beta iota zeta in Hget;
  unfold Reconcile; rewrite Hkey; run;
  match type of Hget with
  | context [workloadLogger ?ctx ?ns ?n] => fold (workloadLogger ctx ns n)
  end;
  rewrite Hget; cbv beta iota; rewrite Hcluster, Hctl, Hkind;
  change ("PipelineRun" =? "PipelineRun")%string with true;
  change (negb true) with false;
  match goal with
  | Hne : ?cn ≠ "" |- _ => destruct cn; [done|]
  end;
  cbv beta iota;
  match goal with
  | |- context [Workload.Spec_Active ?wl] =>
      destruct (Workload.Spec_Active wl) as [[|]|]; try done
  end;
  cbv beta iota;
  rewrite Hcfg; cbv beta iota; rewrite Hk, Ht; cbv beta iota.

(** Walk [Reconcile] through the gates, up to the call of the resolver. *)
Ltac open_gates Hkey Hget Hcluster Hctl Hkind :=
  unfold lookupWorkload, Debugf, bind, effect in Hget; cbv beta iota zeta in Hget;
  unfold Reconcile; rewrite Hkey; run;
  match type of Hget with
  | context [workloadLogger ?ctx ?ns ?n] => fold (workloadLogger ctx ns n)
  end;
  rewrite Hget; cbv beta iota; rewrite Hcluster, Hctl, Hkind;
  change ("PipelineRun" =? "PipelineRun")%string with true;
  change (negb true) with false;
  match goal with
  | Hne : ?cn ≠ "" |- _ => destruct cn; [done|]
  end;
  cbv beta iota;
  match goal with
  | |- context [Workload.Spec_Active ?wl] =>
      destruct (Workload.Spec_Active wl) as [[|]|]; try done
  end;
  cbv beta iota.

(* ===================================================================== *)
(** ** Running the monad *)
(* ===================================================================== *)

Lemma bind_Done {W A B : Type} (m : M W A) (k : A -> M W B) (w w' : W) (a : A) :
  m w = (Done a, w') -> bind m k w = k a w'.
Proof. intros Hm. unfold bind. now rewrite Hm. Qed.

Lemma bind_effect {W B : Type} (f : W -> W) (k : unit -> M W B) (w : W) :
  bind (effect f) k w = k tt (f w).
Proof. reflexivity. Qed.

Lemma bind_ret {W A B : Type} (a : A) (k : A -> M W B) (w : W) :
  bind (ret a) k w = k a w.
Proof. reflexivity. Qed.

(* ===================================================================== *)
(** ** The owner-reference copy loop *)
(* ===================================================================== *)

Section OwnerReferenceCopy.

  (** Running the loop from index [i] fills the slots from [i] on with the
      re-stamped references and leaves the earlier slots alone. *)
Lemma copyOwnerReferences_from uid refs : forall i dst,
    length dst = i + length refs ->
    copyOwnerReferences uid i refs dst
    = (take i dst ++ map (OwnerReference.set_UID uid) refs)%list.
  Proof.
    induction refs as [|ref rest IH]; intros i dst Hlen; simpl.
    - simpl in Hlen. rewrite app_nil_r, firstn_all2; [done | lia].
    - simpl in Hlen. rewrite IH by (rewrite length_alter, length_insert; lia).
      assert (Hi : i < length dst) by lia.
      rewrite (take_S_r _ _ (OwnerReference.set_UID uid ref)).
      + rewrite take_alter_ge, take_insert_ge by lia.
        now rewrite <- app_assoc.
      + rewrite list_lookup_alter_eq, list_lookup_insert_eq by done. done.
  Qed.

Lemma newSecret_OwnerReferences secret pipelineRun :
    ObjectMeta.OwnerReferences (Secret.ObjectMeta (newSecret secret pipelineRun))
    = map (OwnerReference.set_UID
             (ObjectMeta.UID (PipelineRun.ObjectMeta pipelineRun)))
          (ObjectMeta.OwnerReferences (Secret.ObjectMeta secret)).
  Proof.
    unfold newSecret; simpl.
    destruct (ObjectMeta.OwnerReferences (Secret.ObjectMeta secret)) as [|ref rest] eqn:E.
    - reflexivity.
    - change (0 <? length (ref :: rest))%nat with true. cbv iota.
      rewrite copyOwnerReferences_from by (rewrite length_replicate; lia).
      reflexivity.
  Qed.

Lemma set_UID_same_but_UID uid ref :
    same_but_UID uid ref (OwnerReference.set_UID uid ref).
  Proof. repeat split. Qed.
End OwnerReferenceCopy.

(* ===================================================================== *)
(** ** Cluster config resolver and pipeline validator *)
(* ===================================================================== *)

Section Components.
Context {W : Type} `{External W}.
Implicit Types (r : Reconciler W) (w : W).

Lemma getSpokeClusterConfig_missing_key r clusterName mkCluster kubeconfigSecret w w1 w2 :
  MultiKueueClusters_Get (kueueClient r) clusterName w = (Done (Ok mkCluster), w1) ->
  MultiKueueCluster.Spec_KubeConfig_LocationType mkCluster = "Secret" ->
  Secrets_Get (hubKubeClient r) (kueueNamespace r)
    (MultiKueueCluster.Spec_KubeConfig_Location mkCluster) w1
  = (Done (Ok kubeconfigSecret), w2) ->
  Secret.Data kubeconfigSecret !! "kubeconfig" = None ->
  getSpokeClusterConfig r clusterName w
  = (Done (Err (errorString
                  ("kubeconfig secret " +:+ kueueNamespace r +:+ "/"
                     +:+ MultiKueueCluster.Spec_KubeConfig_Location mkCluster
                     +:+ " is missing 'kubeconfig' data key"))), w2).
Proof.
  intros Hget Htype Hsec Hkey.
  unfold getSpokeClusterConfig. run.
  rewrite Hget. cbv beta iota zeta. rewrite Htype.
  change ("Secret" =? "Secret")%string with true. cbv beta iota.
  rewrite Hsec. cbv beta iota. rewrite Hkey. reflexivity.
Qed.

Lemma getSpokeClusterConfig_unsupported r clusterName mkCluster w w1 :
  MultiKueueClusters_Get (kueueClient r) clusterName w = (Done (Ok mkCluster), w1) ->
  MultiKueueCluster.Spec_KubeConfig_LocationType mkCluster ≠ "Secret" ->
  MultiKueueCluster.Spec_KubeConfig_LocationType mkCluster ≠ "Path" ->
  getSpokeClusterConfig r clusterName w
  = (Done (Err (errorString
                  ("unsupported kubeconfig location type: "
                     +:+ MultiKueueCluster.Spec_KubeConfig_LocationType mkCluster))),
     w1).
Proof.
  intros Hget Hs Hp.
  unfold getSpokeClusterConfig. run.
  rewrite Hget. cbv beta iota zeta.
  apply String.eqb_neq in Hs, Hp. rewrite Hs, Hp. reflexivity.
Qed.

(** The validator on a failed fetch: not-found is a logged no-op, anything
    else is logged and handed back. *)
Lemma validate_fetch_failed r spokeTektonClient plrName plrNamespace clusterName err w w1 :
  PipelineRuns_Get spokeTektonClient plrNamespace plrName w = (Done (Err err), w1) ->
  ∃ msg,
    validatePLRAndGetSecretName r spokeTektonClient plrName plrNamespace clusterName w
    = if IsNotFound err
      then (Done ("", None, None), zap_write (logger r) InfoLevel msg w1)
      else (Done ("", None, Some err), zap_write (logger r) ErrorLevel msg w1).
Proof.
  intros Hget. unfold validatePLRAndGetSecretName. run. rewrite Hget.
  cbv beta iota. destruct (IsNotFound err); eexists; reflexivity.
Qed.

Lemma validate_annotated r spokeTektonClient plrName plrNamespace clusterName
    pipelineRun secretName w w1 :
  PipelineRuns_Get spokeTektonClient plrNamespace plrName w
  = (Done (Ok pipelineRun), w1) ->
  PipelineRun_IsDone pipelineRun = false ->
  ObjectMeta.Annotations (PipelineRun.ObjectMeta pipelineRun) !! gitAuthSecret
  = Some secretName ->
  ∃ msg1 msg2,
    validatePLRAndGetSecretName r spokeTektonClient plrName plrNamespace clusterName w
    = (Done (secretName, Some pipelineRun, None),
       zap_write (logger r) InfoLevel msg2 (zap_write (logger r) InfoLevel msg1 w1)).
Proof.
  intros Hget Hdone Hann. unfold validatePLRAndGetSecretName. run. rewrite Hget.
  cbv beta iota. rewrite Hdone, Hann. do 2 eexists. reflexivity.
Qed.

End Components.

(* ===================================================================== *)
(** ** Secret syncer *)
(* ===================================================================== *)

Section Syncer.
Context {W : Type} `{External W}.
Implicit Types (r : Reconciler W) (w : W).

(** Once the hub has answered with [secret], the syncer logs one line,
    submits [newSecret secret plr] to the spoke in the secret's namespace and
    turns the answer into its own result with one more log line. *)
Lemma createSecret_submits r secretName clusterName spokeKubeClient plr secret w w1 :
  Secrets_Get (hubKubeClient r)
    (ObjectMeta.Namespace (PipelineRun.ObjectMeta plr)) secretName w
  = (Done (Ok secret), w1) ->
  ∃ msg1, ∀ res w2,
    Secrets_Create spokeKubeClient
      (ObjectMeta.Namespace (Secret.ObjectMeta secret)) (newSecret secret plr)
      (zap_write (logger r) InfoLevel msg1 w1)
    = (Done res, w2) ->
    ∃ msg2,
      createSecretOnSpokeCluster r secretName clusterName spokeKubeClient (Some plr) w
      = match res with
        | Ok _ => (Done None, zap_write (logger r) InfoLevel msg2 w2)
        | Err e =>
            if IsAlreadyExists e
            then (Done None, zap_write (logger r) InfoLevel msg2 w2)
            else (Done (Some e), zap_write (logger r) ErrorLevel msg2 w2)
        end.
Proof.
  intros Hget. eexists. intros res w2 Hcreate.
  unfold createSecretOnSpokeCluster. run. rewrite Hget. cbv beta iota.
  change (ObjectMeta.Namespace (Secret.ObjectMeta (newSecret secret plr)))
    with (ObjectMeta.Namespace (Secret.ObjectMeta secret)).
  rewrite Hcreate. cbv beta iota.
  destruct res as [s|e]; [eexists; reflexivity|].
  destruct (IsAlreadyExists e); eexists; reflexivity.
Qed.

Lemma createSecret_hub_failed r secretName clusterName spokeKubeClient plr err w w1 :
  Secrets_Get (hubKubeClient r)
    (ObjectMeta.Namespace (PipelineRun.ObjectMeta plr)) secretName w
  = (Done (Err err), w1) ->
  ∃ msg,
    createSecretOnSpokeCluster r secretName clusterName spokeKubeClient (Some plr) w
    = (Done (Some err), zap_write (logger r) ErrorLevel msg w1).
Proof.
  intros Hget. unfold createSecretOnSpokeCluster. run. rewrite Hget.
  eexists. reflexivity.
Qed.

End Syncer.

(* ===================================================================== *)
(** ** Reconciliation orchestrator *)
(* ===================================================================== *)

Section Orchestrator.
Context {W : Type} `{External W}.
Implicit Types (r : Reconciler W) (w : W).

Lemma lookupWorkload_unfold r ctx namespace name w :
  lookupWorkload r ctx namespace name w
  = Workloads_Get (workloadLister r) namespace name
      (zap_write (workloadLogger ctx namespace name) DebugLevel
         ("reconciling workload " +:+ namespace +:+ "/" +:+ name) w).
Proof. reflexivity. Qed.

(** A closed gate ends the reconciliation with one informational line. *)
Lemma Reconcile_gate_closed r ctx key namespace name workload w w' :
  cache_SplitMetaNamespaceKey key = (namespace, name, None) ->
  lookupWorkload r ctx namespace name w = (Done (Ok workload), w') ->
  gate_closed workload ->
  ∃ msg,
    Reconcile r ctx key w
    = (Done None, zap_write (workloadLogger ctx namespace name) InfoLevel msg w').
Proof.
  intros Hkey Hget Hgate. rewrite lookupWorkload_unfold in Hget.
  unfold Reconcile. rewrite Hkey. run. fold (workloadLogger ctx namespace name).
  rewrite Hget. cbv beta iota.
  destruct (Workload.Spec_Active workload) as [[|]|] eqn:Hactive;
    try (eexists; reflexivity).
  all: destruct (Workload.Status_ClusterName workload) as [[|c cs]|] eqn:Hcluster;
    try (eexists; reflexivity).
  all: destruct Hgate as [Ha|[Hc|[Hc|Ho]]]; try congruence.
  all: destruct Ho as [Ho|(ref & Ho & Hkind)]; rewrite Ho; cbv beta iota;
    try (eexists; reflexivity).
  all: apply String.eqb_neq in Hkind; rewrite Hkind; eexists; reflexivity.
Qed.

(** Past the gates, with the spoke clients built, [Reconcile] is decided by
    the validator's answer. *)
Lemma Reconcile_validator_error r ctx key namespace name workload clusterName ref
    spokeKubeClient spokeTektonClient secretName pipelineRun err w w1 w2 w3 :
  cache_SplitMetaNamespaceKey key = (namespace, name, None) ->
  lookupWorkload r ctx namespace name w = (Done (Ok workload), w1) ->
  gates_open workload clusterName ref ->
  spoke_clients r clusterName spokeKubeClient spokeTektonClient w1 w2 ->
  validatePLRAndGetSecretName r spokeTektonClient (OwnerReference.Name ref)
    (ObjectMeta.Namespace (Workload.ObjectMeta workload)) clusterName w2
  = (Done (secretName, pipelineRun, Some err), w3) ->
  Reconcile r ctx key w = (Done (Some err), w3).
Proof.
  intros Hkey Hget (Hactive & Hcluster & Hne & Hctl & Hkind) (cfg & Hcfg & Hk & Ht) Hval.
  past_gates Hkey Hget Hcluster Hctl Hkind Hcfg Hk Ht.
  all: rewrite Hval; reflexivity.
Qed.

Lemma Reconcile_nothing_to_sync r ctx key namespace name workload clusterName ref
    spokeKubeClient spokeTektonClient pipelineRun w w1 w2 w3 :
  cache_SplitMetaNamespaceKey key = (namespace, name, None) ->
  lookupWorkload r ctx namespace name w = (Done (Ok workload), w1) ->
  gates_open workload clusterName ref ->
  spoke_clients r clusterName spokeKubeClient spokeTektonClient w1 w2 ->
  validatePLRAndGetSecretName r spokeTektonClient (OwnerReference.Name ref)
    (ObjectMeta.Namespace (Workload.ObjectMeta workload)) clusterName w2
  = (Done ("", pipelineRun, None), w3) ->
  Reconcile r ctx key w = (Done None, w3).
Proof.
  intros Hkey Hget (Hactive & Hcluster & Hne & Hctl & Hkind) (cfg & Hcfg & Hk & Ht) Hval.
  past_gates Hkey Hget Hcluster Hctl Hkind Hcfg Hk Ht.
  all: rewrite Hval; reflexivity.
Qed.

Lemma Reconcile_synced r ctx key namespace name workload clusterName ref
    spokeKubeClient spokeTektonClient secretName plr w w1 w2 w3 w4 :
  cache_SplitMetaNamespaceKey key = (namespace, name, None) ->
  lookupWorkload r ctx namespace name w = (Done (Ok workload), w1) ->
  gates_open workload clusterName ref ->
  spoke_clients r clusterName spokeKubeClient spokeTektonClient w1 w2 ->
  validatePLRAndGetSecretName r spokeTektonClient (OwnerReference.Name ref)
    (ObjectMeta.Namespace (Workload.ObjectMeta workload)) clusterName w2
  = (Done (secretName, Some plr, None), w3) ->
  secretName ≠ "" ->
  createSecretOnSpokeCluster r secretName clusterName spokeKubeClient (Some plr) w3
  = (Done None, w4) ->
  ∃ l msg, Reconcile r ctx key w = (Done None, zap_write l InfoLevel msg w4).
Proof.
  intros Hkey Hget (Hactive & Hcluster & Hne & Hctl & Hkind) (cfg & Hcfg & Hk & Ht)
    Hval Hname Hcreate.
  apply String.eqb_neq in Hname.
  past_gates Hkey Hget Hcluster Hctl Hkind Hcfg Hk Ht.
  all: rewrite Hval; cbv beta iota; rewrite Hname; rewrite Hcreate.
  all: do 2 eexists; reflexivity.
Qed.

End Orchestrator.

(* ===================================================================== *)
(** ** Event filter *)
(* ===================================================================== *)

Section Filter.
Context {W : Type} `{External W}.

Lemma checkOwners_enqueues impl (object : Workload.t)
    (owners : list OwnerReference.t) (w : W) :
  (∃ ref, ref ∈ owners ∧ OwnerReference.Kind ref = "PipelineRun") ->
  checkOwners impl object owners w
  = (Done tt,
     controller_EnqueueKey impl
       (mkNamespacedName (ObjectMeta.Namespace (Workload.ObjectMeta object))
          (ObjectMeta.Name (Workload.ObjectMeta object))) w).
Proof.
  induction owners as [|owner rest IH]; intros (ref & Hin & Hkind).
  - inversion Hin.
  - simpl. destruct (String.eqb_spec (OwnerReference.Kind owner) "PipelineRun") as [_|Hne].
    + reflexivity.
    + apply IH. exists ref. split; [|exact Hkind].
      apply elem_of_cons in Hin as [->|Hin]; [contradiction|exact Hin].
Qed.

Lemma checkOwners_skips impl (object : Workload.t)
    (owners : list OwnerReference.t) (w : W) :
  (∀ ref, ref ∈ owners -> OwnerReference.Kind ref ≠ "PipelineRun") ->
  checkOwners impl object owners w = (Done tt, w).
Proof.
  induction owners as [|owner rest IH]; intros Hall; [reflexivity|].
  simpl. destruct (String.eqb_spec (OwnerReference.Kind owner) "PipelineRun") as [Heq|_].
  - exfalso. apply (Hall owner); [left|exact Heq].
  - apply IH. intros ref Hin. apply Hall. now right.
Qed.

End Filter.

(* ===================================================================== *)
(** ** The fake world *)
(* ===================================================================== *)

Section FakeWorld.
Import Fake.
Implicit Types (w : World) (t : Target) (c : Cluster).

Lemma cluster_at_record t a w : cluster_at t (record a w) = cluster_at t w.
Proof. now destruct t. Qed.

Lemma cluster_at_write_log t l lvl msg w :
  cluster_at t (write_log l lvl msg w) = cluster_at t w.
Proof. now destruct t. Qed.

Lemma getSecret_found t namespace name c s w :
  cluster_at t w = Some c ->
  secrets c !! (namespace, name) = Some s ->
  getSecret t namespace name w
  = (Done (Ok s), record (GetAction t "secrets" namespace name) w).
Proof.
  intros Hc Hs. unfold getSecret. cbv zeta.
  now rewrite cluster_at_record, Hc, Hs.
Qed.

Lemma createSecret_tracked t namespace s c w :
  cluster_at t w = Some c ->
  createSecret t namespace s w
  = let name := ObjectMeta.Name (Secret.ObjectMeta s) in
    let w' := record (CreateAction t "secrets" namespace name) w in
    match secrets c !! (namespace, name) with
    | Some _ => (Done (Err (NewAlreadyExists "secrets" name)), w')
    | None =>
        (Done (Ok s),
         set_cluster t
           (mkCluster (<[(namespace, name) := s]> (secrets c)) (pipelineRuns c)) w')
    end.
Proof.
  intros Hc. unfold createSecret. cbv zeta.
  now rewrite cluster_at_record, Hc.
Qed.

(** The syncer against a reachable fake spoke: it succeeds, leaves the hub
    alone, and the spoke holds the projection unless the identity was
    taken. *)
Lemma Fake_createSecretOnSpokeCluster kns secretName clusterName host plr secret c w :
  secrets (hub w) !! (ObjectMeta.Namespace (PipelineRun.ObjectMeta plr), secretName)
  = Some secret ->
  spokes w !! host = Some c ->
  let key := (ObjectMeta.Namespace (Secret.ObjectMeta secret),
              ObjectMeta.Name (Secret.ObjectMeta secret)) in
  ∃ w',
    createSecretOnSpokeCluster (reconciler kns) secretName clusterName
      (kube (Spoke host)) (Some plr) w
    = (Done None, w')
    ∧ hub w' = hub w
    ∧ spokes w'
      = <[host := mkCluster
                    (match secrets c !! key with
                     | Some _ => secrets c
                     | None => <[key := newSecret secret plr]> (secrets c)
                     end)
                    (pipelineRuns c)]> (spokes w).
Proof.
  intros Hhub Hspoke key.
  destruct (createSecret_submits (reconciler kns) secretName clusterName
              (kube (Spoke host)) plr secret w
              (record (GetAction Hub "secrets"
                         (ObjectMeta.Namespace (PipelineRun.ObjectMeta plr))
                         secretName) w)) as [msg1 Hrun].
  { simpl. now apply getSecret_found with (c := hub w). }
  simpl Secrets_Create in Hrun.
  rewrite (createSecret_tracked _ _ _ c) in Hrun
    by (now rewrite cluster_at_write_log, cluster_at_record).
  cbv zeta in Hrun.
  change (ObjectMeta.Name (Secret.ObjectMeta (newSecret secret plr)))
    with (ObjectMeta.Name (Secret.ObjectMeta secret)) in Hrun.
  fold key in Hrun.
  destruct (secrets c !! key) as [old|] eqn:Hold.
  - destruct (Hrun _ _ eq_refl) as [msg2 ->].
    change (IsAlreadyExists (NewAlreadyExists "secrets"
              (ObjectMeta.Name (Secret.ObjectMeta secret)))) with true.
    cbv iota. eexists. split; [reflexivity|]. split; [reflexivity|].
    simpl. destruct c as [ss ps]. simpl. symmetry. now apply insert_id.
  - destruct (Hrun _ _ eq_refl) as [msg2 ->].
    eexists. split; [reflexivity|]. split; reflexivity.
Qed.

(** With a closed gate the fake world sees no request: [Reconcile] only
    writes to the log. *)
Lemma Fake_gate_closed_sends_nothing kns key namespace name workload w :
  cache_SplitMetaNamespaceKey key = (namespace, name, None) ->
  workloads w !! (namespace, name) = Some workload ->
  gate_closed workload ->
  no_cross_cluster_work w (Reconcile (reconciler kns) ctx key w).
Proof.
  intros Hkey Hcache Hgate.
  destruct (Reconcile_gate_closed (reconciler kns) ctx key namespace name workload w
              (write_log (workloadLogger ctx namespace name) DebugLevel
                 ("reconciling workload " +:+ namespace +:+ "/" +:+ name) w)
              Hkey) as [msg ->]; [|exact Hgate|repeat split].
  rewrite lookupWorkload_unfold.
  set (w1 := write_log _ _ _ w).
  change (match workloads w !! (namespace, name) with
          | Some wl => (Done (Ok wl), w1)
          | None => (Done (Err (NewNotFound "workload" name)), w1)
          end = (Done (Ok workload), w1)).
  now rewrite Hcache.
Qed.

End FakeWorld.

(* ===================================================================== *)
(** ** Properties of the specification *)
(* ===================================================================== *)

(** C1.  The create on the spoke treats an already-exists failure as
    success.  For all clients: once the hub has returned the source secret,
    an accepted create and a create refused with already-exists both make
    the syncer return no error, and a create refused for any other reason
    makes it return that error.  On the object tracker: two calls in
    sequence with the same inputs both return no error, and afterwards the
    spoke holds one secret under the identity of the source: the projection
    if the identity was free, the earlier object otherwise; the second call
    changes nothing. *)
Theorem createSecretOnSpokeCluster_already_exists_is_success :
  (∀ (W : Type) (E : External W) (r : Reconciler W) secretName clusterName
     (spokeKubeClient : KubeInterface W) plr secret (w w1 : W),
     Secrets_Get (hubKubeClient r)
       (ObjectMeta.Namespace (PipelineRun.ObjectMeta plr)) secretName w
     = (Done (Ok secret), w1) ->
     ∃ msg, ∀ res w2,
       Secrets_Create spokeKubeClient
         (ObjectMeta.Namespace (Secret.ObjectMeta secret)) (newSecret secret plr)
         (zap_write (logger r) InfoLevel msg w1)
       = (Done res, w2) ->
       let result :=
         fst (createSecretOnSpokeCluster r secretName clusterName
                spokeKubeClient (Some plr) w) in
       match res with
       | Ok _ => result = Done None
       | Err e =>
           (IsAlreadyExists e = true -> result = Done None)
           ∧ (IsAlreadyExists e = false -> result = Done (Some e))
       end)
  ∧
  (∀ kns secretName clusterName host plr secret c (w : Fake.World),
     Fake.secrets (Fake.hub w)
       !! (ObjectMeta.Namespace (PipelineRun.ObjectMeta plr), secretName)
     = Some secret ->
     Fake.spokes w !! host = Some c ->
     let key := (ObjectMeta.Namespace (Secret.ObjectMeta secret),
                 ObjectMeta.Name (Secret.ObjectMeta secret)) in
     let call :=
       createSecretOnSpokeCluster (Fake.reconciler kns) secretName clusterName
         (Fake.kube (Fake.Spoke host)) (Some plr) in
     ∃ w1 w2 c',
       call w = (Done None, w1)
       ∧ call w1 = (Done None, w2)
       ∧ Fake.spokes w1 !! host = Some c'
       ∧ Fake.spokes w2 = Fake.spokes w1
       ∧ Fake.secrets c'
         = match Fake.secrets c !! key with
           | Some _ => Fake.secrets c
           | None => <[key := newSecret secret plr]> (Fake.secrets c)
           end).
Proof.
  split.
  - intros W E r secretName clusterName spokeKubeClient plr secret w w1 Hget.
    destruct (createSecret_submits r secretName clusterName spokeKubeClient
                plr secret w w1 Hget) as [msg Hrun].
    exists msg. intros res w2 Hcreate.
    destruct (Hrun res w2 Hcreate) as [msg2 ->].
    destruct res as [s|e]; [reflexivity|].
    split; intros ->; reflexivity.
  - intros kns secretName clusterName host plr secret c w Hhub Hspoke key call.
    destruct (Fake_createSecretOnSpokeCluster kns secretName clusterName host
                plr secret c w Hhub Hspoke) as (w1 & Hrun1 & Hhub1 & Hspokes1).
    fold key in Hspokes1.
    set (c' := Fake.mkCluster
                 (match Fake.secrets c !! key with
                  | Some _ => Fake.secrets c
                  | None => <[key := newSecret secret plr]> (Fake.secrets c)
                  end) (Fake.pipelineRuns c)) in *.
    assert (Hc' : Fake.spokes w1 !! host = Some c')
      by (rewrite Hspokes1; apply lookup_insert_eq).
    assert (Htaken : is_Some (Fake.secrets c' !! key)).
    { subst c'. simpl. destruct (Fake.secrets c !! key) eqn:Hk.
      - rewrite Hk. eauto.
      - rewrite lookup_insert_eq. eauto. }
    destruct (Fake_createSecretOnSpokeCluster kns secretName clusterName host
                plr secret c' w1) as (w2 & Hrun2 & _ & Hspokes2).
    { now rewrite Hhub1. }
    { exact Hc'. }
    fold key in Hspokes2. destruct Htaken as [old Hold]. rewrite Hold in Hspokes2.
    exists w1, w2, c'. repeat split; try assumption.
    rewrite Hspokes2. apply insert_id. rewrite Hc'. now destruct c'.
Qed.

Lemma createSecretOnSpokeCluster_already_exists_is_success_witness :
  let plr := Scenario.pipelineRun "spoke-uid" {[ gitAuthSecret := "git-creds" ]} [] in
  let w := Scenario.world "spoke-uid" [] in
  fst (createSecretOnSpokeCluster (Fake.reconciler "kueue-system") "git-creds"
         "cluster-a" Scenario.refusingKube (Some plr) w)
  = Done (Some Scenario.forbidden)
  ∧ ∃ w1 w2 c',
      createSecretOnSpokeCluster (Fake.reconciler "kueue-system") "git-creds"
        "cluster-a" (Fake.kube (Fake.Spoke Scenario.host)) (Some plr) w
      = (Done None, w1)
      ∧ createSecretOnSpokeCluster (Fake.reconciler "kueue-system") "git-creds"
          "cluster-a" (Fake.kube (Fake.Spoke Scenario.host)) (Some plr) w1
        = (Done None, w2)
      ∧ Fake.spokes w1 !! Scenario.host = Some c'
      ∧ Fake.spokes w2 = Fake.spokes w1
      ∧ Fake.secrets c'
        = {[ ("ns", "git-creds") := newSecret (Scenario.gitCreds []) plr ]}.
Proof.
  intros plr w.
  destruct createSecretOnSpokeCluster_already_exists_is_success as [Hany Htracker].
  split.
  - destruct (Hany Fake.World Fake.external (Fake.reconciler "kueue-system")
                "git-creds" "cluster-a" Scenario.refusingKube plr
                (Scenario.gitCreds []) w
                (Fake.record (Fake.GetAction Fake.Hub "secrets" "ns" "git-creds") w)
                eq_refl) as [msg Hres].
    exact (proj2 (Hres (Err Scenario.forbidden) _ eq_refl) eq_refl).
  - exact (Htracker "kueue-system" "git-creds" "cluster-a" Scenario.host plr
             (Scenario.gitCreds []) (Fake.mkCluster ∅ {[ ("ns", "plr-1") := plr ]})
             w eq_refl eq_refl).
Defined.

(** C2.  The projected secret carries the name, namespace, labels,
    annotations, type and data of the source secret; it has as many owner
    references as the source, and the reference at each position is the
    source's reference with only the UID replaced by the UID of the
    spoke-side PipelineRun.  It is the object the syncer files on a spoke
    whose tracker has the identity free. *)
Theorem newSecret_copies_source (secret : Secret.t) (plr : PipelineRun.t) :
  let new := newSecret secret plr in
  let src := Secret.ObjectMeta secret in
  let dst := Secret.ObjectMeta new in
  ObjectMeta.Name dst = ObjectMeta.Name src
  ∧ ObjectMeta.Namespace dst = ObjectMeta.Namespace src
  ∧ ObjectMeta.Labels dst = ObjectMeta.Labels src
  ∧ ObjectMeta.Annotations dst = ObjectMeta.Annotations src
  ∧ Secret.Type_ new = Secret.Type_ secret
  ∧ Secret.Data new = Secret.Data secret
  ∧ length (ObjectMeta.OwnerReferences dst) = length (ObjectMeta.OwnerReferences src)
  ∧ (∀ i ref,
       ObjectMeta.OwnerReferences src !! i = Some ref ->
       ∃ ref',
         ObjectMeta.OwnerReferences dst !! i = Some ref'
         ∧ same_but_UID (ObjectMeta.UID (PipelineRun.ObjectMeta plr)) ref ref')
  ∧ (∀ kns secretName clusterName host c (w : Fake.World),
       Fake.secrets (Fake.hub w)
         !! (ObjectMeta.Namespace (PipelineRun.ObjectMeta plr), secretName)
       = Some secret ->
       Fake.spokes w !! host = Some c ->
       Fake.secrets c !! (ObjectMeta.Namespace src, ObjectMeta.Name src) = None ->
       ∃ c',
         Fake.spokes
           (snd (createSecretOnSpokeCluster (Fake.reconciler kns) secretName
                   clusterName (Fake.kube (Fake.Spoke host)) (Some plr) w))
           !! host = Some c'
         ∧ Fake.secrets c' !! (ObjectMeta.Namespace src, ObjectMeta.Name src)
           = Some new).
Proof.
  intros new src dst.
  do 6 (split; [reflexivity|]).
  subst dst new. rewrite newSecret_OwnerReferences. fold src.
  split; [apply length_map|]. split.
  - intros i ref Hi. exists (OwnerReference.set_UID
                               (ObjectMeta.UID (PipelineRun.ObjectMeta plr)) ref).
    split; [|apply set_UID_same_but_UID].
    change (map ?f ?l) with (f <$> l). now rewrite list_lookup_fmap, Hi.
  - intros kns secretName clusterName host c w Hhub Hspoke Hfree.
    destruct (Fake_createSecretOnSpokeCluster kns secretName clusterName host
                plr secret c w Hhub Hspoke) as (w1 & -> & _ & Hspokes).
    fold src in Hspokes. rewrite Hfree in Hspokes.
    eexists. simpl snd. rewrite Hspokes, lookup_insert_eq.
    split; [reflexivity|]. simpl. apply lookup_insert_eq.
Qed.

Lemma newSecret_copies_source_witness :
  let plr := Scenario.pipelineRun "spoke-uid" ∅ [] in
  let ref := Scenario.ownerRef "PipelineRun" "plr-1" (Some true) in
  ∃ ref',
    ObjectMeta.OwnerReferences
      (Secret.ObjectMeta (newSecret (Scenario.gitCreds [ref]) plr)) !! 0
    = Some ref'
    ∧ same_but_UID "spoke-uid" ref ref'.
Proof.
  intros plr ref.
  exact (proj1 (proj2 (proj2 (proj2 (proj2 (proj2 (proj2 (proj2
           (newSecret_copies_source (Scenario.gitCreds [ref]) plr))))))))
           0 ref eq_refl).
Defined.

Section ComponentClaims.
Context {W : Type} `{External W}.
Implicit Types (r : Reconciler W) (w : W).

(** C4.  When the fetch of the PipelineRun fails with a not-found error the
    validator returns the empty name, no PipelineRun and no error, after
    one informational log line; when it fails with any other error the
    validator returns that error. *)
Theorem validatePLR_fetch_failure r spokeTektonClient plrName plrNamespace clusterName
    err w w1 :
  PipelineRuns_Get spokeTektonClient plrNamespace plrName w = (Done (Err err), w1) ->
  let call :=
    validatePLRAndGetSecretName r spokeTektonClient plrName plrNamespace clusterName w in
  (IsNotFound err = true ->
   ∃ msg, call = (Done ("", None, None), zap_write (logger r) InfoLevel msg w1))
  ∧ (IsNotFound err = false ->
     ∃ msg, call = (Done ("", None, Some err), zap_write (logger r) ErrorLevel msg w1)).
Proof.
  intros Hget call.
  destruct (validate_fetch_failed r spokeTektonClient plrName plrNamespace
              clusterName err w w1 Hget) as [msg Hrun].
  subst call. rewrite Hrun.
  split; intros ->; exists msg; reflexivity.
Qed.

(** C5.  For a PipelineRun that exists and is done the validator returns
    the empty name, no PipelineRun and no error, whatever its annotations
    are. *)
Theorem validatePLR_done_is_noop r spokeTektonClient plrName plrNamespace clusterName
    pipelineRun w w1 :
  PipelineRuns_Get spokeTektonClient plrNamespace plrName w
  = (Done (Ok pipelineRun), w1) ->
  PipelineRun_IsDone pipelineRun = true ->
  ∃ msg1 msg2,
    validatePLRAndGetSecretName r spokeTektonClient plrName plrNamespace clusterName w
    = (Done ("", None, None),
       zap_write (logger r) InfoLevel msg2 (zap_write (logger r) InfoLevel msg1 w1)).
Proof.
  intros Hget Hdone. unfold validatePLRAndGetSecretName. run.
  rewrite Hget. cbv beta iota.
  (* the done test comes first: the annotation map is never consulted *)
  rewrite Hdone. do 2 eexists. reflexivity.
Qed.

(** C6.  For a registration of location type [Secret] whose credential
    secret exists without the [kubeconfig] key, the resolver fails and the
    text of the error is
    [kubeconfig secret {namespace}/{name} is missing 'kubeconfig' data key]
    with the reconciler's kueue namespace and the registration's location. *)
Theorem getSpokeClusterConfig_missing_kubeconfig_key r clusterName mkCluster
    kubeconfigSecret w w1 w2 :
  MultiKueueClusters_Get (kueueClient r) clusterName w = (Done (Ok mkCluster), w1) ->
  MultiKueueCluster.Spec_KubeConfig_LocationType mkCluster = "Secret" ->
  Secrets_Get (hubKubeClient r) (kueueNamespace r)
    (MultiKueueCluster.Spec_KubeConfig_Location mkCluster) w1
  = (Done (Ok kubeconfigSecret), w2) ->
  Secret.Data kubeconfigSecret !! "kubeconfig" = None ->
  ∃ err,
    getSpokeClusterConfig r clusterName w = (Done (Err err), w2)
    ∧ Error err
      = "kubeconfig secret " +:+ kueueNamespace r +:+ "/"
          +:+ MultiKueueCluster.Spec_KubeConfig_Location mkCluster
          +:+ " is missing 'kubeconfig' data key".
Proof.
  intros Hget Htype Hsec Hkey. eexists. split.
  - eapply getSpokeClusterConfig_missing_key; eassumption.
  - reflexivity.
Qed.

(** C7.  For a registration whose location type is neither [Secret] nor
    [Path] the resolver fails and the text of the error is
    [unsupported kubeconfig location type: {locationType}]. *)
Theorem getSpokeClusterConfig_unsupported_location_type r clusterName mkCluster w w1 :
  MultiKueueClusters_Get (kueueClient r) clusterName w = (Done (Ok mkCluster), w1) ->
  MultiKueueCluster.Spec_KubeConfig_LocationType mkCluster ≠ "Secret" ->
  MultiKueueCluster.Spec_KubeConfig_LocationType mkCluster ≠ "Path" ->
  ∃ err,
    getSpokeClusterConfig r clusterName w = (Done (Err err), w1)
    ∧ Error err
      = "unsupported kubeconfig location type: "
          +:+ MultiKueueCluster.Spec_KubeConfig_LocationType mkCluster.
Proof.
  intros Hget Hs Hp. eexists. split.
  - eapply getSpokeClusterConfig_unsupported; eassumption.
  - reflexivity.
Qed.

End ComponentClaims.

Lemma validatePLR_fetch_failure_witness :
  fst (validatePLRAndGetSecretName (Fake.reconciler "kueue-system")
         (Fake.tekton (Fake.Spoke Scenario.host)) "plr-1" "ns" "cluster-a"
         Scenario.notCreatedYet)
  = Done ("", None, None).
Proof.
  destruct (validatePLR_fetch_failure (Fake.reconciler "kueue-system")
              (Fake.tekton (Fake.Spoke Scenario.host)) "plr-1" "ns" "cluster-a"
              (Fake.NewNotFound "pipelineruns.tekton.dev" "plr-1")
              Scenario.notCreatedYet _ eq_refl) as [Hnf _].
  destruct (Hnf eq_refl) as [msg ->]. reflexivity.
Defined.

Lemma validatePLR_done_is_noop_witness :
  fst (validatePLRAndGetSecretName (Fake.reconciler "kueue-system")
         (Fake.tekton (Fake.Spoke Scenario.host)) "plr-1" "ns" "cluster-a"
         Scenario.finished)
  = Done ("", None, None).
Proof.
  destruct (validatePLR_done_is_noop (H := Fake.external)
              (Fake.reconciler "kueue-system")
              (Fake.tekton (Fake.Spoke Scenario.host)) "plr-1" "ns" "cluster-a"
              (Scenario.pipelineRun "spoke-uid" {[ gitAuthSecret := "git-creds" ]}
                 [Condition.mk "Succeeded" "True"])
              Scenario.finished _ eq_refl eq_refl) as (msg1 & msg2 & ->).
  reflexivity.
Defined.

Lemma getSpokeClusterConfig_missing_kubeconfig_key_witness :
  ∃ err,
    fst (getSpokeClusterConfig (Fake.reconciler "kueue-system") "cluster-a"
           Scenario.wrongKey)
    = Done (Err err)
    ∧ Error err
      = "kubeconfig secret kueue-system/kubeconfig-a is missing 'kubeconfig' data key".
Proof.
  destruct (getSpokeClusterConfig_missing_kubeconfig_key
              (Fake.reconciler "kueue-system") "cluster-a"
              (Scenario.clusterA "Secret")
              (Scenario.kubeconfigA {[ "wrong-key" := Scenario.bytes "some-data" ]})
              Scenario.wrongKey _ _ eq_refl eq_refl eq_refl eq_refl)
    as (err & Hrun & Htext).
  exists err. rewrite Hrun. split; [reflexivity|exact Htext].
Defined.

Lemma getSpokeClusterConfig_unsupported_location_type_witness :
  ∃ err,
    fst (getSpokeClusterConfig (Fake.reconciler "kueue-system") "cluster-a"
           Scenario.unsupportedType)
    = Done (Err err)
    ∧ Error err = "unsupported kubeconfig location type: UnsupportedType".
Proof.
  assert (Hs : "UnsupportedType" ≠ "Secret") by discriminate.
  assert (Hp : "UnsupportedType" ≠ "Path") by discriminate.
  destruct (getSpokeClusterConfig_unsupported_location_type
              (Fake.reconciler "kueue-system") "cluster-a"
              (Scenario.clusterA "UnsupportedType")
              Scenario.unsupportedType _ eq_refl Hs Hp)
    as (err & Hrun & Htext).
  exists err. rewrite Hrun. split; [reflexivity|exact Htext].
Defined.

Section OrchestratorClaims.
Context {W : Type} `{External W}.
Implicit Types (r : Reconciler W) (w : W).

(** C10 (amended).  The owner gate looks at the controlling owner reference
    only.  A workload that lists a PipelineRun among its owner references
    while its controlling reference is absent or of another kind is
    enqueued by the event filter, and [Reconcile] returns nil for it with no
    effect after the cache lookup but one informational log line. *)
Theorem owner_gate_inspects_controller_only r ctx key namespace name workload w w' :
  cache_SplitMetaNamespaceKey key = (namespace, name, None) ->
  lookupWorkload r ctx namespace name w = (Done (Ok workload), w') ->
  has_non_controller_PipelineRun_owner workload ->
  owner_out_of_scope workload ->
  (∃ msg,
     Reconcile r ctx key w
     = (Done None, zap_write (workloadLogger ctx namespace name) InfoLevel msg w'))
  ∧ (∀ impl w0,
       checkOwnerAndEnqueue impl (AnyWorkload workload) w0
       = (Done tt,
          controller_EnqueueKey impl
            (mkNamespacedName (ObjectMeta.Namespace (Workload.ObjectMeta workload))
               (ObjectMeta.Name (Workload.ObjectMeta workload))) w0)).
Proof.
  intros Hkey Hget (ref & Hin & Hkind & _) Hscope. split.
  - apply Reconcile_gate_closed with (workload := workload); try assumption.
    unfold gate_closed. tauto.
  - intros impl w0. unfold checkOwnerAndEnqueue. simpl.
    apply checkOwners_enqueues. eauto.
Qed.

End OrchestratorClaims.

(** C3.  For a workload found in the cache whose [Spec.Active] is false,
    or whose [Status.ClusterName] is nil or empty, or whose controlling
    owner reference is absent or of a kind other than PipelineRun,
    [Reconcile] returns nil and, after the cache lookup, does nothing but
    write one informational log line, whatever the clients are: no cluster
    config is resolved, no PipelineRun fetched, no secret created.  On the
    fake world, accordingly, no request is recorded and hub and spokes are
    left as they were. *)
Theorem Reconcile_gates :
  (∀ (W : Type) (E : External W) (r : Reconciler W) ctx key namespace name
     workload (w w' : W),
     cache_SplitMetaNamespaceKey key = (namespace, name, None) ->
     lookupWorkload r ctx namespace name w = (Done (Ok workload), w') ->
     (Workload.Spec_Active workload = Some false
      ∨ Workload.Status_ClusterName workload = None
      ∨ Workload.Status_ClusterName workload = Some ""
      ∨ metav1_GetControllerOf workload = None
      ∨ ∃ ref, metav1_GetControllerOf workload = Some ref
               ∧ OwnerReference.Kind ref ≠ "PipelineRun") ->
     ∃ msg,
       Reconcile r ctx key w
       = (Done None, zap_write (workloadLogger ctx namespace name) InfoLevel msg w'))
  ∧ (∀ kns key namespace name workload (w : Fake.World),
       cache_SplitMetaNamespaceKey key = (namespace, name, None) ->
       Fake.workloads w !! (namespace, name) = Some workload ->
       (Workload.Spec_Active workload = Some false
        ∨ Workload.Status_ClusterName workload = None
        ∨ Workload.Status_ClusterName workload = Some ""
        ∨ metav1_GetControllerOf workload = None
        ∨ ∃ ref, metav1_GetControllerOf workload = Some ref
                 ∧ OwnerReference.Kind ref ≠ "PipelineRun") ->
       no_cross_cluster_work w (Reconcile (Fake.reconciler kns) Fake.ctx key w)).
Proof.
  split.
  - intros W E r ctx key namespace name workload w w' Hkey Hget Hgate.
    apply Reconcile_gate_closed with (workload := workload);
      [exact Hkey|exact Hget|].
    unfold gate_closed, owner_out_of_scope. tauto.
  - intros kns key namespace name workload w Hkey Hcache Hgate.
    apply Fake_gate_closed_sends_nothing with namespace name workload;
      [exact Hkey|exact Hcache|].
    unfold gate_closed, owner_out_of_scope. tauto.
Qed.

(** C9.  A PipelineRun that exists, is not done and carries the
    git-auth-secret annotation with the empty string makes the validator
    return the empty name together with the PipelineRun and no error; and
    [Reconcile], having reached the validator, then returns nil in the
    world the validator left: the syncer is not called. *)
Theorem empty_annotation_is_noop :
  ∀ (W : Type) (E : External W) (r : Reconciler W),
    (∀ spokeTektonClient plrName plrNamespace clusterName pipelineRun (w w1 : W),
       PipelineRuns_Get spokeTektonClient plrNamespace plrName w
       = (Done (Ok pipelineRun), w1) ->
       PipelineRun_IsDone pipelineRun = false ->
       ObjectMeta.Annotations (PipelineRun.ObjectMeta pipelineRun) !! gitAuthSecret
       = Some "" ->
       ∃ msg1 msg2,
         validatePLRAndGetSecretName r spokeTektonClient plrName plrNamespace
           clusterName w
         = (Done ("", Some pipelineRun, None),
            zap_write (logger r) InfoLevel msg2
              (zap_write (logger r) InfoLevel msg1 w1)))
    ∧ (∀ ctx key namespace name workload clusterName ref spokeKubeClient
         spokeTektonClient pipelineRun (w w1 w2 w3 : W),
         cache_SplitMetaNamespaceKey key = (namespace, name, None) ->
         lookupWorkload r ctx namespace name w = (Done (Ok workload), w1) ->
         gates_open workload clusterName ref ->
         spoke_clients r clusterName spokeKubeClient spokeTektonClient w1 w2 ->
         PipelineRuns_Get spokeTektonClient
           (ObjectMeta.Namespace (Workload.ObjectMeta workload))
           (OwnerReference.Name ref) w2
         = (Done (Ok pipelineRun), w3) ->
         PipelineRun_IsDone pipelineRun = false ->
         ObjectMeta.Annotations (PipelineRun.ObjectMeta pipelineRun) !! gitAuthSecret
         = Some "" ->
         Reconcile r ctx key w
         = (Done None,
            snd (validatePLRAndGetSecretName r spokeTektonClient
                   (OwnerReference.Name ref)
                   (ObjectMeta.Namespace (Workload.ObjectMeta workload))
                   clusterName w2))).
Proof.
  intros W E r. split.
  - intros. now apply validate_annotated.
  - intros ctx key namespace name workload clusterName ref spokeKubeClient
      spokeTektonClient pipelineRun w w1 w2 w3 Hkey Hget Hgates Hclients Hplr Hdone Hann.
    destruct (validate_annotated r spokeTektonClient (OwnerReference.Name ref)
                (ObjectMeta.Namespace (Workload.ObjectMeta workload)) clusterName
                pipelineRun "" w2 w3 Hplr Hdone Hann) as (msg1 & msg2 & Hval).
    rewrite Hval. simpl snd.
    eapply Reconcile_nothing_to_sync; eassumption.
Qed.

Lemma Reconcile_gates_witness :
  no_cross_cluster_work Scenario.inactive
    (Reconcile (Fake.reconciler "kueue-system") Fake.ctx "ns/wl-0" Scenario.inactive).
Proof.
  exact (proj2 Reconcile_gates "kueue-system" "ns/wl-0" "ns" "wl-0"
           (Scenario.workload "wl-0" (Some false) (Some "cluster-a")
              [Scenario.ownerRef "PipelineRun" "plr-1" (Some true)])
           Scenario.inactive eq_refl eq_refl (or_introl eq_refl)).
Defined.

Lemma owner_gate_inspects_controller_only_witness :
  no_cross_cluster_work Scenario.jobControlled
    (Reconcile (Fake.reconciler "kueue-system") Fake.ctx "ns/wl-3"
       Scenario.jobControlled)
  ∧ Fake.queue (snd (checkOwnerAndEnqueue (H := Fake.external)
                       "kueue-workload-controller" (AnyWorkload Scenario.wl3)
                       Scenario.jobControlled))
    = [mkNamespacedName "ns" "wl-3"].
Proof.
  assert (Hplain : has_non_controller_PipelineRun_owner Scenario.wl3).
  { exists (Scenario.ownerRef "PipelineRun" "plr-1" None).
    split; [left|]. split; [reflexivity|discriminate]. }
  assert (Hscope : owner_out_of_scope Scenario.wl3).
  { right. exists (Scenario.ownerRef "Job" "job-1" (Some true)).
    split; [reflexivity|discriminate]. }
  destruct (owner_gate_inspects_controller_only (H := Fake.external)
              (Fake.reconciler "kueue-system") Fake.ctx "ns/wl-3" "ns" "wl-3"
              Scenario.wl3 Scenario.jobControlled _ eq_refl eq_refl Hplain Hscope)
    as [[msg ->] Henqueue].
  split; [repeat split|].
  rewrite Henqueue. reflexivity.
Defined.

Lemma empty_annotation_is_noop_witness :
  let out := Reconcile (Fake.reconciler "kueue-system") Fake.ctx "ns/wl-1"
               Scenario.emptyAnnotation in
  fst out = Done None
  ∧ Fake.spokes (snd out) = Fake.spokes Scenario.emptyAnnotation
  ∧ Fake.actions (snd out)
    = [Fake.GetAction Fake.Hub "multikueueclusters" "" "cluster-a";
       Fake.GetAction Fake.Hub "secrets" "kueue-system" "kubeconfig-a";
       Fake.GetAction (Fake.Spoke Scenario.host) "pipelineruns" "ns" "plr-1"].
Proof.
  intros out.
  assert (Hrun : out
                 = (Done None,
                    snd (validatePLRAndGetSecretName (Fake.reconciler "kueue-system")
                           (Fake.tekton (Fake.Spoke Scenario.host)) "plr-1" "ns"
                           "cluster-a"
                           (snd (getSpokeClusterConfig (Fake.reconciler "kueue-system")
                                   "cluster-a"
                                   (snd (lookupWorkload (Fake.reconciler "kueue-system")
                                           Fake.ctx "ns" "wl-1"
                                           Scenario.emptyAnnotation))))))).
  { apply (proj2 (empty_annotation_is_noop Fake.World Fake.external
                    (Fake.reconciler "kueue-system"))
             Fake.ctx "ns/wl-1" "ns" "wl-1" Scenario.wl1 "cluster-a"
             (Scenario.ownerRef "PipelineRun" "plr-1" (Some true))
             (Fake.kube (Fake.Spoke Scenario.host))
             (Fake.tekton (Fake.Spoke Scenario.host))
             (Scenario.pipelineRun "spoke-uid" {[ gitAuthSecret := "" ]} [])
             Scenario.emptyAnnotation
             (snd (lookupWorkload (Fake.reconciler "kueue-system") Fake.ctx "ns"
                     "wl-1" Scenario.emptyAnnotation))
             (snd (getSpokeClusterConfig (Fake.reconciler "kueue-system") "cluster-a"
                     (snd (lookupWorkload (Fake.reconciler "kueue-system") Fake.ctx
                             "ns" "wl-1" Scenario.emptyAnnotation))))
             (snd (Fake.getPipelineRun (Fake.Spoke Scenario.host) "ns" "plr-1"
                     (snd (getSpokeClusterConfig (Fake.reconciler "kueue-system")
                             "cluster-a"
                             (snd (lookupWorkload (Fake.reconciler "kueue-system")
                                     Fake.ctx "ns" "wl-1"
                                     Scenario.emptyAnnotation))))))).
    - reflexivity.
    - reflexivity.
    - repeat split; discriminate.
    - exists Scenario.host. repeat split.
    - reflexivity.
    - reflexivity.
    - reflexivity. }
  rewrite Hrun. repeat split.
Defined.

(** C10 as stated fails: a workload with a plain PipelineRun owner and a
    controlling PipelineRun owner passes the gate, and [Reconcile] goes on
    to fetch the PipelineRun and to create the secret on the spoke. *)
Lemma non_controller_PipelineRun_owner_does_not_close_gate :
  let out := Reconcile (Fake.reconciler "kueue-system") Fake.ctx "ns/wl-2"
               Scenario.twoOwners in
  Fake.workloads Scenario.twoOwners !! ("ns", "wl-2") = Some Scenario.wl2
  ∧ has_non_controller_PipelineRun_owner Scenario.wl2
  ∧ ¬ no_cross_cluster_work Scenario.twoOwners out
  ∧ Fake.actions (snd out)
    = [Fake.GetAction Fake.Hub "multikueueclusters" "" "cluster-a";
       Fake.GetAction Fake.Hub "secrets" "kueue-system" "kubeconfig-a";
       Fake.GetAction (Fake.Spoke Scenario.host) "pipelineruns" "ns" "plr-1";
       Fake.GetAction Fake.Hub "secrets" "ns" "git-creds";
       Fake.CreateAction (Fake.Spoke Scenario.host) "secrets" "ns" "git-creds"].
Proof.
  intros out.
  assert (Hactions : Fake.actions (snd out)
    = [Fake.GetAction Fake.Hub "multikueueclusters" "" "cluster-a";
       Fake.GetAction Fake.Hub "secrets" "kueue-system" "kubeconfig-a";
       Fake.GetAction (Fake.Spoke Scenario.host) "pipelineruns" "ns" "plr-1";
       Fake.GetAction Fake.Hub "secrets" "ns" "git-creds";
       Fake.CreateAction (Fake.Spoke Scenario.host) "secrets" "ns" "git-creds"])
    by (vm_compute; reflexivity).
  split; [reflexivity|]. split; [|split; [|exact Hactions]].
  - exists (Scenario.ownerRef "PipelineRun" "plr-0" None).
    split; [left|]. split; [reflexivity|discriminate].
  - intros (_ & Hnone & _). rewrite Hactions in Hnone. discriminate.
Qed.

(** The end-to-end scenario runs through every stage: [Reconcile] returns
    nil and the spoke, which held no secret, holds the projection of the hub
    secret under [ns/git-creds]. *)
Lemma scenario_runs (uid : string) (refs : list OwnerReference.t) :
  let plr := Scenario.pipelineRun uid {[ gitAuthSecret := "git-creds" ]} [] in
  let out := Reconcile (Fake.reconciler "kueue-system") Fake.ctx "ns/wl-1"
               (Scenario.world uid refs) in
  fst out = Done None
  ∧ Fake.spokes (snd out) !! Scenario.host
    = Some (Fake.mkCluster
              {[ ("ns", "git-creds") := newSecret (Scenario.gitCreds refs) plr ]}
              {[ ("ns", "plr-1") := plr ]}).
Proof.
  intros plr out.
  set (r := Fake.reconciler "kueue-system").
  set (w := Scenario.world uid refs).
  set (w1 := snd (lookupWorkload r Fake.ctx "ns" "wl-1" w)).
  set (w2 := snd (getSpokeClusterConfig r "cluster-a" w1)).
  set (w3 := snd (validatePLRAndGetSecretName r (Fake.tekton (Fake.Spoke Scenario.host))
                    "plr-1" "ns" "cluster-a" w2)).
  destruct (Fake_createSecretOnSpokeCluster "kueue-system" "git-creds" "cluster-a"
              Scenario.host plr (Scenario.gitCreds refs)
              (Fake.mkCluster ∅ {[ ("ns", "plr-1") := plr ]}) w3)
    as (w4 & Hcreate & _ & Hspokes); [reflexivity|reflexivity|].
  destruct (Reconcile_synced r Fake.ctx "ns/wl-1" "ns" "wl-1" Scenario.wl1 "cluster-a"
              (Scenario.ownerRef "PipelineRun" "plr-1" (Some true))
              (Fake.kube (Fake.Spoke Scenario.host))
              (Fake.tekton (Fake.Spoke Scenario.host))
              "git-creds" plr w w1 w2 w3 w4) as (l & msg & Hrun).
  - reflexivity.
  - reflexivity.
  - repeat split; discriminate.
  - exists Scenario.host. repeat split.
  - reflexivity.
  - discriminate.
  - exact Hcreate.
  - subst out r w. rewrite Hrun. split; [reflexivity|].
    change (Fake.spokes w4 !! Scenario.host = Some
              (Fake.mkCluster
                 {[ ("ns", "git-creds") := newSecret (Scenario.gitCreds refs) plr ]}
                 {[ ("ns", "plr-1") := plr ]})).
    rewrite Hspokes. apply lookup_insert_eq.
Qed.

(** C8 (amended).  In the end-to-end scenario, whatever the UID of [plr-1]
    on the spoke and whatever owner references the hub secret carries,
    [Reconcile] returns nil and a secret [ns/git-creds] with payload
    [{token: "abc"}] is created on the spoke; it has one owner reference
    for each owner reference of the hub secret, every one of them with the
    UID of [plr-1]; so the expected outcome is reached whenever the hub
    secret has an owner reference. *)
Theorem end_to_end_sync (uid : string) (refs : list OwnerReference.t) :
  let out := Reconcile (Fake.reconciler "kueue-system") Fake.ctx "ns/wl-1"
               (Scenario.world uid refs) in
  fst out = Done None
  ∧ (∃ c s,
       Fake.spokes (snd out) !! Scenario.host = Some c
       ∧ Fake.secrets c !! ("ns", "git-creds") = Some s
       ∧ Secret.Data s = {[ "token" := Scenario.bytes "abc" ]}
       ∧ length (ObjectMeta.OwnerReferences (Secret.ObjectMeta s)) = length refs
       ∧ ∀ ref, ref ∈ ObjectMeta.OwnerReferences (Secret.ObjectMeta s) ->
                OwnerReference.UID ref = uid)
  ∧ (refs ≠ [] -> Scenario.synced_with_owner uid out).
Proof.
  intros out. destruct (scenario_runs uid refs) as [Hres Hspoke]. fold out in Hres, Hspoke.
  set (plr := Scenario.pipelineRun uid {[ gitAuthSecret := "git-creds" ]} []) in *.
  assert (Hrefs : ObjectMeta.OwnerReferences
                    (Secret.ObjectMeta (newSecret (Scenario.gitCreds refs) plr))
                  = OwnerReference.set_UID uid <$> refs)
    by apply newSecret_OwnerReferences.
  split; [exact Hres|]. split.
  - eexists _, _. split; [exact Hspoke|]. split; [apply lookup_insert_eq|].
    split; [reflexivity|]. rewrite Hrefs. split; [apply length_fmap|].
    intros ref Hin. apply list_elem_of_fmap in Hin as (ref0 & -> & _). reflexivity.
  - intros Hne. split; [exact Hres|].
    destruct refs as [|ref0 rest]; [contradiction|].
    eexists _, _, (OwnerReference.set_UID uid ref0).
    split; [exact Hspoke|]. split; [apply lookup_insert_eq|].
    split; [reflexivity|]. rewrite Hrefs. split; [left|reflexivity].
Qed.

Lemma end_to_end_sync_witness :
  Scenario.synced_with_owner "spoke-uid"
    (Reconcile (Fake.reconciler "kueue-system") Fake.ctx "ns/wl-1"
       (Scenario.world "spoke-uid"
          [Scenario.ownerRef "PipelineRun" "plr-1" (Some true)])).
Proof.
  apply (end_to_end_sync "spoke-uid"
           [Scenario.ownerRef "PipelineRun" "plr-1" (Some true)]).
  discriminate.
Defined.

(** C8 as stated fails when the hub secret has no owner reference: the
    secret is created with the payload, but it carries no owner reference
    at all. *)
Lemma end_to_end_without_owner_reference :
  let out := Reconcile (Fake.reconciler "kueue-system") Fake.ctx "ns/wl-1"
               (Scenario.world "spoke-uid" []) in
  fst out = Done None
  ∧ (∃ c s,
       Fake.spokes (snd out) !! Scenario.host = Some c
       ∧ Fake.secrets c !! ("ns", "git-creds") = Some s
       ∧ Secret.Data s = {[ "token" := Scenario.bytes "abc" ]}
       ∧ ObjectMeta.OwnerReferences (Secret.ObjectMeta s) = [])
  ∧ ¬ Scenario.synced_with_owner "spoke-uid" out.
Proof.
  intros out. destruct (scenario_runs "spoke-uid" []) as [Hres Hspoke].
  fold out in Hres, Hspoke.
  split; [exact Hres|]. split.
  - eexists _, _. split; [exact Hspoke|]. split; [apply lookup_insert_eq|].
    split; reflexivity.
  - intros (_ & c & s & ref & Hc & Hs & _ & Hin & _).
    rewrite Hspoke in Hc. injection Hc as <-.
    cbn [Fake.secrets] in Hs. rewrite lookup_singleton_eq in Hs. injection Hs as <-.
    inversion Hin.
Qed.


(* ===================================================================== *)
(** ** Further properties: cluster config resolver *)
(* ===================================================================== *)

Lemma append_assoc (a b c : string) : (a +:+ b) +:+ c = a +:+ b +:+ c.
Proof.
  induction a as [|x a IH]; [reflexivity|].
  change (String x ((a +:+ b) +:+ c) = String x (a +:+ b +:+ c)).
  now rewrite IH.
Qed.

Lemma Error_fmt_Errorf_w (prefix : string) (err : error) :
  Error (fmt_Errorf_w prefix err) = prefix +:+ Error err.
Proof. reflexivity. Qed.

Section ResolverFacts.
Context {W : Type} `{External W}.
Implicit Types (r : Reconciler W) (w : W).

(** X1.  When the registration cannot be fetched the resolver fails without
    reading any secret; the error text names the cluster before the text of
    the cause, and the cause stays visible to the API error tests. *)
Theorem getSpokeClusterConfig_registration_lookup_failed r clusterName err w w1 :
  MultiKueueClusters_Get (kueueClient r) clusterName w = (Done (Err err), w1) ->
  ∃ e,
    getSpokeClusterConfig r clusterName w = (Done (Err e), w1)
    ∧ Error e = "could not find MultiKueueCluster " +:+ clusterName +:+ ": " +:+ Error err
    ∧ IsNotFound e = IsNotFound err
    ∧ IsAlreadyExists e = IsAlreadyExists err.
Proof.
  intros Hget. eexists. split.
  - unfold getSpokeClusterConfig. run. rewrite Hget. reflexivity.
  - split; [|split; reflexivity].
    rewrite Error_fmt_Errorf_w. now rewrite !append_assoc.
Qed.

(** X2.  For location type [Secret], when the credential secret cannot be
    fetched the resolver fails; the error text names the kueue namespace
    and the secret before the text of the cause, and the cause stays
    visible to the API error tests. *)
Theorem getSpokeClusterConfig_credential_lookup_failed r clusterName mkCluster err
    w w1 w2 :
  MultiKueueClusters_Get (kueueClient r) clusterName w = (Done (Ok mkCluster), w1) ->
  MultiKueueCluster.Spec_KubeConfig_LocationType mkCluster = "Secret" ->
  Secrets_Get (hubKubeClient r) (kueueNamespace r)
    (MultiKueueCluster.Spec_KubeConfig_Location mkCluster) w1
  = (Done (Err err), w2) ->
  ∃ e,
    getSpokeClusterConfig r clusterName w = (Done (Err e), w2)
    ∧ Error e
      = "could not get kubeconfig secret " +:+ kueueNamespace r +:+ "/"
          +:+ MultiKueueCluster.Spec_KubeConfig_Location mkCluster +:+ ": "
          +:+ Error err
    ∧ IsNotFound e = IsNotFound err.
Proof.
  intros Hget Htype Hsec. eexists. split.
  - unfold getSpokeClusterConfig. run. rewrite Hget. cbv beta iota zeta.
    rewrite Htype. change ("Secret" =? "Secret")%string with true. cbv beta iota.
    rewrite Hsec. reflexivity.
  - split; [|reflexivity].
    rewrite Error_fmt_Errorf_w. now rewrite !append_assoc.
Qed.

(** X3.  For location type [Secret] with the [kubeconfig] key present, the
    resolver's answer is the answer of the kubeconfig parser on the bytes
    under that key, success or failure alike. *)
Theorem getSpokeClusterConfig_parses_credential r clusterName mkCluster
    kubeconfigSecret kubeconfigBytes w w1 w2 :
  MultiKueueClusters_Get (kueueClient r) clusterName w = (Done (Ok mkCluster), w1) ->
  MultiKueueCluster.Spec_KubeConfig_LocationType mkCluster = "Secret" ->
  Secrets_Get (hubKubeClient r) (kueueNamespace r)
    (MultiKueueCluster.Spec_KubeConfig_Location mkCluster) w1
  = (Done (Ok kubeconfigSecret), w2) ->
  Secret.Data kubeconfigSecret !! "kubeconfig" = Some kubeconfigBytes ->
  getSpokeClusterConfig r clusterName w
  = (Done (clientcmd_RESTConfigFromKubeConfig kubeconfigBytes), w2).
Proof.
  intros Hget Htype Hsec Hkey.
  unfold getSpokeClusterConfig. run. rewrite Hget. cbv beta iota zeta.
  rewrite Htype. change ("Secret" =? "Secret")%string with true. cbv beta iota.
  rewrite Hsec. cbv beta iota. now rewrite Hkey.
Qed.

(** X4.  For location type [Path] the resolver reads no secret: it hands
    the location to [BuildConfigFromFlags] with an empty master URL and
    returns what that returns. *)
Theorem getSpokeClusterConfig_path r clusterName mkCluster w w1 :
  MultiKueueClusters_Get (kueueClient r) clusterName w = (Done (Ok mkCluster), w1) ->
  MultiKueueCluster.Spec_KubeConfig_LocationType mkCluster = "Path" ->
  getSpokeClusterConfig r clusterName w
  = clientcmd_BuildConfigFromFlags ""
      (MultiKueueCluster.Spec_KubeConfig_Location mkCluster) w1.
Proof.
  intros Hget Htype.
  unfold getSpokeClusterConfig. run. rewrite Hget. cbv beta iota zeta.
  rewrite Htype. reflexivity.
Qed.

End ResolverFacts.

(* ===================================================================== *)
(** ** Further properties: pipeline validator *)
(* ===================================================================== *)

Section ValidatorFacts.
Context {W : Type} `{External W}.
Implicit Types (r : Reconciler W) (w : W).

(** X5.  For a PipelineRun that exists, is not done and has no
    git-auth-secret annotation, the validator returns the empty name, no
    PipelineRun and no error. *)
Theorem validatePLR_without_annotation r spokeTektonClient plrName plrNamespace
    clusterName pipelineRun w w1 :
  PipelineRuns_Get spokeTektonClient plrNamespace plrName w
  = (Done (Ok pipelineRun), w1) ->
  PipelineRun_IsDone pipelineRun = false ->
  ObjectMeta.Annotations (PipelineRun.ObjectMeta pipelineRun) !! gitAuthSecret = None ->
  ∃ msg1 msg2,
    validatePLRAndGetSecretName r spokeTektonClient plrName plrNamespace clusterName w
    = (Done ("", None, None),
       zap_write (logger r) InfoLevel msg2 (zap_write (logger r) InfoLevel msg1 w1)).
Proof.
  intros Hget Hdone Hann. unfold validatePLRAndGetSecretName. run. rewrite Hget.
  cbv beta iota. rewrite Hdone, Hann. do 2 eexists. reflexivity.
Qed.

(** X6.  For a PipelineRun that exists, is not done and carries the
    git-auth-secret annotation, the validator returns the annotation's
    value together with the PipelineRun it fetched and no error. *)
Theorem validatePLR_names_secret r spokeTektonClient plrName plrNamespace
    clusterName pipelineRun secretName w w1 :
  PipelineRuns_Get spokeTektonClient plrNamespace plrName w
  = (Done (Ok pipelineRun), w1) ->
  PipelineRun_IsDone pipelineRun = false ->
  ObjectMeta.Annotations (PipelineRun.ObjectMeta pipelineRun) !! gitAuthSecret
  = Some secretName ->
  ∃ msg1 msg2,
    validatePLRAndGetSecretName r spokeTektonClient plrName plrNamespace clusterName w
    = (Done (secretName, Some pipelineRun, None),
       zap_write (logger r) InfoLevel msg2 (zap_write (logger r) InfoLevel msg1 w1)).
Proof.
  intros Hget Hdone Hann. unfold validatePLRAndGetSecretName. run. rewrite Hget.
  cbv beta iota. rewrite Hdone, Hann.
  (* the PipelineRun handed back is the fetched object itself *)
  do 2 eexists. reflexivity.
Qed.

(** The three components of the validator's answer constrain each other. *)
Lemma validate_shape r spokeTektonClient plrName plrNamespace clusterName
    secretName pipelineRun err w w' :
  validatePLRAndGetSecretName r spokeTektonClient plrName plrNamespace clusterName w
  = (Done (secretName, pipelineRun, err), w') ->
  (err ≠ None -> secretName = "" ∧ pipelineRun = None)
  ∧ (secretName ≠ "" -> is_Some pipelineRun)
  ∧ (∀ plr, pipelineRun = Some plr ->
       fst (PipelineRuns_Get spokeTektonClient plrNamespace plrName w) = Done (Ok plr)
       ∧ PipelineRun_IsDone plr = false
       ∧ ObjectMeta.Annotations (PipelineRun.ObjectMeta plr) !! gitAuthSecret
         = Some secretName
       ∧ err = None).
Proof.
  unfold validatePLRAndGetSecretName. run.
  destruct (PipelineRuns_Get spokeTektonClient plrNamespace plrName w)
    as [[[plr|e]|msg] w1] eqn:Hget; cbv beta iota.
  - destruct (PipelineRun_IsDone plr) eqn:Hdone.
    + intros [= <- <- <- <-]. unfold is_Some. naive_solver.
    + destruct (ObjectMeta.Annotations (PipelineRun.ObjectMeta plr) !! gitAuthSecret)
        as [name|] eqn:Hann; intros [= <- <- <- <-]; unfold is_Some; naive_solver.
  - destruct (IsNotFound e); intros [= <- <- <- <-]; unfold is_Some; naive_solver.
  - discriminate.
Qed.

(** X7.  Whatever the spoke answers, the validator's answer is coherent: an
    error comes with the empty name and no PipelineRun; a non-empty name
    comes with a PipelineRun; and a returned PipelineRun is the one fetched,
    is not done, carries the returned name as its annotation, and comes
    without error. *)
Theorem validatePLR_answer_is_coherent r spokeTektonClient plrName plrNamespace
    clusterName secretName pipelineRun err w w' :
  validatePLRAndGetSecretName r spokeTektonClient plrName plrNamespace clusterName w
  = (Done (secretName, pipelineRun, err), w') ->
  (err ≠ None -> secretName = "" ∧ pipelineRun = None)
  ∧ (secretName ≠ "" -> ∃ plr, pipelineRun = Some plr)
  ∧ (∀ plr, pipelineRun = Some plr ->
       fst (PipelineRuns_Get spokeTektonClient plrNamespace plrName w) = Done (Ok plr)
       ∧ PipelineRun_IsDone plr = false
       ∧ ObjectMeta.Annotations (PipelineRun.ObjectMeta plr) !! gitAuthSecret
         = Some secretName
       ∧ err = None).
Proof.
  intros Hrun. destruct (validate_shape _ _ _ _ _ _ _ _ _ _ Hrun) as (He & Hn & Hp).
  split; [exact He|]. split; [|exact Hp].
  intros Hne. destruct (Hn Hne) as [plr ->]. eauto.
Qed.

End ValidatorFacts.

Lemma validatePLR_without_annotation_witness :
  let w := Scenario.build Scenario.wl1 (Scenario.clusterA "Secret")
             (Scenario.kubeconfigA Scenario.validData) (Scenario.gitCreds [])
             {[ ("ns", "plr-1") := Scenario.pipelineRun "spoke-uid" ∅ [] ]} in
  fst (validatePLRAndGetSecretName (Fake.reconciler "kueue-system")
         (Fake.tekton (Fake.Spoke Scenario.host)) "plr-1" "ns" "cluster-a" w)
  = Done ("", None, None).
Proof.
  intros w.
  destruct (validatePLR_without_annotation (H := Fake.external)
              (Fake.reconciler "kueue-system")
              (Fake.tekton (Fake.Spoke Scenario.host)) "plr-1" "ns" "cluster-a"
              (Scenario.pipelineRun "spoke-uid" ∅ []) w _ eq_refl eq_refl eq_refl)
    as (msg1 & msg2 & ->).
  reflexivity.
Defined.

Lemma validatePLR_names_secret_witness :
  fst (validatePLRAndGetSecretName (Fake.reconciler "kueue-system")
         (Fake.tekton (Fake.Spoke Scenario.host)) "plr-1" "ns" "cluster-a"
         (Scenario.world "spoke-uid" []))
  = Done ("git-creds",
          Some (Scenario.pipelineRun "spoke-uid" {[ gitAuthSecret := "git-creds" ]} []),
          None).
Proof.
  destruct (validatePLR_names_secret (H := Fake.external)
              (Fake.reconciler "kueue-system")
              (Fake.tekton (Fake.Spoke Scenario.host)) "plr-1" "ns" "cluster-a"
              (Scenario.pipelineRun "spoke-uid" {[ gitAuthSecret := "git-creds" ]} [])
              "git-creds" (Scenario.world "spoke-uid" []) _ eq_refl eq_refl eq_refl)
    as (msg1 & msg2 & ->).
  reflexivity.
Defined.

Lemma validatePLR_answer_is_coherent_witness :
  ∃ plr,
    Some (Scenario.pipelineRun "spoke-uid" {[ gitAuthSecret := "git-creds" ]} [])
    = Some plr.
Proof.
  refine (proj1 (proj2 (validatePLR_answer_is_coherent (H := Fake.external)
            (Fake.reconciler "kueue-system")
            (Fake.tekton (Fake.Spoke Scenario.host)) "plr-1" "ns" "cluster-a"
            "git-creds"
            (Some (Scenario.pipelineRun "spoke-uid"
                     {[ gitAuthSecret := "git-creds" ]} []))
            None (Scenario.world "spoke-uid" []) _ eq_refl)) _).
  discriminate.
Defined.

(* ===================================================================== *)
(** ** Further properties: secret syncer *)
(* ===================================================================== *)

Section SyncerFacts.
Context {W : Type} `{External W}.
Implicit Types (r : Reconciler W) (w : W).

(** X8.  When the source secret cannot be fetched from the hub, for any
    reason including not-found, the syncer returns that error after one
    error log line and sends nothing to the spoke. *)
Theorem createSecretOnSpokeCluster_hub_fetch_failure r secretName clusterName
    spokeKubeClient plr err w w1 :
  Secrets_Get (hubKubeClient r)
    (ObjectMeta.Namespace (PipelineRun.ObjectMeta plr)) secretName w
  = (Done (Err err), w1) ->
  ∃ msg,
    createSecretOnSpokeCluster r secretName clusterName spokeKubeClient (Some plr) w
    = (Done (Some err), zap_write (logger r) ErrorLevel msg w1).
Proof.
  intros Hget. unfold createSecretOnSpokeCluster. run. rewrite Hget.
  (* the error branch returns before [newSecret] is built or submitted *)
  eexists. reflexivity.
Qed.

End SyncerFacts.

Lemma createSecretOnSpokeCluster_hub_fetch_failure_witness :
  let plr := Scenario.pipelineRun "spoke-uid" {[ gitAuthSecret := "absent" ]} [] in
  let out := createSecretOnSpokeCluster (Fake.reconciler "kueue-system") "absent"
               "cluster-a" (Fake.kube (Fake.Spoke Scenario.host)) (Some plr)
               (Scenario.world "spoke-uid" []) in
  fst out = Done (Some (Fake.NewNotFound "secrets" "absent"))
  ∧ Fake.actions (snd out) = [Fake.GetAction Fake.Hub "secrets" "ns" "absent"].
Proof.
  intros plr out.
  destruct (createSecretOnSpokeCluster_hub_fetch_failure (H := Fake.external)
              (Fake.reconciler "kueue-system") "absent" "cluster-a"
              (Fake.kube (Fake.Spoke Scenario.host)) plr
              (Fake.NewNotFound "secrets" "absent")
              (Scenario.world "spoke-uid" []) _ eq_refl) as [msg Hrun].
  subst out. rewrite Hrun. split; reflexivity.
Defined.

Lemma set_UID_set_UID uid1 uid2 ref :
  OwnerReference.set_UID uid2 (OwnerReference.set_UID uid1 ref)
  = OwnerReference.set_UID uid2 ref.
Proof. reflexivity. Qed.

Lemma newSecret_unfold secret plr :
  newSecret secret plr
  = Secret.mk
      (ObjectMeta.mk
         (ObjectMeta.Name (Secret.ObjectMeta secret))
         (ObjectMeta.Namespace (Secret.ObjectMeta secret)) "" ""
         (ObjectMeta.Labels (Secret.ObjectMeta secret))
         (ObjectMeta.Annotations (Secret.ObjectMeta secret))
         (map (OwnerReference.set_UID (ObjectMeta.UID (PipelineRun.ObjectMeta plr)))
            (ObjectMeta.OwnerReferences (Secret.ObjectMeta secret))))
      None (Secret.Data secret) ∅ (Secret.Type_ secret).
Proof.
  rewrite <- newSecret_OwnerReferences. reflexivity.
Qed.

(** X9.  The projection forgets what an earlier projection stamped:
    projecting for [plr2] a secret already projected for [plr1] gives the
    object obtained by projecting the source for [plr2]; in particular
    projecting twice for one PipelineRun equals projecting once. *)
Theorem newSecret_reprojection (secret : Secret.t) (plr1 plr2 : PipelineRun.t) :
  newSecret (newSecret secret plr1) plr2 = newSecret secret plr2.
Proof.
  rewrite (newSecret_unfold (newSecret secret plr1) plr2).
  rewrite newSecret_OwnerReferences, map_map.
  rewrite (newSecret_unfold secret plr2). reflexivity.
Qed.

(* ===================================================================== *)
(** ** Further properties: event filter *)
(* ===================================================================== *)

Lemma GetControllerOfRefs_elem refs ref :
  GetControllerOfRefs refs = Some ref ->
  ref ∈ refs ∧ OwnerReference.Controller ref = Some true.
Proof.
  induction refs as [|x rest IH]; [discriminate|]. simpl.
  destruct (OwnerReference.Controller x) as [[|]|] eqn:Hc.
  - intros [= <-]. split; [left|exact Hc].
  - intros Hr. destruct (IH Hr). split; [now right|assumption].
  - intros Hr. destruct (IH Hr). split; [now right|assumption].
Qed.

Section FilterFacts.
Context {W : Type} `{External W}.

Lemma checkOwners_decides impl (object : Workload.t)
    (owners : list OwnerReference.t) (w : W) :
  checkOwners impl object owners w
  = (Done tt,
     if any_PipelineRun_owner owners
     then controller_EnqueueKey impl
            (mkNamespacedName (ObjectMeta.Namespace (Workload.ObjectMeta object))
               (ObjectMeta.Name (Workload.ObjectMeta object))) w
     else w).
Proof.
  induction owners as [|owner rest IH]; [reflexivity|]. simpl.
  destruct (OwnerReference.Kind owner =? "PipelineRun")%string; [reflexivity|exact IH].
Qed.

(** X10.  The event filter enqueues the key of the object exactly once when
    at least one of its owner references has kind PipelineRun, however many
    do, and does nothing otherwise; a deletion tombstone counts as the
    workload it holds, and any other value is ignored. *)
Theorem checkOwnerAndEnqueue_decides impl (obj : any) (w : W) :
  checkOwnerAndEnqueue impl obj w
  = (Done tt,
     match obj with
     | AnyWorkload object | AnyDeletedFinalStateUnknown _ (AnyWorkload object) =>
         if any_PipelineRun_owner
              (ObjectMeta.OwnerReferences (Workload.ObjectMeta object))
         then controller_EnqueueKey impl
                (mkNamespacedName (ObjectMeta.Namespace (Workload.ObjectMeta object))
                   (ObjectMeta.Name (Workload.ObjectMeta object))) w
         else w
     | _ => w
     end).
Proof.
  unfold checkOwnerAndEnqueue.
  destruct obj as [object|key [object|key' obj'|]|]; simpl;
    try reflexivity; apply checkOwners_decides.
Qed.

(** X11.  The filter lets through every workload the owner gate of
    [Reconcile] accepts: a workload whose controlling owner reference has
    kind PipelineRun is enqueued. *)
Theorem filter_admits_what_the_gate_accepts impl (workload : Workload.t)
    (ref : OwnerReference.t) (w : W) :
  metav1_GetControllerOf workload = Some ref ->
  OwnerReference.Kind ref = "PipelineRun" ->
  checkOwnerAndEnqueue impl (AnyWorkload workload) w
  = (Done tt,
     controller_EnqueueKey impl
       (mkNamespacedName (ObjectMeta.Namespace (Workload.ObjectMeta workload))
          (ObjectMeta.Name (Workload.ObjectMeta workload))) w).
Proof.
  intros Hctl Hkind. unfold checkOwnerAndEnqueue. simpl.
  apply checkOwners_enqueues. exists ref. split; [|exact Hkind].
  now apply GetControllerOfRefs_elem.
Qed.

End FilterFacts.

Lemma filter_admits_what_the_gate_accepts_witness :
  Fake.queue (snd (checkOwnerAndEnqueue (H := Fake.external) controllerName
                     (AnyWorkload Scenario.wl2) (Scenario.world "spoke-uid" [])))
  = [mkNamespacedName "ns" "wl-2"].
Proof.
  rewrite (filter_admits_what_the_gate_accepts (H := Fake.external) controllerName
             Scenario.wl2 (Scenario.ownerRef "PipelineRun" "plr-1" (Some true))
             (Scenario.world "spoke-uid" []) eq_refl eq_refl).
  reflexivity.
Defined.


(* ===================================================================== *)
(** ** Further properties: reconciliation orchestrator *)
(* ===================================================================== *)

Lemma strings_Split_slash_length (key : string) :
  length (strings_Split_slash key) = S (slashes key).
Proof.
  induction key as [|c rest IH]; [reflexivity|]. simpl.
  destruct (Ascii.eqb c "/"); simpl; [now rewrite IH|].
  destruct (strings_Split_slash rest); simpl in *; [discriminate|exact IH].
Qed.

Lemma cache_SplitMetaNamespaceKey_malformed (key : string) :
  (2 ≤ slashes key)%nat ->
  ∃ err, cache_SplitMetaNamespaceKey key = ("", "", Some err).
Proof.
  intros Hslashes. pose proof (strings_Split_slash_length key) as Hlen.
  unfold cache_SplitMetaNamespaceKey.
  destruct (strings_Split_slash key) as [|a [|b [|c rest]]]; simpl in Hlen;
    try lia; eexists; reflexivity.
Qed.

Section OrchestratorFacts.
Context {W : Type} `{External W}.
Implicit Types (r : Reconciler W) (w : W).

(** X12.  A key with two or more slashes is dropped: [Reconcile] writes one
    error line to the context logger, asks no client and returns nil, so the
    key is not retried. *)
Theorem Reconcile_drops_malformed_key r ctx key w :
  (2 ≤ slashes key)%nat ->
  Reconcile r ctx key w
  = (Done None,
     zap_write (logging_FromContext ctx) ErrorLevel ("invalid resource key: " +:+ key) w).
Proof.
  intros Hslashes.
  destruct (cache_SplitMetaNamespaceKey_malformed key Hslashes) as [err Hkey].
  unfold Reconcile. rewrite Hkey. reflexivity.
Qed.

(** X13.  When the workload is not in the cache [Reconcile] returns nil;
    when the lookup fails for any other reason it returns that error.  In
    both cases nothing but one log line follows the lookup. *)
Theorem Reconcile_workload_lookup_failed r ctx key namespace name err w w1 :
  cache_SplitMetaNamespaceKey key = (namespace, name, None) ->
  lookupWorkload r ctx namespace name w = (Done (Err err), w1) ->
  ∃ msg,
    Reconcile r ctx key w
    = if IsNotFound err
      then (Done None, zap_write (workloadLogger ctx namespace name) DebugLevel msg w1)
      else (Done (Some err),
            zap_write (workloadLogger ctx namespace name) ErrorLevel msg w1).
Proof.
  intros Hkey Hget. rewrite lookupWorkload_unfold in Hget.
  unfold Reconcile. rewrite Hkey. run. fold (workloadLogger ctx namespace name).
  rewrite Hget. cbv beta iota.
  destruct (IsNotFound err); eexists; reflexivity.
Qed.

(** X14.  Past the gates, a failure of the cluster config resolver is
    returned by [Reconcile] after one error line on the reconciler's logger;
    no spoke client is built. *)
Theorem Reconcile_returns_resolver_error r ctx key namespace name workload
    clusterName ref err w w1 w2 :
  cache_SplitMetaNamespaceKey key = (namespace, name, None) ->
  lookupWorkload r ctx namespace name w = (Done (Ok workload), w1) ->
  gates_open workload clusterName ref ->
  getSpokeClusterConfig r clusterName w1 = (Done (Err err), w2) ->
  ∃ msg, Reconcile r ctx key w = (Done (Some err), zap_write (logger r) ErrorLevel msg w2).
Proof.
  intros Hkey Hget (Hactive & Hcluster & Hne & Hctl & Hkind) Hcfg.
  open_gates Hkey Hget Hcluster Hctl Hkind.
  all: rewrite Hcfg; eexists; reflexivity.
Qed.

(** X15.  Past the gates, when a spoke client cannot be built from the
    resolved config, the kube client being tried first, [Reconcile] returns
    the construction error and the spoke is not contacted. *)
Theorem Reconcile_returns_client_construction_error r ctx key namespace name
    workload clusterName ref cfg err w w1 w2 :
  cache_SplitMetaNamespaceKey key = (namespace, name, None) ->
  lookupWorkload r ctx namespace name w = (Done (Ok workload), w1) ->
  gates_open workload clusterName ref ->
  getSpokeClusterConfig r clusterName w1 = (Done (Ok cfg), w2) ->
  (kubernetes_NewForConfig cfg = Err err
   ∨ (∃ k, kubernetes_NewForConfig cfg = Ok k)
     ∧ tektonversioned2_NewForConfig cfg = Err err) ->
  ∃ msg, Reconcile r ctx key w = (Done (Some err), zap_write (logger r) ErrorLevel msg w2).
Proof.
  intros Hkey Hget (Hactive & Hcluster & Hne & Hctl & Hkind) Hcfg Hbuild.
  open_gates Hkey Hget Hcluster Hctl Hkind.
  all: rewrite Hcfg; cbv beta iota.
  all: destruct Hbuild as [Hk|[[k Hk] Ht]]; rewrite Hk; [|rewrite Ht];
    eexists; reflexivity.
Qed.

(** X16.  Past the gates, when the fetch of the PipelineRun fails:
    not-found makes [Reconcile] return nil, any other failure is returned;
    either way only one log line follows the fetch, so no secret is read or
    created. *)
Theorem Reconcile_PipelineRun_fetch_failed r ctx key namespace name workload
    clusterName ref spokeKubeClient spokeTektonClient err w w1 w2 w3 :
  cache_SplitMetaNamespaceKey key = (namespace, name, None) ->
  lookupWorkload r ctx namespace name w = (Done (Ok workload), w1) ->
  gates_open workload clusterName ref ->
  spoke_clients r clusterName spokeKubeClient spokeTektonClient w1 w2 ->
  PipelineRuns_Get spokeTektonClient
    (ObjectMeta.Namespace (Workload.ObjectMeta workload)) (OwnerReference.Name ref) w2
  = (Done (Err err), w3) ->
  ∃ msg,
    Reconcile r ctx key w
    = if IsNotFound err
      then (Done None, zap_write (logger r) InfoLevel msg w3)
      else (Done (Some err), zap_write (logger r) ErrorLevel msg w3).
Proof.
  intros Hkey Hget Hgates Hclients Hplr.
  destruct (validate_fetch_failed r spokeTektonClient (OwnerReference.Name ref)
              (ObjectMeta.Namespace (Workload.ObjectMeta workload)) clusterName
              err w2 w3 Hplr) as [msg Hval].
  exists msg. destruct (IsNotFound err).
  - eapply Reconcile_nothing_to_sync; eassumption.
  - eapply Reconcile_validator_error; eassumption.
Qed.

(** X17.  Past the gates, for a PipelineRun that is done or has no
    git-auth-secret annotation, [Reconcile] returns nil and the syncer is
    not called: only the validator's two log lines follow the fetch. *)
Theorem Reconcile_skips_syncer r ctx key namespace name workload clusterName ref
    spokeKubeClient spokeTektonClient pipelineRun w w1 w2 w3 :
  cache_SplitMetaNamespaceKey key = (namespace, name, None) ->
  lookupWorkload r ctx namespace name w = (Done (Ok workload), w1) ->
  gates_open workload clusterName ref ->
  spoke_clients r clusterName spokeKubeClient spokeTektonClient w1 w2 ->
  PipelineRuns_Get spokeTektonClient
    (ObjectMeta.Namespace (Workload.ObjectMeta workload)) (OwnerReference.Name ref) w2
  = (Done (Ok pipelineRun), w3) ->
  (PipelineRun_IsDone pipelineRun = true
   ∨ ObjectMeta.Annotations (PipelineRun.ObjectMeta pipelineRun) !! gitAuthSecret
     = None) ->
  ∃ msg1 msg2,
    Reconcile r ctx key w
    = (Done None,
       zap_write (logger r) InfoLevel msg2 (zap_write (logger r) InfoLevel msg1 w3)).
Proof.
  intros Hkey Hget Hgates Hclients Hplr Hskip.
  assert (Hval : ∃ msg1 msg2,
    validatePLRAndGetSecretName r spokeTektonClient (OwnerReference.Name ref)
      (ObjectMeta.Namespace (Workload.ObjectMeta workload)) clusterName w2
    = (Done ("", None, None),
       zap_write (logger r) InfoLevel msg2 (zap_write (logger r) InfoLevel msg1 w3))).
  { unfold validatePLRAndGetSecretName. run. rewrite Hplr. cbv beta iota.
    destruct (PipelineRun_IsDone pipelineRun) eqn:Hdone; [do 2 eexists; reflexivity|].
    destruct Hskip as [Hd|Hann]; [discriminate|]. rewrite Hann.
    do 2 eexists; reflexivity. }
  destruct Hval as (msg1 & msg2 & Hval). exists msg1, msg2.
  eapply Reconcile_nothing_to_sync; eassumption.
Qed.

(** X18.  Past the gates and the validator, [Reconcile] returns what the
    syncer returns, nil or error, adding one log line. *)
Theorem Reconcile_returns_syncer_result r ctx key namespace name workload
    clusterName ref spokeKubeClient spokeTektonClient secretName plr res
    w w1 w2 w3 w4 :
  cache_SplitMetaNamespaceKey key = (namespace, name, None) ->
  lookupWorkload r ctx namespace name w = (Done (Ok workload), w1) ->
  gates_open workload clusterName ref ->
  spoke_clients r clusterName spokeKubeClient spokeTektonClient w1 w2 ->
  validatePLRAndGetSecretName r spokeTektonClient (OwnerReference.Name ref)
    (ObjectMeta.Namespace (Workload.ObjectMeta workload)) clusterName w2
  = (Done (secretName, Some plr, None), w3) ->
  secretName ≠ "" ->
  createSecretOnSpokeCluster r secretName clusterName spokeKubeClient (Some plr) w3
  = (Done res, w4) ->
  ∃ l lvl msg, Reconcile r ctx key w = (Done res, zap_write l lvl msg w4).
Proof.
  intros Hkey Hget (Hactive & Hcluster & Hne & Hctl & Hkind) (cfg & Hcfg & Hk & Ht)
    Hval Hname Hcreate.
  apply String.eqb_neq in Hname.
  open_gates Hkey Hget Hcluster Hctl Hkind.
  all: rewrite Hcfg; cbv beta iota; rewrite Hk, Ht; cbv beta iota.
  all: rewrite Hval; cbv beta iota; rewrite Hname; rewrite Hcreate.
  all: destruct res; do 3 eexists; reflexivity.
Qed.

End OrchestratorFacts.

Lemma Reconcile_drops_malformed_key_witness :
  no_cross_cluster_work (Scenario.world "spoke-uid" [])
    (Reconcile (Fake.reconciler "kueue-system") Fake.ctx "ns/wl-1/extra"
       (Scenario.world "spoke-uid" [])).
Proof.
  assert (Hslashes : (2 ≤ slashes "ns/wl-1/extra")%nat) by (simpl; lia).
  rewrite (Reconcile_drops_malformed_key (H := Fake.external)
             (Fake.reconciler "kueue-system") Fake.ctx "ns/wl-1/extra"
             (Scenario.world "spoke-uid" []) Hslashes).
  repeat split.
Defined.

Lemma Reconcile_workload_lookup_failed_witness :
  no_cross_cluster_work (Scenario.world "spoke-uid" [])
    (Reconcile (Fake.reconciler "kueue-system") Fake.ctx "ns/gone"
       (Scenario.world "spoke-uid" [])).
Proof.
  destruct (Reconcile_workload_lookup_failed (H := Fake.external)
              (Fake.reconciler "kueue-system") Fake.ctx "ns/gone" "ns" "gone"
              (Fake.NewNotFound "workload" "gone")
              (Scenario.world "spoke-uid" []) _ eq_refl eq_refl) as [msg ->].
  repeat split.
Defined.

Lemma Reconcile_returns_resolver_error_witness :
  fst (Reconcile (Fake.reconciler "kueue-system") Fake.ctx "ns/wl-1"
         Scenario.unsupportedType)
  = Done (Some (errorString "unsupported kubeconfig location type: UnsupportedType")).
Proof.
  assert (Hgates : gates_open Scenario.wl1 "cluster-a"
                     (Scenario.ownerRef "PipelineRun" "plr-1" (Some true)))
    by (repeat split; discriminate).
  destruct (Reconcile_returns_resolver_error (H := Fake.external)
              (Fake.reconciler "kueue-system") Fake.ctx "ns/wl-1" "ns" "wl-1"
              Scenario.wl1 "cluster-a"
              (Scenario.ownerRef "PipelineRun" "plr-1" (Some true))
              (errorString "unsupported kubeconfig location type: UnsupportedType")
              Scenario.unsupportedType _ _ eq_refl eq_refl Hgates eq_refl)
    as [msg ->].
  reflexivity.
Defined.

Lemma Reconcile_returns_client_construction_error_witness :
  fst (Reconcile (H := brokenConstructors) (Fake.reconciler "kueue-system") Fake.ctx
         "ns/wl-1" (Scenario.world "spoke-uid" []))
  = Done (Some rejectedConfig).
Proof.
  assert (Hgates : gates_open Scenario.wl1 "cluster-a"
                     (Scenario.ownerRef "PipelineRun" "plr-1" (Some true)))
    by (repeat split; discriminate).
  destruct (Reconcile_returns_client_construction_error (H := brokenConstructors)
              (Fake.reconciler "kueue-system") Fake.ctx "ns/wl-1" "ns" "wl-1"
              Scenario.wl1 "cluster-a"
              (Scenario.ownerRef "PipelineRun" "plr-1" (Some true))
              Scenario.host rejectedConfig
              (Scenario.world "spoke-uid" []) _ _ eq_refl eq_refl Hgates eq_refl
              (or_introl eq_refl))
    as [msg ->].
  reflexivity.
Defined.

Lemma Reconcile_PipelineRun_fetch_failed_witness :
  fst (Reconcile (Fake.reconciler "kueue-system") Fake.ctx "ns/wl-1"
         Scenario.notCreatedYet)
  = Done None.
Proof.
  assert (Hgates : gates_open Scenario.wl1 "cluster-a"
                     (Scenario.ownerRef "PipelineRun" "plr-1" (Some true)))
    by (repeat split; discriminate).
  assert (Hclients : spoke_clients (H := Fake.external)
            (Fake.reconciler "kueue-system") "cluster-a"
            (Fake.kube (Fake.Spoke Scenario.host))
            (Fake.tekton (Fake.Spoke Scenario.host))
            (snd (lookupWorkload (Fake.reconciler "kueue-system") Fake.ctx "ns" "wl-1"
                    Scenario.notCreatedYet))
            (snd (getSpokeClusterConfig (Fake.reconciler "kueue-system") "cluster-a"
                    (snd (lookupWorkload (Fake.reconciler "kueue-system") Fake.ctx
                            "ns" "wl-1" Scenario.notCreatedYet)))))
    by (exists Scenario.host; repeat split).
  destruct (Reconcile_PipelineRun_fetch_failed (H := Fake.external)
              (Fake.reconciler "kueue-system") Fake.ctx "ns/wl-1" "ns" "wl-1"
              Scenario.wl1 "cluster-a"
              (Scenario.ownerRef "PipelineRun" "plr-1" (Some true))
              _ _ (Fake.NewNotFound "pipelineruns.tekton.dev" "plr-1")
              Scenario.notCreatedYet _ _ _ eq_refl eq_refl Hgates Hclients eq_refl)
    as [msg ->].
  reflexivity.
Defined.

Lemma Reconcile_skips_syncer_witness :
  let out := Reconcile (Fake.reconciler "kueue-system") Fake.ctx "ns/wl-1"
               Scenario.finished in
  fst out = Done None
  ∧ Fake.spokes (snd out) = Fake.spokes Scenario.finished.
Proof.
  intros out.
  assert (Hgates : gates_open Scenario.wl1 "cluster-a"
                     (Scenario.ownerRef "PipelineRun" "plr-1" (Some true)))
    by (repeat split; discriminate).
  assert (Hclients : spoke_clients (H := Fake.external)
            (Fake.reconciler "kueue-system") "cluster-a"
            (Fake.kube (Fake.Spoke Scenario.host))
            (Fake.tekton (Fake.Spoke Scenario.host))
            (snd (lookupWorkload (Fake.reconciler "kueue-system") Fake.ctx "ns" "wl-1"
                    Scenario.finished))
            (snd (getSpokeClusterConfig (Fake.reconciler "kueue-system") "cluster-a"
                    (snd (lookupWorkload (Fake.reconciler "kueue-system") Fake.ctx
                            "ns" "wl-1" Scenario.finished)))))
    by (exists Scenario.host; repeat split).
  destruct (Reconcile_skips_syncer (H := Fake.external)
              (Fake.reconciler "kueue-system") Fake.ctx "ns/wl-1" "ns" "wl-1"
              Scenario.wl1 "cluster-a"
              (Scenario.ownerRef "PipelineRun" "plr-1" (Some true))
              _ _ (Scenario.pipelineRun "spoke-uid" {[ gitAuthSecret := "git-creds" ]}
                     [Condition.mk "Succeeded" "True"])
              Scenario.finished _ _ _ eq_refl eq_refl Hgates Hclients eq_refl
              (or_introl eq_refl))
    as (msg1 & msg2 & Hrun).
  subst out. rewrite Hrun. split; reflexivity.
Defined.

Lemma Reconcile_returns_syncer_result_witness :
  fst (Reconcile (Fake.reconciler "kueue-system") Fake.ctx "ns/wl-1"
         (Scenario.world "spoke-uid" []))
  = Done None.
Proof.
  set (r := Fake.reconciler "kueue-system").
  set (w := Scenario.world "spoke-uid" []).
  set (w1 := snd (lookupWorkload r Fake.ctx "ns" "wl-1" w)).
  set (w2 := snd (getSpokeClusterConfig r "cluster-a" w1)).
  set (w3 := snd (validatePLRAndGetSecretName r (Fake.tekton (Fake.Spoke Scenario.host))
                    "plr-1" "ns" "cluster-a" w2)).
  set (plr := Scenario.pipelineRun "spoke-uid" {[ gitAuthSecret := "git-creds" ]} []).
  set (w4 := snd (createSecretOnSpokeCluster r "git-creds" "cluster-a"
                    (Fake.kube (Fake.Spoke Scenario.host)) (Some plr) w3)).
  assert (Hgates : gates_open Scenario.wl1 "cluster-a"
                     (Scenario.ownerRef "PipelineRun" "plr-1" (Some true)))
    by (repeat split; discriminate).
  assert (Hclients : spoke_clients (H := Fake.external) r "cluster-a"
            (Fake.kube (Fake.Spoke Scenario.host))
            (Fake.tekton (Fake.Spoke Scenario.host)) w1 w2)
    by (exists Scenario.host; repeat split).
  assert (Hname : "git-creds" ≠ "") by discriminate.
  destruct (Reconcile_returns_syncer_result (H := Fake.external) r Fake.ctx
              "ns/wl-1" "ns" "wl-1" Scenario.wl1 "cluster-a"
              (Scenario.ownerRef "PipelineRun" "plr-1" (Some true))
              _ _ "git-creds" plr None w w1 w2 w3 w4
              eq_refl eq_refl Hgates Hclients eq_refl Hname eq_refl)
    as (l & lvl & msg & ->).
  reflexivity.
Defined.

Lemma getSpokeClusterConfig_registration_lookup_failed_witness :
  ∃ e,
    fst (getSpokeClusterConfig (Fake.reconciler "kueue-system") "cluster-b"
           (Scenario.world "spoke-uid" []))
    = Done (Err e)
    ∧ IsNotFound e = true.
Proof.
  destruct (getSpokeClusterConfig_registration_lookup_failed (H := Fake.external)
              (Fake.reconciler "kueue-system") "cluster-b"
              (Fake.NewNotFound "multikueueclusters.kueue.x-k8s.io" "cluster-b")
              (Scenario.world "spoke-uid" []) _ eq_refl)
    as (e & Hrun & _ & Hnf & _).
  exists e. rewrite Hrun, Hnf. split; reflexivity.
Defined.

Lemma getSpokeClusterConfig_credential_lookup_failed_witness :
  let registration :=
    MultiKueueCluster.mk (ObjectMeta.mk "cluster-a" "" "" "" ∅ ∅ []) "Secret" "lost" in
  let w := Scenario.build Scenario.wl1 registration
             (Scenario.kubeconfigA Scenario.validData) (Scenario.gitCreds []) ∅ in
  ∃ e,
    fst (getSpokeClusterConfig (Fake.reconciler "kueue-system") "cluster-a" w)
    = Done (Err e)
    ∧ IsNotFound e = true.
Proof.
  intros registration w.
  destruct (getSpokeClusterConfig_credential_lookup_failed (H := Fake.external)
              (Fake.reconciler "kueue-system") "cluster-a" registration
              (Fake.NewNotFound "secrets" "lost") w _ _ eq_refl eq_refl eq_refl)
    as (e & Hrun & _ & Hnf).
  exists e. rewrite Hrun, Hnf. split; reflexivity.
Defined.

Lemma getSpokeClusterConfig_parses_credential_witness :
  fst (getSpokeClusterConfig (Fake.reconciler "kueue-system") "cluster-a"
         (Scenario.world "spoke-uid" []))
  = Done (Ok Scenario.host).
Proof.
  rewrite (getSpokeClusterConfig_parses_credential (H := Fake.external)
             (Fake.reconciler "kueue-system") "cluster-a" (Scenario.clusterA "Secret")
             (Scenario.kubeconfigA Scenario.validData)
             (Scenario.bytes "server: https://cluster-a:6443")
             (Scenario.world "spoke-uid" []) _ _ eq_refl eq_refl eq_refl eq_refl).
  reflexivity.
Defined.

Lemma getSpokeClusterConfig_path_witness :
  let w := Scenario.build Scenario.wl1 (Scenario.clusterA "Path")
             (Scenario.kubeconfigA Scenario.validData) (Scenario.gitCreds []) ∅ in
  let out := getSpokeClusterConfig (Fake.reconciler "kueue-system") "cluster-a" w in
  fst out = Done (Err (errorString "stat kubeconfig-a: no such file or directory"))
  ∧ Fake.actions (snd out)
    = [Fake.GetAction Fake.Hub "multikueueclusters" "" "cluster-a"].
Proof.
  intros w out. subst out.
  rewrite (getSpokeClusterConfig_path (H := Fake.external)
             (Fake.reconciler "kueue-system") "cluster-a" (Scenario.clusterA "Path")
             w _ eq_refl eq_refl).
  split; reflexivity.
Defined.

(* ===================================================================== *)
(** ** Further properties: what a reconciliation can do *)
(* ===================================================================== *)

Section Rules.
Context {W : Type}.

Lemma returns_ret {A} (a : A) (Q : A -> Prop) : Q a -> returns (W := W) (ret a) Q.
Proof. intros HQ w. exists a, w. split; [reflexivity|exact HQ]. Qed.

Lemma returns_effect (f : W -> W) : total (effect f).
Proof. intros w. exists tt, (f w). split; [reflexivity|exact I]. Qed.

Lemma returns_bind {A B} (m : M W A) (k : A -> M W B) (Q : A -> Prop)
    (Q' : B -> Prop) :
  returns m Q -> (∀ a, Q a -> returns (k a) Q') -> returns (bind m k) Q'.
Proof.
  intros Hm Hk w. destruct (Hm w) as (a & w1 & Hrun & Ha).
  unfold bind. rewrite Hrun. apply Hk, Ha.
Qed.

Lemma preserves_ret {A} (R : W -> W -> Prop) `{!Reflexive R} (a : A) :
  preserves R (ret a).
Proof. intros w. simpl. reflexivity. Qed.

Lemma preserves_panic {A} (R : W -> W -> Prop) `{!Reflexive R} (msg : string) :
  preserves R (panic (A := A) msg).
Proof. intros w. simpl. reflexivity. Qed.

Lemma preserves_effect (R : W -> W -> Prop) (f : W -> W) :
  (∀ w, R w (f w)) -> preserves R (effect f).
Proof. intros Hf w. apply Hf. Qed.

Lemma preserves_bind {A B} (R : W -> W -> Prop) `{!Transitive R}
    (m : M W A) (k : A -> M W B) :
  preserves R m -> (∀ a, preserves R (k a)) -> preserves R (bind m k).
Proof.
  intros Hm Hk w. specialize (Hm w). unfold bind.
  destruct (m w) as [[a|msg] w1]; simpl in *; [|exact Hm].
  transitivity w1; [exact Hm|apply Hk].
Qed.

End Rules.

Section Contracts.
Context {W : Type} `{External W}.
Implicit Types (r : Reconciler W) (w : W).

Lemma total_ret {A} (a : A) : total (W := W) (ret a).
Proof. now apply returns_ret. Qed.

Lemma total_log (l : SugaredLogger) (msg : string) :
  total (Debugf l msg) ∧ total (Infof l msg) ∧ total (Errorf l msg).
Proof. repeat split; apply returns_effect. Qed.

(** Close or split a goal [returns m Q] along the structure of [m]. *)
Ltac tot :=
  repeat first
    [ apply total_ret
    | apply returns_effect
    | apply (proj1 (total_log _ _))
    | apply (proj1 (proj2 (total_log _ _)))
    | apply (proj2 (proj2 (total_log _ _)))
    | match goal with
      | Hx : ∀ ns name, total (Secrets_Get ?k ns name)
        |- returns (Secrets_Get ?k _ _) _ => apply Hx
      | Hx : ∀ ns s, total (Secrets_Create ?k ns s)
        |- returns (Secrets_Create ?k _ _) _ => apply Hx
      | Hx : ∀ ns name, total (Workloads_Get ?l ns name)
        |- returns (Workloads_Get ?l _ _) _ => apply Hx
      | Hx : ∀ name, total (MultiKueueClusters_Get ?k name)
        |- returns (MultiKueueClusters_Get ?k _) _ => apply Hx
      | Hx : ∀ masterUrl path, total (clientcmd_BuildConfigFromFlags masterUrl path)
        |- returns (clientcmd_BuildConfigFromFlags _ _) _ => apply Hx
      | |- returns (bind _ _) _ => eapply returns_bind; [|intros ? _]
      | |- returns (match ?x with _ => _ end) _ => destruct x eqn:?
      end ].

Lemma getSpokeClusterConfig_total r clusterName :
  clients_total r -> total (getSpokeClusterConfig r clusterName).
Proof.
  intros (Hget & Hl & Hc & Hb & Hk & Ht).
  unfold getSpokeClusterConfig, total. tot.
Qed.

Lemma validate_returns r spokeTektonClient plrName plrNamespace clusterName :
  total (PipelineRuns_Get spokeTektonClient plrNamespace plrName) ->
  returns (validatePLRAndGetSecretName r spokeTektonClient plrName plrNamespace
             clusterName)
    (fun v => fst (fst v) ≠ "" -> is_Some (snd (fst v))).
Proof.
  intros Hget w.
  assert (Htotal : total (validatePLRAndGetSecretName r spokeTektonClient plrName
                            plrNamespace clusterName)).
  { unfold validatePLRAndGetSecretName, total.
    eapply returns_bind; [apply Hget|]. intros ? _. tot. }
  destruct (Htotal w) as ([[name plr] err] & w' & Hrun & _).
  exists (name, plr, err), w'. split; [exact Hrun|].
  apply (validate_shape _ _ _ _ _ _ _ _ _ _ Hrun).
Qed.

Lemma createSecretOnSpokeCluster_total r secretName clusterName spokeKubeClient plr :
  (∀ ns name, total (Secrets_Get (hubKubeClient r) ns name)) ->
  (∀ ns s, total (Secrets_Create spokeKubeClient ns s)) ->
  total (createSecretOnSpokeCluster r secretName clusterName spokeKubeClient (Some plr)).
Proof.
  intros Hget Hcreate.
  unfold createSecretOnSpokeCluster, deref, total. cbv zeta. tot.
Qed.

Lemma Reconcile_total r ctx key : clients_total r -> total (Reconcile r ctx key).
Proof.
  intros Hclients.
  pose proof Hclients as (Hget & Hl & Hc & Hb & Hk & Ht).
  unfold Reconcile, total.
  destruct (cache_SplitMetaNamespaceKey key) as [[namespace name] [e|]]; [tot|].
  cbv zeta.
  eapply returns_bind; [tot|]. intros _ _.
  eapply returns_bind; [tot|]. intros [workload|e] _; [|tot].
  destruct (Workload.Spec_Active workload) as [[|]|]; try solve [tot].
  all: destruct (Workload.Status_ClusterName workload) as [[|c cs]|]; try solve [tot].
  all: destruct (metav1_GetControllerOf workload) as [ref|]; try solve [tot].
  all: destruct (negb _); try solve [tot].
  all: eapply returns_bind; [now apply getSpokeClusterConfig_total|].
  all: intros [cfg|e] _; [|tot].
  all: destruct (kubernetes_NewForConfig cfg) as [k|e] eqn:Hkube; [|tot].
  all: destruct (tektonversioned2_NewForConfig cfg) as [t|e] eqn:Htekton; [|tot].
  all: eapply returns_bind; [apply validate_returns; eapply Ht; exact Htekton|].
  all: intros [[secretName pipelineRun] [e|]] Hshape; [tot|]; simpl in Hshape.
  all: destruct (String.eqb_spec secretName "") as [_|Hname]; [tot|].
  all: destruct (Hshape Hname) as [plr ->].
  all: eapply returns_bind;
    [apply createSecretOnSpokeCluster_total;
       [exact Hget|intros; eapply Hk; exact Hkube]|].
  all: intros [e|] _; unfold deref; tot.
Qed.

(** X19.  [Reconcile] does not panic: when every client call answers, it
    returns, for every key and from every state.  In particular the
    PipelineRun pointer handed to the syncer is never nil, because the
    validator returns a non-empty secret name only together with a
    PipelineRun. *)
Theorem Reconcile_never_panics r ctx key w :
  clients_total r ->
  ∃ result w', Reconcile r ctx key w = (Done result, w').
Proof.
  intros Hclients.
  destruct (Reconcile_total r ctx key Hclients w) as (result & w' & Hrun & _).
  eauto.
Qed.

End Contracts.

Section Frame.
Context {W : Type} `{External W}.
Context (R : W -> W -> Prop) `{!Reflexive R} `{!Transitive R}.
Implicit Types (r : Reconciler W) (w : W).

(** Close or split a goal [preserves R m] along the structure of [m]. *)
Ltac pres Hlog :=
  unfold Debugf, Infof, Errorf, deref;
  repeat first
    [ apply preserves_ret; assumption
    | apply preserves_panic; assumption
    | apply preserves_effect; intros ?; apply Hlog
    | match goal with
      | Hx : ∀ ns name, preserves R (Secrets_Get ?k ns name)
        |- preserves R (Secrets_Get ?k _ _) => apply Hx
      | Hx : ∀ ns s, preserves R (Secrets_Create ?k ns s)
        |- preserves R (Secrets_Create ?k _ _) => apply Hx
      | Hx : ∀ ns name, preserves R (Workloads_Get ?l ns name)
        |- preserves R (Workloads_Get ?l _ _) => apply Hx
      | Hx : ∀ name, preserves R (MultiKueueClusters_Get ?k name)
        |- preserves R (MultiKueueClusters_Get ?k _) => apply Hx
      | Hx : ∀ masterUrl path, preserves R (clientcmd_BuildConfigFromFlags masterUrl path)
        |- preserves R (clientcmd_BuildConfigFromFlags _ _) => apply Hx
      | |- preserves R (bind _ _) => apply preserves_bind; [assumption| |intros ?]
      | |- preserves R (match ?x with _ => _ end) => destruct x eqn:?
      end ].

Lemma getSpokeClusterConfig_preserves r clusterName :
  clients_preserve R r -> preserves R (getSpokeClusterConfig r clusterName).
Proof using Type*.
  intros (Hlog & Hget & Hl & Hc & Hb & Hk & Ht).
  unfold getSpokeClusterConfig. pres Hlog.
Qed.

Lemma validate_preserves r spokeTektonClient plrName plrNamespace clusterName :
  (∀ l lvl msg w, R w (zap_write l lvl msg w)) ->
  preserves R (PipelineRuns_Get spokeTektonClient plrNamespace plrName) ->
  preserves R (validatePLRAndGetSecretName r spokeTektonClient plrName plrNamespace
                 clusterName).
Proof using Type*.
  intros Hlog Hget. unfold validatePLRAndGetSecretName.
  apply preserves_bind; [assumption|exact Hget|]. intros ?. pres Hlog.
Qed.

Lemma createSecretOnSpokeCluster_preserves r secretName clusterName spokeKubeClient
    pipelineRun :
  (∀ l lvl msg w, R w (zap_write l lvl msg w)) ->
  (∀ ns name, preserves R (Secrets_Get (hubKubeClient r) ns name)) ->
  (∀ ns s, preserves R (Secrets_Create spokeKubeClient ns s)) ->
  preserves R (createSecretOnSpokeCluster r secretName clusterName spokeKubeClient
                 pipelineRun).
Proof using Type*.
  intros Hlog Hget Hcreate.
  unfold createSecretOnSpokeCluster. cbv zeta. pres Hlog.
Qed.

(** [Reconcile] changes the world through its logger and clients only: a
    relation that each of their calls keeps is kept by [Reconcile]. *)
Lemma Reconcile_preserves r ctx key :
  clients_preserve R r -> preserves R (Reconcile r ctx key).
Proof using Type*.
  intros Hclients.
  pose proof Hclients as (Hlog & Hget & Hl & Hc & Hb & Hk & Ht).
  unfold Reconcile.
  destruct (cache_SplitMetaNamespaceKey key) as [[namespace name] [e|]];
    [pres Hlog|].
  cbv zeta.
  apply preserves_bind; [assumption|pres Hlog|]. intros _.
  apply preserves_bind; [assumption|pres Hlog|]. intros [workload|e]; [|pres Hlog].
  destruct (Workload.Spec_Active workload) as [[|]|]; try solve [pres Hlog].
  all: destruct (Workload.Status_ClusterName workload) as [[|c cs]|];
    try solve [pres Hlog].
  all: destruct (metav1_GetControllerOf workload) as [ref|]; try solve [pres Hlog].
  all: destruct (negb _); try solve [pres Hlog].
  all: apply preserves_bind;
    [assumption|now apply getSpokeClusterConfig_preserves|].
  all: intros [cfg|e]; [|pres Hlog].
  all: destruct (kubernetes_NewForConfig cfg) as [k|e] eqn:Hkube; [|pres Hlog].
  all: destruct (tektonversioned2_NewForConfig cfg) as [t|e] eqn:Htekton; [|pres Hlog].
  all: apply preserves_bind;
    [assumption|apply validate_preserves; [exact Hlog|eapply Ht; exact Htekton]|].
  all: intros [[secretName pipelineRun] [e|]]; [pres Hlog|].
  all: destruct (secretName =? "")%string; [pres Hlog|].
  all: apply preserves_bind;
    [assumption
    |apply createSecretOnSpokeCluster_preserves;
       [exact Hlog|exact Hget|intros; eapply Hk; exact Hkube]|].
  all: intros [e|]; pres Hlog.
Qed.

End Frame.

(** X20.  [Reconcile] reaches the world only through its logger, the cache
    lookup, the registration and secret reads on the hub, the kubeconfig
    file loader, and the PipelineRun read and secret create on the clients
    built for the spoke: a reflexive and transitive relation on states that
    each of these keeps is kept by [Reconcile].  It therefore never creates
    on the hub and never reads secrets from the spoke. *)
Theorem Reconcile_keeps_what_its_calls_keep {W : Type} `{External W}
    (R : W -> W -> Prop) (r : Reconciler W) ctx key w :
  Reflexive R -> Transitive R ->
  clients_preserve R r ->
  R w (snd (Reconcile r ctx key w)).
Proof.
  intros Hrefl Htrans Hclients.
  exact (Reconcile_preserves R r ctx key Hclients w).
Qed.

Section FakeFrame.
Import Fake.
Implicit Types (w : World) (t : Target).

Lemma only_adds_unchanged w w' :
  workloads w' = workloads w ->
  multiKueueClusters w' = multiKueueClusters w ->
  hub w' = hub w ->
  files w' = files w ->
  spokes w' = spokes w ->
  only_adds_spoke_secrets w w'.
Proof.
  intros Hw Hm Hh Hf Hs. repeat split; try assumption.
  - intros host. now rewrite Hs.
  - intros host c Hc. exists c. rewrite Hs. repeat split; [exact Hc|reflexivity].
Qed.

#[local] Instance only_adds_reflexive : Reflexive only_adds_spoke_secrets.
Proof. intros w. now apply only_adds_unchanged. Qed.

#[local] Instance only_adds_transitive : Transitive only_adds_spoke_secrets.
Proof.
  intros w1 w2 w3 (Hw & Hm & Hh & Hf & Hn & Hs) (Hw' & Hm' & Hh' & Hf' & Hn' & Hs').
  repeat split; try congruence.
  - intros host Hnone. apply Hn', Hn, Hnone.
  - intros host c Hc. destruct (Hs host c Hc) as (c2 & Hc2 & Hp2 & Hsub2).
    destruct (Hs' host c2 Hc2) as (c3 & Hc3 & Hp3 & Hsub3).
    exists c3. split; [exact Hc3|]. split; [congruence|].
    etransitivity; eassumption.
Qed.

Lemma only_adds_write_log l lvl msg w :
  only_adds_spoke_secrets w (write_log l lvl msg w).
Proof. now apply only_adds_unchanged. Qed.

Lemma only_adds_getSecret t ns name :
  preserves only_adds_spoke_secrets (getSecret t ns name).
Proof.
  intros w. unfold getSecret. cbv zeta.
  destruct (cluster_at t _) as [c|]; [destruct (secrets c !! _)|];
    now apply only_adds_unchanged.
Qed.

Lemma only_adds_getPipelineRun t ns name :
  preserves only_adds_spoke_secrets (getPipelineRun t ns name).
Proof.
  intros w. unfold getPipelineRun. cbv zeta.
  destruct (cluster_at t _) as [c|]; [destruct (pipelineRuns c !! _)|];
    now apply only_adds_unchanged.
Qed.

Lemma only_adds_getMultiKueueCluster name :
  preserves only_adds_spoke_secrets (getMultiKueueCluster name).
Proof.
  intros w. unfold getMultiKueueCluster. cbv zeta.
  destruct (multiKueueClusters _ !! _); now apply only_adds_unchanged.
Qed.

Lemma only_adds_getWorkload ns name :
  preserves only_adds_spoke_secrets (getWorkload ns name).
Proof.
  intros w. unfold getWorkload.
  destruct (workloads w !! _); now apply only_adds_unchanged.
Qed.

Lemma only_adds_buildConfigFromFlags masterUrl path :
  preserves only_adds_spoke_secrets (buildConfigFromFlags masterUrl path).
Proof.
  intros w. unfold buildConfigFromFlags.
  destruct (files w !! _); now apply only_adds_unchanged.
Qed.

Lemma only_adds_createSecret_on_spoke host ns s :
  preserves only_adds_spoke_secrets (createSecret (Spoke host) ns s).
Proof.
  intros w. unfold createSecret. cbv zeta.
  set (a := CreateAction _ _ _ _).
  change (cluster_at (Spoke host) (record a w)) with (spokes w !! host).
  destruct (spokes w !! host) as [c|] eqn:Hc; [|now apply only_adds_unchanged].
  destruct (secrets c !! _) as [old|] eqn:Hfree; [now apply only_adds_unchanged|].
  repeat split; simpl.
  - intros host' Hnone. rewrite lookup_insert_ne; [exact Hnone|congruence].
  - intros host' c0 Hc0. destruct (decide (host = host')) as [<-|Hne].
    + rewrite lookup_insert_eq. eexists. split; [reflexivity|].
      assert (c0 = c) as -> by congruence.
      split; [reflexivity|]. simpl. now apply insert_subseteq.
    + rewrite lookup_insert_ne by exact Hne.
      exists c0. repeat split; [exact Hc0|reflexivity].
Qed.

Lemma Fake_clients_preserve kns :
  clients_preserve only_adds_spoke_secrets (reconciler kns).
Proof.
  unfold clients_preserve. split; [exact only_adds_write_log|].
  split; [intros ns name; apply only_adds_getSecret|].
  split; [intros ns name; apply only_adds_getWorkload|].
  split; [intros name; apply only_adds_getMultiKueueCluster|].
  split; [intros masterUrl path; apply only_adds_buildConfigFromFlags|].
  split.
  - intros cfg k ns s [= <-]. apply only_adds_createSecret_on_spoke.
  - intros cfg t ns name [= <-]. apply only_adds_getPipelineRun.
Qed.

Lemma Fake_op_total {A} (m : M World A) :
  (∀ w, ∃ a w', m w = (Done a, w')) -> total m.
Proof. intros Hm w. destruct (Hm w) as (a & w' & ->). eauto. Qed.

Lemma Fake_clients_total kns : clients_total (reconciler kns).
Proof.
  unfold clients_total.
  split; [intros ns name; apply Fake_op_total; intros w; simpl;
          unfold getSecret; cbv zeta;
          destruct (cluster_at _ _) as [c|]; [destruct (secrets c !! _)|]; eauto|].
  split; [intros ns name; apply Fake_op_total; intros w; simpl;
          unfold getWorkload; destruct (workloads w !! _); eauto|].
  split; [intros name; apply Fake_op_total; intros w; simpl;
          unfold getMultiKueueCluster; cbv zeta;
          destruct (multiKueueClusters _ !! _); eauto|].
  split; [intros masterUrl path; apply Fake_op_total; intros w; simpl;
          unfold buildConfigFromFlags; destruct (files w !! _); eauto|].
  split.
  - intros cfg k ns s [= <-]. apply Fake_op_total. intros w. simpl.
    unfold createSecret. cbv zeta.
    destruct (cluster_at _ _) as [c|]; [destruct (secrets c !! _)|]; eauto.
  - intros cfg t ns name [= <-]. apply Fake_op_total. intros w. simpl.
    unfold getPipelineRun. cbv zeta.
    destruct (cluster_at _ _) as [c|]; [destruct (pipelineRuns c !! _)|]; eauto.
Qed.

(** X21.  On the fake world, whatever the key and the state, a
    reconciliation leaves the workload cache, the registrations, the hub
    and the files as they were, and on every spoke it keeps the
    PipelineRuns and every secret already there: it can only add secrets. *)
Theorem Reconcile_only_adds_spoke_secrets kns key w :
  only_adds_spoke_secrets w (snd (Reconcile (reconciler kns) ctx key w)).
Proof.
  apply (Reconcile_preserves only_adds_spoke_secrets (reconciler kns) ctx key).
  apply Fake_clients_preserve.
Qed.

End FakeFrame.

Lemma Reconcile_keeps_what_its_calls_keep_witness :
  Fake.hub (snd (Reconcile (Fake.reconciler "kueue-system") Fake.ctx "ns/wl-1"
                   (Scenario.world "spoke-uid" [])))
  = Fake.hub (Scenario.world "spoke-uid" []).
Proof.
  refine (proj1 (proj2 (proj2
            (Reconcile_keeps_what_its_calls_keep (H := Fake.external)
               only_adds_spoke_secrets (Fake.reconciler "kueue-system") Fake.ctx
               "ns/wl-1" (Scenario.world "spoke-uid" []) _ _ _)))).
  - exact only_adds_reflexive.
  - exact only_adds_transitive.
  - apply Fake_clients_preserve.
Defined.

Lemma Reconcile_never_panics_witness :
  ∃ result w',
    Reconcile (Fake.reconciler "kueue-system") Fake.ctx "ns/wl-1"
      (Scenario.world "spoke-uid" [])
    = (Done result, w').
Proof.
  apply (Reconcile_never_panics (H := Fake.external)).
  apply Fake_clients_total.
Defined.

(* ===================================================================== *)
(** ** Further properties: the hub client at start-up *)
(* ===================================================================== *)

Section StartupFacts.
Context {W : Type} `{Process W}.
Implicit Types (w : W).

(** X22.  When the in-cluster configuration is available the hub client is
    built from it: the environment is not read and no kubeconfig file is
    loaded. *)
Theorem getKubeClientAndConfig_in_cluster cfg w w1 :
  rest_InClusterConfig w = (Done (Ok cfg), w1) ->
  getKubeClientAndConfig w = (Done (hubClientFor (Ok cfg)), w1).
Proof.
  intros Hin. unfold getKubeClientAndConfig. run. rewrite Hin. cbv beta iota.
  unfold hubClientFor. destruct (kubernetes_NewForConfig cfg); reflexivity.
Qed.

(** X23.  When the in-cluster configuration is not available, its error is
    dropped and the kubeconfig file is loaded from the path in [KUBECONFIG],
    or, when that variable is empty, from [.kube/config] under [HOME]; a
    failure to load it, or to build the client, is returned. *)
Theorem getKubeClientAndConfig_fallback err kubeconfig home res w w1 w2 w3 w4 :
  rest_InClusterConfig w = (Done (Err err), w1) ->
  os_Getenv "KUBECONFIG" w1 = (Done kubeconfig, w2) ->
  (if String.eqb kubeconfig "" then os_Getenv "HOME" w2 = (Done home, w3)
   else w3 = w2) ->
  clientcmd_BuildConfigFromFlags ""
    (if String.eqb kubeconfig "" then home +:+ "/.kube/config" else kubeconfig) w3
  = (Done res, w4) ->
  getKubeClientAndConfig w = (Done (hubClientFor res), w4).
Proof.
  intros Hin Hkc Hhome Hbuild. unfold getKubeClientAndConfig. run.
  rewrite Hin. cbv beta iota. rewrite Hkc. cbv beta iota.
  destruct (String.eqb kubeconfig "").
  - rewrite Hhome. cbv beta iota. rewrite Hbuild. cbv beta iota.
    unfold hubClientFor. destruct res as [cfg|e]; [|reflexivity].
    destruct (kubernetes_NewForConfig cfg); reflexivity.
  - subst w3. cbv beta iota. rewrite Hbuild. cbv beta iota.
    unfold hubClientFor. destruct res as [cfg|e]; [|reflexivity].
    destruct (kubernetes_NewForConfig cfg); reflexivity.
Qed.

End StartupFacts.

Lemma getKubeClientAndConfig_in_cluster_witness :
  let w := Fake.mkWorld ∅ ∅ (Fake.mkCluster ∅ ∅) ∅ ∅ [] [] [] in
  @getKubeClientAndConfig Fake.World Fake.external
    (fakeProcess (Ok "https://hub:6443") ∅) w
  = (Done (Ok (Fake.kube (Fake.Spoke "https://hub:6443"), "https://hub:6443")), w).
Proof.
  intros w.
  exact (@getKubeClientAndConfig_in_cluster Fake.World Fake.external
           (fakeProcess (Ok "https://hub:6443") ∅) "https://hub:6443" w w eq_refl).
Defined.

Lemma getKubeClientAndConfig_fallback_witness :
  let w := Fake.mkWorld ∅ ∅ (Fake.mkCluster ∅ ∅) ∅
             {[ "/home/dev/.kube/config" := Scenario.bytes "server: https://hub:6443" ]}
             [] [] [] in
  @getKubeClientAndConfig Fake.World Fake.external
    (fakeProcess (Err (errorString "unable to load in-cluster configuration"))
       {[ "HOME" := "/home/dev" ]}) w
  = (Done (Ok (Fake.kube (Fake.Spoke "https://hub:6443"), "https://hub:6443")), w).
Proof.
  intros w.
  exact (@getKubeClientAndConfig_fallback Fake.World Fake.external
           (fakeProcess (Err (errorString "unable to load in-cluster configuration"))
              {[ "HOME" := "/home/dev" ]})
           (errorString "unable to load in-cluster configuration")
           "" "/home/dev" (Ok "https://hub:6443") w w w w w
           eq_refl eq_refl eq_refl eq_refl).
Defined.

(* ===================================================================== *)
(** ** Further properties: running a reconciliation again *)
(* ===================================================================== *)

Section Rerun.
Import Fake.
Implicit Types (u v w : World).

Lemma same_objects_refl w : same_objects w w.
Proof. repeat split. Qed.

Lemma same_objects_trans w1 w2 w3 :
  same_objects w1 w2 -> same_objects w2 w3 -> same_objects w1 w3.
Proof. unfold same_objects. intuition congruence. Qed.

Lemma same_objects_sym w1 w2 : same_objects w1 w2 -> same_objects w2 w1.
Proof. unfold same_objects. intuition. Qed.

Lemma covers_refl w : covers w w.
Proof.
  repeat split; try done. intros host c Hc. exists c. repeat split; done.
Qed.

Lemma covers_trans w1 w2 w3 : covers w1 w2 -> covers w2 w3 -> covers w1 w3.
Proof.
  intros (Hw & Hm & Hh & Hf & Hn & Hs) (Hw' & Hm' & Hh' & Hf' & Hn' & Hs').
  repeat split; try congruence.
  - intros host Hnone. apply Hn', Hn, Hnone.
  - intros host c Hc. destruct (Hs host c Hc) as (c2 & Hc2 & Hp2 & Hk2).
    destruct (Hs' host c2 Hc2) as (c3 & Hc3 & Hp3 & Hk3).
    exists c3. split; [exact Hc3|]. split; [congruence|]. auto.
Qed.

Lemma covers_objects u u' v v' :
  same_objects u u' -> same_objects v v' -> covers u v -> covers u' v'.
Proof.
  intros (Hw1 & Hm1 & Hh1 & Hf1 & Hs1) (Hw2 & Hm2 & Hh2 & Hf2 & Hs2)
    (Hw & Hm & Hh & Hf & Hn & Hs).
  repeat split; try congruence.
  - intros host. rewrite Hs1, Hs2. apply Hn.
  - intros host c. rewrite Hs1, Hs2. apply Hs.
Qed.

Lemma covers_of_same u u' : same_objects u u' -> covers u u'.
Proof.
  intros Hsame.
  apply (covers_objects u u u u');
    [apply same_objects_refl|exact Hsame|apply covers_refl].
Qed.

Lemma settles_ret {A} (a : A) : settles eq (ret a) (ret a).
Proof.
  intros u v Hcov. exists a, u, a, v.
  split; [reflexivity|]. split; [reflexivity|]. split; [reflexivity|].
  split; [apply covers_refl|]. split; [exact Hcov|].
  intros _. apply same_objects_refl.
Qed.

Lemma settles_bind {A A' B B'} (Qa : A -> A' -> Prop) (Qb : B -> B' -> Prop)
    (m : M World A) (m' : M World A') (k : A -> M World B) (k' : A' -> M World B') :
  settles Qa m m' ->
  (∀ a a', Qa a a' -> settles Qb (k a) (k' a')) ->
  settles Qb (bind m k) (bind m' k').
Proof.
  intros Hm Hk u v Hcov.
  destruct (Hm u v Hcov) as (a & u1 & a' & v1 & Hu & Hv & Ha & Huu1 & Hu1v1 & Hsame1).
  destruct (Hk a a' Ha u1 v1 Hu1v1)
    as (b & u2 & b' & v2 & Hu' & Hv' & Hb & Hu1u2 & Hu2v2 & Hsame2).
  exists b, u2, b', v2. unfold bind. rewrite Hu, Hv.
  split; [exact Hu'|]. split; [exact Hv'|]. split; [exact Hb|].
  split; [eapply covers_trans; eassumption|]. split; [exact Hu2v2|].
  intros Hu2v.
  assert (Hv1 : same_objects v v1) by (apply Hsame1; eapply covers_trans; eassumption).
  apply same_objects_trans with v1; [exact Hv1|].
  apply Hsame2. apply covers_objects with u2 v;
    [apply same_objects_refl|exact Hv1|exact Hu2v].
Qed.

(** An operation that leaves the objects alone and whose answer is the same
    in covering worlds. *)
Lemma settles_read {A} (m : M World A) :
  (∀ w, ∃ a w', m w = (Done a, w') ∧ same_objects w w') ->
  (∀ u v, covers u v -> fst (m u) = fst (m v)) ->
  settles eq m m.
Proof.
  intros Hrun Hval u v Hcov.
  destruct (Hrun u) as (a & u' & Hu & Hsu). destruct (Hrun v) as (b & v' & Hv & Hsv).
  specialize (Hval u v Hcov). rewrite Hu, Hv in Hval. simpl in Hval.
  injection Hval as <-.
  exists a, u', a, v'.
  split; [exact Hu|]. split; [exact Hv|]. split; [reflexivity|].
  split; [apply covers_of_same, Hsu|].
  split; [apply covers_objects with u v; assumption|].
  intros _. exact Hsv.
Qed.

Lemma settles_log l lvl msg l' lvl' msg' :
  settles eq (effect (write_log l lvl msg)) (effect (write_log l' lvl' msg')).
Proof.
  intros u v Hcov. exists tt, (write_log l lvl msg u), tt, (write_log l' lvl' msg' v).
  split; [reflexivity|]. split; [reflexivity|]. split; [reflexivity|].
  split; [apply covers_of_same; repeat split|].
  split; [revert Hcov; apply covers_objects; repeat split|].
  intros _. repeat split.
Qed.

Lemma settles_getWorkload ns name : settles eq (getWorkload ns name) (getWorkload ns name).
Proof.
  apply settles_read.
  - intros w. unfold getWorkload. destruct (workloads w !! _); eauto using same_objects_refl.
  - intros u v (Hw & _). unfold getWorkload. rewrite Hw.
    destruct (workloads u !! _); reflexivity.
Qed.

Lemma settles_getMultiKueueCluster name :
  settles eq (getMultiKueueCluster name) (getMultiKueueCluster name).
Proof.
  apply settles_read.
  - intros w. unfold getMultiKueueCluster. cbv zeta.
    destruct (multiKueueClusters _ !! _); eexists _, _; (split; [reflexivity|]);
      repeat split.
  - intros u v (_ & Hm & _). unfold getMultiKueueCluster. cbv zeta.
    change (multiKueueClusters (record ?a v)) with (multiKueueClusters v).
    change (multiKueueClusters (record ?a u)) with (multiKueueClusters u).
    rewrite Hm. destruct (multiKueueClusters u !! _); reflexivity.
Qed.

Lemma settles_buildConfigFromFlags masterUrl path :
  settles eq (buildConfigFromFlags masterUrl path) (buildConfigFromFlags masterUrl path).
Proof.
  apply settles_read.
  - intros w. unfold buildConfigFromFlags.
    destruct (files w !! _); eauto using same_objects_refl.
  - intros u v (_ & _ & _ & Hf & _). unfold buildConfigFromFlags. rewrite Hf.
    destruct (files u !! _); reflexivity.
Qed.

Lemma settles_getSecret_hub ns name :
  settles eq (getSecret Hub ns name) (getSecret Hub ns name).
Proof.
  apply settles_read.
  - intros w. unfold getSecret. cbv zeta. simpl cluster_at. cbv beta iota.
    destruct (secrets (hub w) !! (ns, name));
      eexists _, _; (split; [reflexivity|]); repeat split.
  - intros u v (_ & _ & Hh & _). unfold getSecret. cbv zeta. simpl cluster_at.
    cbv beta iota. rewrite Hh. destruct (secrets (hub u) !! (ns, name)); reflexivity.
Qed.

Lemma settles_getPipelineRun host ns name :
  settles eq (getPipelineRun (Spoke host) ns name) (getPipelineRun (Spoke host) ns name).
Proof.
  apply settles_read.
  - intros w. unfold getPipelineRun. cbv zeta. simpl cluster_at.
    destruct (spokes _ !! host) as [c|]; [destruct (pipelineRuns c !! (ns, name))|];
      eexists _, _; (split; [reflexivity|]); repeat split.
  - intros u v (_ & _ & _ & _ & Hn & Hs). unfold getPipelineRun. cbv zeta.
    change (cluster_at (Spoke host) (record ?a v)) with (spokes v !! host).
    change (cluster_at (Spoke host) (record ?a u)) with (spokes u !! host).
    destruct (spokes u !! host) as [c|] eqn:Hc.
    + destruct (Hs host c Hc) as (c' & -> & Hp & _). rewrite Hp.
      destruct (pipelineRuns c !! (ns, name)); reflexivity.
    + rewrite (Hn host Hc). reflexivity.
Qed.

(** Covering is decided by the objects: the four hub-side components and,
    spoke by spoke, the PipelineRuns and the taken identities. *)
Lemma covers_intro u v :
  workloads v = workloads u ->
  multiKueueClusters v = multiKueueClusters u ->
  hub v = hub u ->
  files v = files u ->
  (∀ host, spokes u !! host = None -> spokes v !! host = None) ->
  (∀ host c, spokes u !! host = Some c ->
     ∃ c', spokes v !! host = Some c'
           ∧ pipelineRuns c' = pipelineRuns c
           ∧ ∀ k, is_Some (secrets c !! k) -> is_Some (secrets c' !! k)) ->
  covers u v.
Proof. intros. repeat split; assumption. Qed.

Lemma settles_createSecret host ns s :
  settles accepted_or_taken
    (createSecret (Spoke host) ns s) (createSecret (Spoke host) ns s).
Proof.
  intros u v Hcov. pose proof Hcov as (Hw & Hm & Hh & Hf & Hn & Hs).
  unfold createSecret. cbv zeta.
  set (name := ObjectMeta.Name (Secret.ObjectMeta s)).
  set (act := CreateAction (Spoke host) "secrets" ns name).
  change (cluster_at (Spoke host) (record act u)) with (spokes u !! host).
  change (cluster_at (Spoke host) (record act v)) with (spokes v !! host).
  assert (Hrec : ∀ w, same_objects w (record act w)) by (intros w; repeat split).
  assert (Hstay : covers (record act u) (record act v))
    by (revert Hcov; apply covers_objects; apply Hrec).
  destruct (spokes u !! host) as [c|] eqn:Hc.
  - destruct (Hs host c Hc) as (c' & Hc' & Hp & Hkeys). rewrite Hc'.
    destruct (secrets c !! (ns, name)) as [old|] eqn:Hfree.
    + destruct (Hkeys (ns, name)) as [old' Hold']; [rewrite Hfree; eauto|].
      rewrite Hold'. eexists _, _, _, _.
      split; [reflexivity|]. split; [reflexivity|]. split; [left; reflexivity|].
      split; [apply covers_of_same, Hrec|]. split; [exact Hstay|].
      intros _. apply Hrec.
    + set (cu := mkCluster (<[(ns, name) := s]> (secrets c)) (pipelineRuns c)).
      assert (Hgrow : covers u (set_cluster (Spoke host) cu (record act u))).
      { apply covers_intro; try reflexivity; simpl.
        - intros host' Hnone. rewrite lookup_insert_ne; [exact Hnone|congruence].
        - intros host' c0 Hc0. destruct (decide (host = host')) as [<-|Hne].
          + rewrite lookup_insert_eq. exists cu.
            assert (c0 = c) as -> by congruence.
            split; [reflexivity|]. split; [reflexivity|].
            intros k [x Hx]. simpl. destruct (decide ((ns, name) = k)) as [<-|Hk].
            * rewrite lookup_insert_eq. eauto.
            * rewrite lookup_insert_ne by exact Hk. eauto.
          + rewrite lookup_insert_ne by exact Hne. exists c0.
            split; [exact Hc0|]. split; [reflexivity|]. auto. }
      destruct (secrets c' !! (ns, name)) as [old'|] eqn:Hfree'.
      * eexists _, _, _, _.
        split; [reflexivity|]. split; [reflexivity|].
        split; [right; eexists _, _; repeat split|].
        split; [exact Hgrow|]. split; [|intros _; apply Hrec].
        apply covers_intro; try assumption; simpl.
        -- intros host' Hnone. apply Hn.
           rewrite lookup_insert_ne in Hnone; [exact Hnone|].
           intros <-. rewrite lookup_insert_eq in Hnone. discriminate.
        -- intros host' c0 Hc0. destruct (decide (host = host')) as [<-|Hne].
           ++ rewrite lookup_insert_eq in Hc0. injection Hc0 as <-.
              exists c'. split; [exact Hc'|]. split; [exact Hp|].
              intros k [x Hx]. simpl in Hx.
              destruct (decide ((ns, name) = k)) as [<-|Hk]; [eauto|].
              rewrite lookup_insert_ne in Hx by exact Hk. apply Hkeys. eauto.
           ++ rewrite lookup_insert_ne in Hc0 by exact Hne. apply Hs, Hc0.
      * set (cv := mkCluster (<[(ns, name) := s]> (secrets c')) (pipelineRuns c')).
        eexists _, _, _, _.
        split; [reflexivity|]. split; [reflexivity|]. split; [left; reflexivity|].
        split; [exact Hgrow|]. split.
        -- apply covers_intro; try assumption; simpl.
           ++ intros host' Hnone. destruct (decide (host = host')) as [<-|Hne].
              ** rewrite lookup_insert_eq in Hnone. discriminate.
              ** rewrite lookup_insert_ne in Hnone by exact Hne.
                 rewrite lookup_insert_ne by exact Hne. apply Hn, Hnone.
           ++ intros host' c0 Hc0. destruct (decide (host = host')) as [<-|Hne].
              ** rewrite lookup_insert_eq in Hc0. injection Hc0 as <-.
                 rewrite lookup_insert_eq. exists cv.
                 split; [reflexivity|]. split; [exact Hp|].
                 intros k [x Hx]. simpl in *.
                 destruct (decide ((ns, name) = k)) as [<-|Hk].
                 --- rewrite lookup_insert_eq. eauto.
                 --- rewrite lookup_insert_ne in Hx by exact Hk.
                     rewrite lookup_insert_ne by exact Hk. apply Hkeys. eauto.
              ** rewrite lookup_insert_ne in Hc0 by exact Hne.
                 rewrite lookup_insert_ne by exact Hne. apply Hs, Hc0.
        -- intros (_ & _ & _ & _ & _ & Hs'). exfalso.
           destruct (Hs' host cu) as (c2 & Hc2 & _ & Hk2);
             [simpl; apply lookup_insert_eq|].
           assert (c2 = c') as -> by congruence.
           destruct (Hk2 (ns, name)) as [x Hx];
             [simpl; rewrite lookup_insert_eq; eauto|].
           congruence.
  - rewrite (Hn host Hc). eexists _, _, _, _.
    split; [reflexivity|]. split; [reflexivity|]. split; [left; reflexivity|].
    split; [apply covers_of_same, Hrec|]. split; [exact Hstay|].
    intros _. apply Hrec.
Qed.

Lemma settles_strengthen {A B} (Q : A -> B -> Prop) (P : A -> Prop)
    (m : M World A) (m' : M World B) :
  settles Q m m' ->
  (∀ u a u', m u = (Done a, u') -> P a) ->
  settles (fun a b => Q a b ∧ P a) m m'.
Proof.
  intros Hm HP u v Hcov.
  destruct (Hm u v Hcov) as (a & u' & b & v' & Hu & Hv & HQ & Hrest).
  exists a, u', b, v'. split; [exact Hu|]. split; [exact Hv|].
  split; [|exact Hrest]. split; [exact HQ|]. eapply HP, Hu.
Qed.

(** Close or split a goal [settles eq m m] along the structure of [m]. *)
Ltac stl :=
  repeat first
    [ apply settles_ret
    | apply settles_log
    | apply settles_getSecret_hub
    | apply settles_getWorkload
    | apply settles_getMultiKueueCluster
    | apply settles_buildConfigFromFlags
    | apply settles_getPipelineRun
    | match goal with
      | |- settles eq (bind _ _) (bind _ _) =>
          eapply (settles_bind eq); [|intros ? ? <-]
      | |- settles eq (match ?x with _ => _ end) (match ?x with _ => _ end) =>
          destruct x eqn:?
      end ].

Lemma settles_getSpokeClusterConfig kns clusterName :
  settles eq (getSpokeClusterConfig (reconciler kns) clusterName)
    (getSpokeClusterConfig (reconciler kns) clusterName).
Proof. unfold getSpokeClusterConfig. cbv zeta. stl. Qed.

Lemma settles_validate kns host plrName plrNamespace clusterName :
  settles (fun a b => a = b ∧ (fst (fst a) ≠ "" -> is_Some (snd (fst a))))
    (validatePLRAndGetSecretName (reconciler kns) (tekton (Spoke host)) plrName
       plrNamespace clusterName)
    (validatePLRAndGetSecretName (reconciler kns) (tekton (Spoke host)) plrName
       plrNamespace clusterName).
Proof.
  apply settles_strengthen.
  - unfold validatePLRAndGetSecretName. stl.
  - intros u [[name plr] err] u' Hrun. simpl.
    apply (validate_shape _ _ _ _ _ _ _ _ _ _ Hrun).
Qed.

Lemma settles_createSecretOnSpokeCluster kns secretName clusterName host plr :
  settles eq
    (createSecretOnSpokeCluster (reconciler kns) secretName clusterName
       (kube (Spoke host)) (Some plr))
    (createSecretOnSpokeCluster (reconciler kns) secretName clusterName
       (kube (Spoke host)) (Some plr)).
Proof.
  unfold createSecretOnSpokeCluster, deref. cbv zeta.
  eapply (settles_bind eq); [apply settles_ret|]. intros ? ? <-.
  eapply (settles_bind eq); [apply settles_getSecret_hub|]. intros [secret|e] ? <-;
    [|stl].
  eapply (settles_bind eq); [apply settles_log|]. intros _ _ _.
  eapply (settles_bind accepted_or_taken); [apply settles_createSecret|].
  intros res res' [<-|(s & e & -> & -> & He)].
  - destruct res as [s|e]; [stl|]. destruct (negb (IsAlreadyExists e)); stl.
  - cbv beta iota. rewrite He. change (negb true) with false. cbv iota. stl.
Qed.

Lemma settles_Reconcile kns key :
  settles eq (Reconcile (reconciler kns) ctx key) (Reconcile (reconciler kns) ctx key).
Proof.
  unfold Reconcile.
  destruct (cache_SplitMetaNamespaceKey key) as [[namespace name] [e|]]; [stl|].
  cbv zeta.
  eapply (settles_bind eq); [apply settles_log|]. intros _ _ _.
  eapply (settles_bind eq); [apply settles_getWorkload|].
  intros [workload|e] ? <-; [|destruct (IsNotFound e); stl].
  destruct (Workload.Spec_Active workload) as [[|]|]; try solve [stl].
  all: destruct (Workload.Status_ClusterName workload) as [[|c cs]|];
    try solve [stl].
  all: destruct (metav1_GetControllerOf workload) as [ref|]; try solve [stl].
  all: destruct (negb _); try solve [stl].
  all: eapply (settles_bind eq); [apply settles_getSpokeClusterConfig|].
  all: intros [cfg|e] ? <-; [|stl].
  all: change (kubernetes_NewForConfig cfg) with (Ok (kube (Spoke cfg)));
    change (tektonversioned2_NewForConfig cfg) with (Ok (tekton (Spoke cfg)));
    cbv beta iota.
  all: eapply settles_bind; [apply settles_validate|].
  all: intros [[secretName pipelineRun] [e|]] ? [<- Hshape]; [stl|];
    simpl in Hshape.
  all: destruct (String.eqb_spec secretName "") as [_|Hname]; [stl|].
  all: destruct (Hshape Hname) as [plr ->].
  all: eapply (settles_bind eq); [apply settles_createSecretOnSpokeCluster|].
  all: intros [e|] ? <-; unfold deref; stl.
Qed.

(** X24.  On the fake world, for every key and state, reconciling a second
    time right after the first returns what the first returned and changes
    no object: the workload cache, the registrations, the hub, the files and
    every spoke are as the first run left them.  A secret the first run
    created is met as already existing by the second. *)
Theorem Reconcile_twice kns key w :
  let first := Reconcile (reconciler kns) ctx key w in
  let second := Reconcile (reconciler kns) ctx key (snd first) in
  fst second = fst first ∧ same_objects (snd first) (snd second).
Proof.
  intros first second.
  destruct (settles_Reconcile kns key w w (covers_refl w))
    as (a & w1 & _ & _ & Hrun & _ & _ & Hgrow & _ & _).
  destruct (settles_Reconcile kns key w w1 Hgrow)
    as (a' & w1' & b & w2 & Hrun' & Hrun2 & <- & _ & _ & Hsame).
  assert (w1' = w1) as -> by congruence.
  subst second first. rewrite Hrun. simpl snd. rewrite Hrun2. simpl.
  split; [congruence|]. apply Hsame, covers_refl.
Qed.

End Rerun.
